(** * NeMo customiser utilities: a shallow embedding and its properties

    The development follows the two source files of the repository:

    - [nemo_microservices_utils.py], class [NeMoMicroservicesManager]:
      namespace provisioning, model deployment, the three polling loops
      and the extraction of evaluation metrics (module [Manager]);
    - [nemo_pipeline.py]: the phase functions and [main] (module
      [Pipeline]).

    Module [Py] holds the small part of the Python runtime the two files
    rely on: exceptions, [try]/[except], [time]/[sleep], substring tests,
    insertion-ordered dictionaries and fixed-point float formatting.

    The remote services are not part of the program: the manager's
    functions take the operations they call as parameters, each a
    function of the state of the outside. Modules [Scripted] and
    [Stores] give two concrete outsides to run the embedding against,
    [Observe] the vocabulary of the statements; the properties follow,
    by component: [PollingProps], [DeploymentProps], [NamespaceProps],
    [MetricsProps], [PipelineProps]. *)

From Stdlib Require Import ZArith Lia Ascii String.
From Stdlib Require Import Floats.PrimFloat Floats.FloatOps Floats.SpecFloat.
From stdpp Require Import base strings gmap list pretty.

Set Warnings "-inexact-float".

Local Open Scope Z_scope.

(* ===================================================================== *)
(** * The Python runtime the sources use *)
(* ===================================================================== *)

Module Py.

(** ** Exceptions

    Every class below derives from [Exception], so [except Exception]
    (and a bare [except:]) catches all of them. [RemoteError] stands for
    whatever the SDK client, [requests] or the file system raise. *)

Inductive exn_class : Type :=
  | Exception
  | TimeoutError
  | UnboundLocalError
  | ValueError
  | AttributeError
  | KeyError
  | FileNotFoundError
  | RemoteError.

Record exn : Type := Exn { exn_cls : exn_class; exn_msg : string }.

(** [str(e)] *)
Definition str_exn (e : exn) : string := exn_msg e.

(** The outcome of running a piece of code. [OutOfFuel] is not a Python
    outcome: it marks a [while] loop cut off by the iteration budget of
    the embedding. *)
Inductive result (A : Type) : Type :=
  | Return (a : A)
  | Raise (e : exn)
  | OutOfFuel.

Arguments Return {A} a.
Arguments Raise {A} e.
Arguments OutOfFuel {A}.

(** ** Strings *)

(** [needle in haystack] for two [str] values. *)
Fixpoint str_contains (needle haystack : string) : bool :=
  String.prefix needle haystack
  || match haystack with
     | EmptyString => false
     | String _ rest => str_contains needle rest
     end.

(** [s * n] *)
Fixpoint str_repeat (s : string) (n : nat) : string :=
  match n with
  | O => ""
  | S n' => s +:+ str_repeat s n'
  end.

(** [s.split(sep)] for a one-character separator: never empty. *)
Fixpoint str_split (sep : Ascii.ascii) (s : string) : list string :=
  match s with
  | EmptyString => [""]
  | String c rest =>
      if Ascii.eqb c sep then "" :: str_split sep rest
      else
        match str_split sep rest with
        | [] => [String c ""]
        | piece :: pieces => String c piece :: pieces
        end
  end.

(** [s.replace(old, new)] for two one-character strings. *)
Fixpoint str_replace (old new : Ascii.ascii) (s : string) : string :=
  match s with
  | EmptyString => ""
  | String c rest =>
      String (if Ascii.eqb c old then new else c) (str_replace old new rest)
  end.

(** [l[0]] and [l[-1]] on the pieces of a split. *)
Definition first_piece (l : list string) : string := hd "" l.
Definition last_piece (l : list string) : string := List.last l "".

(** [str(n)] for an [int]. *)
Definition str_int (n : Z) : string := pretty n.

(** [x in (a, b)] for two integer constants. *)
Definition in_pair (x a b : Z) : bool := (x =? a) || (x =? b).

(** Truthiness of an [Optional[str]]: [None] and [""] are falsy. *)
Definition truthy_str (s : option string) : bool :=
  match s with
  | Some EmptyString => false
  | Some _ => true
  | None => false
  end.

(** ** Dictionaries

    A [dict] keeps its keys in insertion order; assigning to a key that
    is present replaces the value and keeps the key's position. *)

Definition dict (V : Type) : Type := list (string * V).

Fixpoint dict_get {V} (d : dict V) (k : string) : option V :=
  match d with
  | [] => None
  | (k', v) :: rest => if String.eqb k' k then Some v else dict_get rest k
  end.

Fixpoint dict_set {V} (d : dict V) (k : string) (v : V) : dict V :=
  match d with
  | [] => [(k, v)]
  | (k', v') :: rest =>
      if String.eqb k' k then (k', v) :: rest else (k', v') :: dict_set rest k v
  end.

Definition dict_keys {V} (d : dict V) : list string := map fst d.

(** [d.update(other)] *)
Definition dict_update {V} (d other : dict V) : dict V :=
  fold_left (fun acc '(k, v) => dict_set acc k v) other d.

Definition dict_mem {V} (d : dict V) (k : string) : bool :=
  match dict_get d k with Some _ => true | None => false end.

(** Truthiness of an [Optional[Dict]]: [None] and [{}] are falsy. *)
Definition truthy_dict {V} (d : option (dict V)) : bool :=
  match d with
  | Some (_ :: _) => true
  | _ => false
  end.

(** ** Floats

    Metric values are IEEE 754 binary64 numbers, as Python's [float]. *)

(** [x != 0] *)
Definition float_nonzero (x : float) : bool := negb (PrimFloat.eqb x 0%float).

(** [s] written with at least [width] characters, zeros to the left. *)
Definition pad_zeros (width : nat) (s : string) : string :=
  str_repeat "0" (width - String.length s) +:+ s.

(** The integer nearest to [num / den], ties to even ([den > 0]). *)
Definition round_half_even (num den : Z) : Z :=
  let q := num / den in
  let r := num mod den in
  if 2 * r <? den then q
  else if den <? 2 * r then q + 1
  else if Z.even q then q else q + 1.

(** [|m * 2^e| * 10^digits] rounded to an integer. *)
Definition scaled_digits (m : positive) (e : Z) (digits : nat) : Z :=
  let p := Z.pos m * 10 ^ Z.of_nat digits in
  if 0 <=? e then p * 2 ^ e else round_half_even p (2 ^ (- e)).

(** [format(x, ".<digits>f")], or [format(x, "+.<digits>f")] when [plus]
    is set: [digits] places after the point, the exact binary value
    rounded half to even; the sign of a NaN is not shown. *)
Definition format_f (plus : bool) (digits : nat) (x : float) : string :=
  let sign (s : bool) : string :=
    if s then "-" else if plus then "+" else "" in
  let body (n : Z) : string :=
    let scale := 10 ^ Z.of_nat digits in
    let whole := str_int (n / scale) in
    match digits with
    | O => whole
    | _ => whole +:+ "." +:+ pad_zeros digits (str_int (n mod scale))
    end in
  match Prim2SF x with
  | S754_nan => sign false +:+ "nan"
  | S754_infinity s => sign s +:+ "inf"
  | S754_zero s => sign s +:+ body 0
  | S754_finite s m e => sign s +:+ body (scaled_digits m e digits)
  end.

(** ** State and effects

    What lies outside the process (the remote services, the network,
    the scheduler) has a state of some type [R]. A call to the outside
    yields an outcome, the next outside state and the time the call took,
    in clock ticks. The process itself sees a wall clock. *)

Inductive level : Type := INFO | WARNING | ERROR.

Record World (R : Type) : Type := MkWorld {
  env : R;                        (* the outside *)
  now : Z;                        (* the wall clock, in ticks *)
  remote_calls : nat;             (* requests to the outside issued so far *)
  log : list (level * string)     (* records of the pipeline's logger *)
}.

Arguments MkWorld {R} env now remote_calls log.
Arguments env {R} w.
Arguments now {R} w.
Arguments remote_calls {R} w.
Arguments log {R} w.

(** What the outside answers to a request: a value, or an error that
    the client library raises in the process. *)
Inductive reply (A : Type) : Type :=
  | Reply (a : A)
  | Fail (e : exn).

Arguments Reply {A} a.
Arguments Fail {A} e.

Definition result_of_reply {A} (r : reply A) : result A :=
  match r with
  | Reply a => Return a
  | Fail e => Raise e
  end.

(** A remote operation: answer, next outside state, ticks taken. *)
Definition op (R A : Type) : Type := R -> reply A * R * nat.

(** A computation of the process. *)
Definition M (R A : Type) : Type := World R -> result A * World R.

Definition ret {R A} (a : A) : M R A := fun w => (Return a, w).

Definition bind {R A B} (m : M R A) (k : A -> M R B) : M R B :=
  fun w =>
    match m w with
    | (Return a, w') => k a w'
    | (Raise e, w') => (Raise e, w')
    | (OutOfFuel, w') => (OutOfFuel, w')
    end.

#[global] Instance M_ret {R} : MRet (M R) := @ret R.
#[global] Instance M_bind {R} : MBind (M R) := fun A B k m => bind m k.

(** [raise e] *)
Definition raise {R A} (e : exn) : M R A := fun w => (Raise e, w).

(** The loop budget of the embedding is spent. *)
Definition out_of_fuel {R A} : M R A := fun w => (OutOfFuel, w).

(** [try: body / except Exception as e: handler e] *)
Definition try_except {R A} (body : M R A) (handler : exn -> M R A) : M R A :=
  fun w =>
    match body w with
    | (Raise e, w') => handler e w'
    | other => other
    end.

(** A request to the outside. *)
Definition call {R A} (o : op R A) : M R A :=
  fun w =>
    let '(r, e', dt) := o (env w) in
    (result_of_reply r,
     MkWorld e' (now w + Z.of_nat dt) (S (remote_calls w)) (log w)).

(** [logger.info(msg)], [logger.warning(msg)], [logger.error(msg)] *)
Definition log_at {R} (l : level) (msg : string) : M R unit :=
  fun w =>
    (Return tt, MkWorld (env w) (now w) (remote_calls w) (log w ++ [(l, msg)])).

(** [for x in l: body x] *)
Fixpoint for_each {R A} (l : list A) (body : A -> M R unit) : M R unit :=
  match l with
  | [] => ret tt
  | x :: rest => bind (body x) (fun _ => for_each rest body)
  end.

Section Clock.
Context {R : Type}.

(** Clock ticks in one second. *)
Variable ticks_per_second : Z.

(** The scheduler: how many ticks a [sleep] overshoots by. *)
Variable oversleep : R -> R * nat.

(** [time()], read in ticks. *)
Definition time : M R Z := fun w => (Return (now w), w).

(** [t1 - t0 < seconds], for two clock readings and a duration in seconds. *)
Definition elapsed_lt (t1 t0 seconds : Z) : bool :=
  bool_decide (t1 - t0 < seconds * ticks_per_second).

(** [sleep(seconds)]: suspends for at least [seconds];
    a negative argument raises [ValueError]. *)
Definition sleep (seconds : Z) : M R unit :=
  fun w =>
    if bool_decide (seconds < 0) then
      (Raise (Exn ValueError "sleep length must be non-negative"), w)
    else
      let '(e', extra) := oversleep (env w) in
      (Return tt,
       MkWorld e' (now w + seconds * ticks_per_second + Z.of_nat extra)
               (remote_calls w) (log w)).
End Clock.

(** Loop control: the body of a [while] either leaves the function with
    a value or goes round again. *)
Inductive loop_ctl (A : Type) : Type :=
  | Break (a : A)
  | Continue.

Arguments Break {A} a.
Arguments Continue {A}.

End Py.

(* ===================================================================== *)
(** * nemo_microservices_utils.py: class NeMoMicroservicesManager *)
(* ===================================================================== *)

(** The module has a logger of its own, distinct from the pipeline's;
    its records are left out of the embedding: no [logger] call of the
    manager changes control flow or a returned value. *)

Module Manager.
Import Py.

(** ** What the remote services hand back *)

(** A namespace of the Entity Store. *)
Record Namespace : Type := { namespace_id : string }.

(** A [requests] response. *)
Record Response : Type := { status_code : Z; text : string }.

Record DeploymentStatusDetails : Type := { deployment_status : string }.

(** A model deployment record. *)
Record Deployment : Type := {
  deployment_name : string;
  deployment_namespace : string;
  deployed : bool;
  deployment_status_details : option DeploymentStatusDetails
}.

(** The [config] argument of a deployment creation request. *)
Record DeploymentConfig : Type := {
  model : string;
  image_name : string;
  image_tag : string;
  pvc_size : string;
  gpu : Z;
  additional_envs : dict string
}.

Record CustomizationStatusDetails : Type := {
  percentage_done : option float;
  steps_completed : option Z;
  customization_details_str : string    (* [str(job.status_details)] *)
}.

Record CustomizationJob : Type := {
  customization_id : string;
  customization_status : string;
  customization_status_details : option CustomizationStatusDetails
}.

Record EvaluationStatusDetails : Type := { progress : option float }.

Record EvaluationJob : Type := {
  evaluation_id : string;
  evaluation_status : string;
  evaluation_status_details : option EvaluationStatusDetails
}.

(** Evaluation results: tasks, their metrics, the metrics' scores. *)
Record Score : Type := { value : float }.
Record MetricResult : Type := { scores : option (dict Score) }.
Record TaskResult : Type := { metrics : option (dict MetricResult) }.
Record EvaluationResult : Type := { tasks : option (dict TaskResult) }.

(** [str(job.status_details)] for an optional attribute. *)
Definition str_status_details (d : option CustomizationStatusDetails) : string :=
  match d with
  | None => "None"
  | Some d => customization_details_str d
  end.

(** Reading a local variable that may not have been assigned. *)
Definition read_local {R A} (name : string) (v : option A) : M R A :=
  match v with
  | Some a => mret a
  | None =>
      raise (Exn UnboundLocalError
               ("cannot access local variable '" +:+ name
                +:+ "' where it is not associated with a value"))
  end.

Section Manager.
Context {R : Type}.

(** The clock and the scheduler. *)
Variable ticks_per_second : Z.
Variable oversleep : R -> R * nat.

(** [self.nds_url] *)
Variable nds_url : string.

(** The Entity Store, through [self.client]. *)
Variable namespaces_create : string -> op R Namespace.
Variable namespaces_retrieve : string -> op R (option Namespace).

(** The Data Store, through [requests]: the URL, then the form data. *)
Variable requests_post : string -> string -> op R Response.
Variable requests_get : string -> op R Response.

(** The deployment service: [create(name, namespace, config)] and
    [retrieve(deployment_name, namespace)]. *)
Variable model_deployments_create :
  string -> string -> DeploymentConfig -> op R Deployment.
Variable model_deployments_retrieve : string -> string -> op R Deployment.

(** The customization and evaluation services. *)
Variable customization_jobs_retrieve : string -> op R CustomizationJob.
Variable evaluation_jobs_retrieve : string -> op R EvaluationJob.

Local Abbreviation sleep := (Py.sleep ticks_per_second oversleep).
Local Abbreviation elapsed_lt := (Py.elapsed_lt ticks_per_second).

(** *** Namespace management *)

Definition create_namespace (namespace : string) : M R unit :=
  (* Create namespace in Entity Store *)
  try_except
    (namespace_obj ← call (namespaces_create namespace); mret tt)
    (fun e =>
       if str_contains "409" (str_exn e) || str_contains "422" (str_exn e)
       then mret tt
       else raise e);;
  (* Create namespace in Data Store *)
  let url := nds_url +:+ "/v1/datastore/namespaces" in
  resp ← call (requests_post url namespace);
  if in_pair (status_code resp) 200 201 then mret tt
  else if in_pair (status_code resp) 409 422 then mret tt
  else raise (Exn Exception
                ("Failed to create namespace in Data Store: "
                 +:+ str_int (status_code resp) +:+ " - " +:+ text resp)).

Definition verify_namespace (namespace : string) : M R bool :=
  try_except
    ((* Check Entity Store *)
     namespace_obj ← call (namespaces_retrieve namespace);
     (* Check Data Store *)
     response ← call (requests_get
                        (nds_url +:+ "/v1/datastore/namespaces/" +:+ namespace));
     mret (bool_decide (namespace_obj ≠ None)
           && in_pair (status_code response) 200 201))
    (fun _ => mret false).

(** *** Model deployment *)

(** One round of the [while] of [wait_for_deployment]: the [try] block
    and its handler. *)
Definition wait_for_deployment_body (model_name namespace : string)
  : M R (loop_ctl Deployment) :=
  try_except
    (deployment ← call (model_deployments_retrieve model_name namespace);
     if deployed deployment then mret (Break deployment)
     else
       (* the log line reads [deployment.status_details.status] *)
       match deployment_status_details deployment with
       | None =>
           raise (Exn AttributeError
                    "'NoneType' object has no attribute 'status'")
       | Some _ => sleep 10;; mret Continue
       end)
    (fun e => sleep 10;; mret Continue).

Fixpoint wait_for_deployment_loop (fuel : nat)
    (model_name namespace : string) (timeout start_time : Z)
  : M R Deployment :=
  match fuel with
  | O => out_of_fuel
  | S fuel' =>
      t ← time;
      if elapsed_lt t start_time timeout then
        c ← wait_for_deployment_body model_name namespace;
        match c with
        | Break deployment => mret deployment
        | Continue =>
            wait_for_deployment_loop fuel' model_name namespace timeout start_time
        end
      else
        raise (Exn TimeoutError
                 ("Deployment " +:+ model_name
                  +:+ " did not complete within " +:+ str_int timeout
                  +:+ " seconds"))
  end.

Definition wait_for_deployment (fuel : nat)
    (model_name namespace : string) (timeout : Z) : M R Deployment :=
  start_time ← time;
  wait_for_deployment_loop fuel model_name namespace timeout start_time.

(** The [except] clause of [deploy_nim]. The local variable
    [deployment] is bound on entry only when the creation call had
    returned before the exception was raised. *)
Definition deploy_nim_except (model_name namespace : string)
    (deployment : option Deployment) (e : exn) : M R Deployment :=
  deployment ←
    (if str_contains "500" (str_exn e) then
       d ← call (model_deployments_retrieve model_name namespace);
       mret (Some d)
     else mret deployment);
  read_local "deployment" deployment.

Definition default_additional_envs : dict string :=
  [("NIM_GUIDED_DECODING_BACKEND", "fast_outlines")].

(** The [config] of the creation request; [additional_envs=None]
    stands for the default. *)
Definition deployment_config (base_model image_name image_tag : string)
    (gpu : Z) (pvc_size : string) (additional_envs : option (dict string))
  : DeploymentConfig :=
  let additional_envs :=
    match additional_envs with
    | None => default_additional_envs
    | Some envs => envs
    end in
  {| model := base_model; image_name := image_name;
     image_tag := image_tag; pvc_size := pvc_size; gpu := gpu;
     additional_envs := additional_envs |}.

(** The [try] block of [deploy_nim] raises either in the creation call,
    with the local [deployment] unbound, or after it, in the wait, with
    [deployment] bound to what the creation returned. *)
Definition deploy_nim (fuel : nat)
    (model_name namespace base_model image_name image_tag : string)
    (gpu : Z) (pvc_size : string) (additional_envs : option (dict string))
    (wait : bool) (timeout : Z) : M R Deployment :=
  let config :=
    deployment_config base_model image_name image_tag gpu pvc_size
      additional_envs in
  fun w =>
    match call (model_deployments_create model_name namespace config) w with
    | (Return deployment, w1) =>
        if wait then
          try_except
            (wait_for_deployment fuel model_name namespace timeout)
            (deploy_nim_except model_name namespace (Some deployment)) w1
        else (Return deployment, w1)
    | (Raise e, w1) => deploy_nim_except model_name namespace None e w1
    | (OutOfFuel, w1) => (OutOfFuel, w1)
    end.

(** *** Model customization *)

Fixpoint wait_for_customization_loop (fuel : nat) (job_id : string)
    (polling_interval timeout start_time : Z) : M R CustomizationJob :=
  match fuel with
  | O => out_of_fuel
  | S fuel' =>
      t ← time;
      if elapsed_lt t start_time timeout then
        job ← call (customization_jobs_retrieve job_id);
        let status := customization_status job in
        if String.eqb status "completed" then mret job
        else if String.eqb status "failed" then
          raise (Exn Exception
                   ("Customization job " +:+ job_id +:+ " failed: "
                    +:+ str_status_details (customization_status_details job)))
        else if bool_decide (status ∈ ["pending"; "created"; "running"]) then
          sleep polling_interval;;
          wait_for_customization_loop fuel' job_id polling_interval timeout start_time
        else
          (* unknown status: a warning, then the same wait *)
          sleep polling_interval;;
          wait_for_customization_loop fuel' job_id polling_interval timeout start_time
      else
        raise (Exn TimeoutError
                 ("Customization job " +:+ job_id
                  +:+ " did not complete within " +:+ str_int timeout
                  +:+ " seconds"))
  end.

Definition wait_for_customization (fuel : nat) (job_id : string)
    (polling_interval timeout : Z) : M R CustomizationJob :=
  start_time ← time;
  wait_for_customization_loop fuel job_id polling_interval timeout start_time.

(** *** Model evaluation *)

Fixpoint wait_for_evaluation_loop (fuel : nat) (job_id : string)
    (polling_interval timeout start_time : Z) : M R EvaluationJob :=
  match fuel with
  | O => out_of_fuel
  | S fuel' =>
      t ← time;
      if elapsed_lt t start_time timeout then
        job ← call (evaluation_jobs_retrieve job_id);
        let status := evaluation_status job in
        if String.eqb status "completed" then mret job
        else if String.eqb status "failed" then
          raise (Exn Exception ("Evaluation job " +:+ job_id +:+ " failed"))
        else if bool_decide (status ∈ ["pending"; "created"; "running"]) then
          sleep polling_interval;;
          wait_for_evaluation_loop fuel' job_id polling_interval timeout start_time
        else
          (* unknown status: a warning, then the same wait *)
          sleep polling_interval;;
          wait_for_evaluation_loop fuel' job_id polling_interval timeout start_time
      else
        raise (Exn TimeoutError
                 ("Evaluation job " +:+ job_id
                  +:+ " did not complete within " +:+ str_int timeout
                  +:+ " seconds"))
  end.

Definition wait_for_evaluation (fuel : nat) (job_id : string)
    (polling_interval timeout : Z) : M R EvaluationJob :=
  start_time ← time;
  wait_for_evaluation_loop fuel job_id polling_interval timeout start_time.

End Manager.

(** The block of [save_evaluation_results] that builds [metrics] from
    the results object: only the task named [qa] is read. *)

(** [for score_name, score in metric_result.scores.items(): ...] *)
Definition add_scores (metric_name : string) (scores : dict Score)
    (metrics : dict float) : dict float :=
  fold_left
    (fun acc '(score_name, score) =>
       dict_set acc (metric_name +:+ "_" +:+ score_name) (value score))
    scores metrics.

(** [for metric_name, metric_result in qa_task.metrics.items(): ...] *)
Definition add_metrics (task_metrics : dict MetricResult)
    (metrics : dict float) : dict float :=
  fold_left
    (fun acc '(metric_name, metric_result) =>
       if truthy_dict (scores metric_result) then
         add_scores metric_name (default [] (scores metric_result)) acc
       else acc)
    task_metrics metrics.

Definition save_evaluation_results_metrics (results : EvaluationResult)
    : dict float :=
  let empty : dict float := [] in
  if truthy_dict (tasks results) && dict_mem (default [] (tasks results)) "qa"
  then
    match dict_get (default [] (tasks results)) "qa" with
    | Some qa_task =>
        if truthy_dict (metrics qa_task)
        then add_metrics (default [] (metrics qa_task)) empty
        else empty
    | None => empty
    end
  else empty.

Section Results.
Context {R : Type}.

(** The archive handed back by [download_results]. *)
Variable ResultsZip : Type.

Variable evaluation_jobs_results : string -> op R EvaluationResult.
Variable evaluation_jobs_download_results : string -> op R ResultsZip.
Variable write_to_file : ResultsZip -> string -> op R unit.

Definition get_evaluation_results (job_id : string)
  : M R (EvaluationResult * ResultsZip) :=
  results ← call (evaluation_jobs_results job_id);
  results_zip ← call (evaluation_jobs_download_results job_id);
  mret (results, results_zip).

Definition save_evaluation_results (job_id output_path : string)
  : M R (dict float) :=
  '(results, results_zip) ← get_evaluation_results job_id;
  (* Save zip file *)
  call (write_to_file results_zip output_path);;
  (* Extract metrics *)
  mret (save_evaluation_results_metrics results).
End Results.

(** ** Datasets *)

(** A dataset of the Entity Store. *)
Record Dataset : Type := { dataset_namespace : string; dataset_name : string }.

Section Datasets.
Context {R : Type}.

(** The Data Store, through [self.hf_api]: [create_repo(repo_id,
    repo_type)] and [upload_file(path_or_fileobj, path_in_repo, repo_id,
    repo_type)]. *)
Variable create_repo : string -> string -> op R unit.
Variable upload_file : string -> string -> string -> string -> op R unit.

(** The Entity Store: [datasets.create(name, namespace, description,
    files_url, project)]. *)
Variable datasets_create :
  string -> string -> string -> string -> option string -> op R Dataset.

Definition create_dataset
    (namespace dataset_name train_file val_file test_file description : string)
    (project : option string) : M R Dataset :=
  let repo_id := namespace +:+ "/" +:+ dataset_name in
  (* Create repository in Data Store *)
  try_except
    (call (create_repo repo_id "dataset"))
    (fun e => if str_contains "409" (str_exn e) then mret tt else raise e);;
  (* Upload dataset files *)
  call (upload_file train_file "training/train.jsonl" repo_id "dataset");;
  call (upload_file val_file "validation/val.jsonl" repo_id "dataset");;
  call (upload_file test_file "testing/test.jsonl" repo_id "dataset");;
  (* Create dataset in Entity Store *)
  dataset ←
    call (datasets_create dataset_name namespace description
            ("hf://datasets/" +:+ namespace +:+ "/" +:+ dataset_name) project);
  mret dataset.

End Datasets.

(** ** Availability of a customized model *)

(** An entry of the inference service's model list. *)
Record InferenceModel : Type := { inference_model_id : string }.

Section Availability.
Context {R : Type}.
Variable ticks_per_second : Z.
Variable oversleep : R -> R * nat.

(** [self.client.inference.models.list().data] *)
Variable inference_models_list : op R (list InferenceModel).

(** One round of the [for] of [verify_model_deployed]: the [try] block
    and its handler. *)
Definition verify_model_deployed_body (model_name : string) (retry_interval : Z)
  : M R (loop_ctl bool) :=
  try_except
    (models ← call inference_models_list;
     let model_names := map inference_model_id models in
     if bool_decide (model_name ∈ model_names) then mret (Break true)
     else
       sleep ticks_per_second oversleep retry_interval;;
       mret Continue)
    (fun e =>
       sleep ticks_per_second oversleep retry_interval;;
       mret Continue).

(** [for i in range(retries): ...], then [return False]. *)
Fixpoint verify_model_deployed_loop (retries : nat) (model_name : string)
    (retry_interval : Z) : M R bool :=
  match retries with
  | O => mret false
  | S retries' =>
      c ← verify_model_deployed_body model_name retry_interval;
      match c with
      | Break found => mret found
      | Continue => verify_model_deployed_loop retries' model_name retry_interval
      end
  end.

Definition verify_model_deployed (model_name : string)
    (max_retries retry_interval : Z) : M R bool :=
  verify_model_deployed_loop (Z.to_nat max_retries) model_name retry_interval.

End Availability.

(** ** Evaluation jobs *)

(** A parameter of a metric: a template, or a list of templates. *)
Inductive MetricParam : Type :=
  | ParamStr (s : string)
  | ParamList (l : list string).

Record MetricSpec : Type := {
  metric_type : string;
  metric_params : dict MetricParam
}.

Record TaskTemplate : Type := {
  template_messages : list (dict string);
  template_max_tokens : Z;
  template_temperature : float;
  template_top_p : float
}.

Record TaskSpec : Type := {
  task_type : string;
  task_template : TaskTemplate;
  task_metrics : dict MetricSpec;
  task_dataset_files_url : string
}.

(** The [config] argument of an evaluation job. *)
Record EvaluationConfig : Type := {
  config_type : string;
  config_parallelism : Z;
  config_tasks : dict TaskSpec
}.

(** The [target] argument of an evaluation job. *)
Record EvaluationTarget : Type := { target_type : string; target_model : string }.

Section EvaluationJobs.
Context {R : Type}.

Variable evaluation_jobs_create :
  EvaluationConfig -> EvaluationTarget -> op R EvaluationJob.

(** The dictionary [create_evaluation_job] sends; the entry ["limit"] of
    the dataset is commented out in the source. *)
Definition evaluation_config (dataset_namespace dataset_name test_file_path : string)
    (limit parallelism max_tokens : Z) (temperature top_p : float)
  : EvaluationConfig :=
  {| config_type := "custom";
     config_parallelism := parallelism;
     config_tasks :=
       [("qa",
         {| task_type := "chat-completion";
            task_template :=
              {| template_messages :=
                   [[("role", "user"); ("content", "{{item.prompt}}")]];
                 template_max_tokens := max_tokens;
                 template_temperature := temperature;
                 template_top_p := top_p |};
            task_metrics :=
              [("f1",
                {| metric_type := "f1";
                   metric_params :=
                     [("ground_truth", ParamStr "{{item.completion | trim}}")] |});
               ("string-check",
                {| metric_type := "string-check";
                   metric_params :=
                     [("check",
                       ParamList ["{{item.completion | trim}}"; "equals";
                                  "{{output_text | trim}}"])] |})];
            task_dataset_files_url :=
              "hf://datasets/" +:+ dataset_namespace +:+ "/" +:+ dataset_name
              +:+ "/" +:+ test_file_path |})] |}.

Definition create_evaluation_job
    (model dataset_namespace dataset_name test_file_path : string)
    (limit parallelism max_tokens : Z) (temperature top_p : float)
  : M R EvaluationJob :=
  let config :=
    evaluation_config dataset_namespace dataset_name test_file_path limit
      parallelism max_tokens temperature top_p in
  eval_job ←
    call (evaluation_jobs_create config
            {| target_type := "model"; target_model := model |});
  mret eval_job.

End EvaluationJobs.

(** ** Utility functions *)

Record Peft : Type := { finetuning_type : string }.

(** A model of the Entity Store. *)
Record Model : Type := {
  model_name : string;
  model_namespace : string;
  model_base_model : string;
  model_created_at : string;
  model_peft : option Peft
}.

(** The dictionary [list_models] builds for a model; the key
    ["finetuning_type"] is there only for a model with a [peft]. *)
Record ModelInfo : Type := {
  info_name : string;
  info_namespace : string;
  info_base_model : string;
  info_created_at : string;
  info_finetuning_type : option string
}.

Section Utilities.
Context {R : Type}.

(** [self.client.models.list(filter={"namespace": ns}, sort=...).data];
    the filter is absent in the call without one. *)
Variable models_list : option string -> string -> op R (list Model).

(** [self.client.models.delete(namespace, model_name)] *)
Variable models_delete : string -> string -> op R unit.

Definition model_info (m : Model) : ModelInfo :=
  {| info_name := model_name m;
     info_namespace := model_namespace m;
     info_base_model := model_base_model m;
     info_created_at := model_created_at m;
     info_finetuning_type :=
       match model_peft m with
       | Some peft => Some (finetuning_type peft)
       | None => None
       end |}.

Definition list_models (namespace : option string) : M R (list ModelInfo) :=
  models_page ←
    (if truthy_str namespace
     then call (models_list namespace "-created_at")
     else call (models_list None "-created_at"));
  mret (map model_info models_page).

(** [try: delete / except Exception: log], for one model. *)
Definition delete_model (namespace : string) (m : ModelInfo) : M R unit :=
  try_except
    (call (models_delete namespace (info_name m)))
    (fun e => mret tt).

Definition cleanup_resources (namespace : string)
    (delete_models delete_datasets : bool) : M R unit :=
  (if delete_models then
     models ← list_models (Some namespace);
     for_each models (delete_model namespace)
   else mret tt);;
  (* [if delete_datasets:] only logs a warning *)
  mret tt.

End Utilities.

End Manager.

(* ===================================================================== *)
(** * nemo_pipeline.py: the phases and [main] *)
(* ===================================================================== *)

Module Pipeline.
Import Py.

(** ** Configuration and command line *)

(** The dictionary [load_config] returns: every key has a default. *)
Record Config : Type := {
  config_nds_url : string;
  config_nemo_url : string;
  config_nim_url : string;
  config_nds_token : string;
  config_namespace : string;
  config_dataset_name : string;
  config_base_model : string;
  config_base_model_version : string;
  config_custom_model_name : string;
  config_wandb_api_key : option string
}.

(** The parsed command line, [argparse.Namespace]. *)
Record Args : Type := {
  nemo_url : option string;
  nim_url : option string;
  nds_url : option string;
  namespace : option string;
  dataset_name : option string;
  base_model : option string;
  project : option string;
  deploy : bool;
  prepare_dataset : bool;
  customize : bool;
  evaluate : bool;
  compare : bool;
  all : bool;
  gpu_count : Z;
  pvc_size : string;
  deployment_timeout : Z;
  data_dir : string;
  epochs : Z;
  batch_size : Z;
  learning_rate : float;
  lora_dim : Z;
  lora_dropout : float;
  sequence_packing : bool;
  model_version : string;
  customization_timeout : Z;
  eval_model : option string;
  eval_samples : Z;
  eval_parallelism : Z;
  eval_max_tokens : Z;
  eval_temperature : float;
  eval_top_p : float;
  evaluation_timeout : Z;
  output_dir : string;
  poll_interval : Z
}.

(** [args.deploy = True; ...; args.compare = True] *)
Definition enable_all_phases (a : Args) : Args :=
  {| nemo_url := nemo_url a; nim_url := nim_url a; nds_url := nds_url a;
     namespace := namespace a; dataset_name := dataset_name a;
     base_model := base_model a; project := project a;
     deploy := true; prepare_dataset := true; customize := true;
     evaluate := true; compare := true; all := all a;
     gpu_count := gpu_count a; pvc_size := pvc_size a;
     deployment_timeout := deployment_timeout a; data_dir := data_dir a;
     epochs := epochs a; batch_size := batch_size a;
     learning_rate := learning_rate a; lora_dim := lora_dim a;
     lora_dropout := lora_dropout a; sequence_packing := sequence_packing a;
     model_version := model_version a;
     customization_timeout := customization_timeout a;
     eval_model := eval_model a; eval_samples := eval_samples a;
     eval_parallelism := eval_parallelism a;
     eval_max_tokens := eval_max_tokens a;
     eval_temperature := eval_temperature a; eval_top_p := eval_top_p a;
     evaluation_timeout := evaluation_timeout a; output_dir := output_dir a;
     poll_interval := poll_interval a |}.

(** [if args.x: config['x'] = args.x], for the six keys [main] overrides. *)
Definition override (arg : option string) (current : string) : string :=
  if truthy_str arg then default current arg else current.

Definition override_config (config : Config) (args : Args) : Config :=
  {| config_nds_url := override (nds_url args) (config_nds_url config);
     config_nemo_url := override (nemo_url args) (config_nemo_url config);
     config_nim_url := override (nim_url args) (config_nim_url config);
     config_nds_token := config_nds_token config;
     config_namespace := override (namespace args) (config_namespace config);
     config_dataset_name :=
       override (dataset_name args) (config_dataset_name config);
     config_base_model := override (base_model args) (config_base_model config);
     config_base_model_version := config_base_model_version config;
     config_custom_model_name := config_custom_model_name config;
     config_wandb_api_key := config_wandb_api_key config |}.

(** ** The manager, as the phases use it *)

Record LoraParameters : Type := { adapter_dim : Z; adapter_dropout : float }.

Record Hyperparameters : Type := {
  sequence_packing_enabled : bool;
  training_type : string;
  finetuning_type : string;
  hp_epochs : Z;
  hp_batch_size : Z;
  hp_learning_rate : float;
  lora : LoraParameters
}.

Record CustomizationConfig : Type := {
  customization_config_namespace : string;
  customization_config_name : string
}.

(** The methods of [NeMoMicroservicesManager] the phases call, with the
    arguments the calls pass, in the order of the call sites. *)
Record NeMoMicroservicesManager (R : Type) : Type := {
  (* model_name, namespace, base_model, image_name, image_tag, gpu,
     pvc_size, wait, timeout *)
  deploy_nim :
    string -> string -> string -> string -> string -> Z -> string -> bool -> Z ->
    M R Manager.Deployment;
  create_namespace : string -> M R unit;
  (* namespace, dataset_name, train_file, val_file, test_file,
     description, project; the dataset object is not used *)
  create_dataset :
    string -> string -> string -> string -> string -> string -> option string ->
    M R unit;
  list_customization_configs : M R (list CustomizationConfig);
  (* job_name, output_model, config, dataset_name, dataset_namespace,
     hyperparameters, wandb_api_key *)
  create_customization_job :
    string -> string -> string -> string -> string -> Hyperparameters ->
    option string -> M R Manager.CustomizationJob;
  (* job_id, polling_interval, timeout *)
  wait_for_customization : string -> Z -> Z -> M R Manager.CustomizationJob;
  (* model_name, max_retries, retry_interval *)
  verify_model_deployed : string -> Z -> Z -> M R bool;
  (* model, dataset_namespace, dataset_name, test_file_path, limit,
     parallelism, max_tokens, temperature, top_p *)
  create_evaluation_job :
    string -> string -> string -> string -> Z -> Z -> Z -> float -> float ->
    M R Manager.EvaluationJob;
  (* job_id, polling_interval, timeout *)
  wait_for_evaluation : string -> Z -> Z -> M R Manager.EvaluationJob;
  (* job_id, output_path *)
  save_evaluation_results : string -> string -> M R (dict float)
}.

Arguments deploy_nim {R} _.
Arguments create_namespace {R} _.
Arguments create_dataset {R} _.
Arguments list_customization_configs {R} _.
Arguments create_customization_job {R} _.
Arguments wait_for_customization {R} _.
Arguments verify_model_deployed {R} _.
Arguments create_evaluation_job {R} _.
Arguments wait_for_evaluation {R} _.
Arguments save_evaluation_results {R} _.

Definition banner : string := str_repeat "=" 50.
Definition rule : string := str_repeat "-" 50.

(** ** The comparison of two metric sets *)

(** [custom_metrics[metric_name] - base_metrics[metric_name]] *)
Definition improvement_of (custom base : float) : float :=
  (custom - base)%float.

(** [(improvement / base * 100) if base != 0 else 0] *)
Definition percentage_of (improvement base : float) : float :=
  if float_nonzero base then (improvement / base * 100)%float else 0%float.

(** [f"  {metric_name}: {improvement:+.4f} ({percentage:+.1f}%)"] *)
Definition improvement_line (metric_name : string)
    (improvement percentage : float) : string :=
  "  " +:+ metric_name +:+ ": " +:+ format_f true 4 improvement
  +:+ " (" +:+ format_f true 1 percentage +:+ "%)".

Section Phases.
Context {R : Type}.

(** The file system: [Path(a) / b] as a string, [Path.exists],
    [Path.mkdir(parents=True, exist_ok=True)]. *)
Variable path_join : string -> string -> string.
Variable path_exists : string -> op R bool.
Variable mkdir : string -> op R unit.

Variable manager : NeMoMicroservicesManager R.

Local Abbreviation info := (log_at (R := R) INFO).
Local Abbreviation warning := (log_at (R := R) WARNING).
Local Abbreviation error := (log_at (R := R) ERROR).

Definition run_deployment_phase (config : Config) (args : Args) : M R bool :=
  if negb (deploy args) then
    info "Skipping deployment phase";;
    mret true
  else
    info banner;;
    info "PHASE 1: Model Deployment";;
    info banner;;
    try_except
      ((* Deploy base model NIM *)
       deployment ←
         deploy_nim manager
           (last_piece (str_split "/"%char (config_base_model config))
            +:+ "-deployment")
           (first_piece (str_split "/"%char (config_base_model config)))
           (config_base_model config)
           ("nvcr.io/nim/" +:+ config_base_model config)
           "1.8" (gpu_count args) (pvc_size args) true
           (deployment_timeout args);
       info ("Successfully deployed model: " +:+ config_base_model config);;
       mret true)
      (fun e =>
         error ("Deployment failed: " +:+ str_exn e);;
         mret false).

(** [if not file.exists(): raise FileNotFoundError(...)] *)
Definition require_file (file : string) : M R unit :=
  present ← call (path_exists file);
  if (present : bool) then mret tt
  else raise (Exn FileNotFoundError
                ("Required data file not found: " +:+ file)).

Definition run_dataset_preparation_phase (config : Config) (args : Args)
  : M R bool :=
  if negb (prepare_dataset args) then
    info "Skipping dataset preparation phase";;
    mret true
  else
    info banner;;
    info "PHASE 2: Dataset Preparation";;
    info banner;;
    try_except
      ((* Verify data files exist *)
       let train_file := path_join (data_dir args) "training.jsonl" in
       let val_file := path_join (data_dir args) "validation.jsonl" in
       let test_file := path_join (data_dir args) "test.jsonl" in
       for_each [train_file; val_file; test_file] require_file;;
       (* Create namespace if needed *)
       info ("Creating namespace: " +:+ config_namespace config);;
       create_namespace manager (config_namespace config);;
       (* Create and upload dataset *)
       create_dataset manager (config_namespace config)
         (config_dataset_name config) train_file val_file test_file
         "Dataset for model customization" (project args);;
       info ("Successfully created dataset: " +:+ config_namespace config
             +:+ "/" +:+ config_dataset_name config);;
       mret true)
      (fun e =>
         error ("Dataset preparation failed: " +:+ str_exn e);;
         mret false).

Definition run_customization_phase (config : Config) (args : Args)
  : M R (option string) :=
  if negb (customize args) then
    info "Skipping customization phase";;
    mret None
  else
    info banner;;
    info "PHASE 3: Model Customization";;
    info banner;;
    try_except
      ((* Check available configurations *)
       configs ← list_customization_configs manager;
       (match configs with
        | [] => raise (Exn Exception
                         "No customization configurations available")
        | _ => mret tt
        end);;
       info ("Found " +:+ str_int (Z.of_nat (length configs))
             +:+ " customization configurations");;
       for_each configs
         (fun cfg =>
            info ("  - " +:+ customization_config_namespace cfg +:+ "/"
                  +:+ customization_config_name cfg));;
       (* Prepare hyperparameters *)
       let hyperparameters :=
         {| sequence_packing_enabled := sequence_packing args;
            training_type := "sft";
            finetuning_type := "lora";
            hp_epochs := epochs args;
            hp_batch_size := batch_size args;
            hp_learning_rate := learning_rate args;
            lora := {| adapter_dim := lora_dim args;
                       adapter_dropout := lora_dropout args |} |} in
       (* Create output model name with version *)
       let output_model :=
         config_namespace config +:+ "/" +:+ config_custom_model_name config
         +:+ "@v" +:+ model_version args in
       (* Create customization job *)
       info ("Creating customization job for output model: "
             +:+ output_model);;
       customization_job ←
         create_customization_job manager
           (config_custom_model_name config +:+ "-customization")
           output_model
           (config_base_model config +:+ "@"
            +:+ config_base_model_version config)
           (config_dataset_name config) (config_namespace config)
           hyperparameters (config_wandb_api_key config);
       (* Wait for customization to complete *)
       info ("Waiting for customization job: "
             +:+ Manager.customization_id customization_job);;
       completed_job ←
         wait_for_customization manager
           (Manager.customization_id customization_job)
           (poll_interval args) (customization_timeout args);
       (* Wait for model to be available in NIM *)
       info ("Waiting for model " +:+ output_model
             +:+ " to be available in NIM...");;
       available ← verify_model_deployed manager output_model 24 5;
       if (available : bool) then
         info ("Successfully customized model: " +:+ output_model);;
         mret (Some output_model)
       else
         warning ("Model " +:+ output_model
                  +:+ " may not be fully deployed yet");;
         mret (Some output_model))
      (fun e =>
         error ("Customization failed: " +:+ str_exn e);;
         mret None).

(** [for metric_name, value in metrics.items(): logger.info(...)] *)
Definition report_metrics (metrics : dict float) : M R unit :=
  for_each metrics
    (fun '(metric_name, value) =>
       info ("  " +:+ metric_name +:+ ": " +:+ format_f false 4 value)).

Definition run_evaluation_phase (config : Config) (args : Args)
    (model_name : option string) : M R (dict float) :=
  if negb (evaluate args) then
    info "Skipping evaluation phase";;
    mret []
  else
    info banner;;
    info "PHASE 4: Model Evaluation";;
    info banner;;
    try_except
      ((* Determine which model to evaluate *)
       let eval_model :=
         if truthy_str model_name then default "" model_name
         else if truthy_str (eval_model args) then default "" (eval_model args)
         else config_base_model config in
       info ("Evaluating model: " +:+ eval_model);;
       (* Create evaluation job *)
       eval_job ←
         create_evaluation_job manager eval_model (config_namespace config)
           (config_dataset_name config) "testing/test.jsonl"
           (eval_samples args) (eval_parallelism args)
           (eval_max_tokens args) (eval_temperature args) (eval_top_p args);
       (* Wait for evaluation to complete *)
       info ("Waiting for evaluation job: " +:+ Manager.evaluation_id eval_job);;
       completed_job ←
         wait_for_evaluation manager (Manager.evaluation_id eval_job)
           (poll_interval args) (evaluation_timeout args);
       (* Save and display results *)
       let output_path :=
         path_join (output_dir args)
           ("eval_results_" +:+ str_replace "/"%char "_"%char eval_model +:+ ".zip") in
       metrics ←
         save_evaluation_results manager (Manager.evaluation_id eval_job)
           output_path;
       info banner;;
       info "Evaluation Results:";;
       report_metrics metrics;;
       info banner;;
       mret metrics)
      (fun e =>
         error ("Evaluation failed: " +:+ str_exn e);;
         mret []).

(** The body of [for metric_name in base_metrics:] in
    [run_comparison_phase]. *)
Definition report_improvement (base_metrics custom_metrics : dict float)
    (metric_name : string) : M R unit :=
  if dict_mem custom_metrics metric_name then
    match dict_get custom_metrics metric_name,
          dict_get base_metrics metric_name with
    | Some custom, Some base =>
        let improvement := improvement_of custom base in
        let percentage := percentage_of improvement base in
        info (improvement_line metric_name improvement percentage)
    | _, _ => raise (Exn KeyError ("'" +:+ metric_name +:+ "'"))
    end
  else mret tt.

Definition run_comparison_phase (config : Config) (args : Args)
    (custom_model : option string) : M R unit :=
  if negb (compare args) || negb (truthy_str custom_model) then
    info "Skipping comparison phase"
  else
    info banner;;
    info "PHASE 5: Model Comparison";;
    info banner;;
    try_except
      ((* Evaluate base model *)
       info "Evaluating base model...";;
       base_metrics ←
         run_evaluation_phase config args (Some (config_base_model config));
       (* Evaluate custom model *)
       info "Evaluating custom model...";;
       custom_metrics ← run_evaluation_phase config args custom_model;
       (* Compare results *)
       info banner;;
       info "Model Comparison Results:";;
       info rule;;
       info ("Base Model: " +:+ config_base_model config);;
       report_metrics base_metrics;;
       info rule;;
       info ("Custom Model: " +:+ default "" custom_model);;
       report_metrics custom_metrics;;
       info rule;;
       info "Improvements:";;
       for_each (dict_keys base_metrics)
         (report_improvement base_metrics custom_metrics);;
       info banner)
      (fun e => error ("Comparison failed: " +:+ str_exn e)).

(** *** [main], from "Run pipeline phases" on

    The last three steps first; each takes the locals [success] and
    [custom_model] as [main] has them at that point. *)

(** Phase 5 and the closing lines. *)
Definition main_comparison (config : Config) (args : Args)
    (custom_model : option string) : M R Z :=
  (if compare args && truthy_str custom_model
   then run_comparison_phase config args custom_model
   else mret tt);;
  info banner;;
  info "Pipeline completed successfully!";;
  info banner;;
  mret 0.

(** Phase 4. *)
Definition main_evaluation (config : Config) (args : Args)
    (success : bool) (custom_model : option string) : M R Z :=
  (if evaluate args && success
   then metrics ← run_evaluation_phase config args custom_model; mret tt
   else mret tt);;
  main_comparison config args custom_model.

(** Phase 3. *)
Definition main_customization (config : Config) (args : Args)
    (success : bool) : M R Z :=
  if customize args && success then
    custom_model ← run_customization_phase config args;
    if negb (truthy_str custom_model) && negb (all args) then
      error "Customization failed, stopping pipeline";;
      mret 1
    else main_evaluation config args success custom_model
  else main_evaluation config args success None.

(** Phase 2. *)
Definition main_dataset_preparation (config : Config) (args : Args)
    (success : bool) : M R Z :=
  if prepare_dataset args && success then
    success ← run_dataset_preparation_phase config args;
    if negb success && negb (all args) then
      error "Dataset preparation failed, stopping pipeline";;
      mret 1
    else main_customization config args success
  else main_customization config args success.

(** Phase 1. *)
Definition main_deployment (config : Config) (args : Args) : M R Z :=
  let success := true in
  if deploy args then
    success ← run_deployment_phase config args;
    if negb success && negb (all args) then
      error "Deployment failed, stopping pipeline";;
      mret 1
    else main_dataset_preparation config args success
  else main_dataset_preparation config args success.

(** [main()], given the parsed arguments and the configuration that
    [load_config] returned. *)
Definition main (args : Args) (loaded : Config) : M R Z :=
  (* If --all is specified, enable all phases *)
  let args := if all args then enable_all_phases args else args in
  (* Override config with command-line arguments *)
  let config := override_config loaded args in
  (* Create output directory *)
  call (mkdir (output_dir args));;
  (* Initialize manager *)
  info "Initializing NeMo Microservices Manager...";;
  (* Run pipeline phases *)
  main_deployment config args.

End Phases.

(** ** [load_config] *)

Section LoadConfig.
Context {R : Type}.

(** The values of a JSON object, with the strings and [null] among
    them. *)
Variable Json : Type.
Variable json_str : string -> Json.
Variable json_null : Json.

(** [Path(config_file).exists()], and [json.load] on the opened file. *)
Variable path_exists : string -> op R bool.
Variable read_json : string -> op R (dict Json).

Definition default_config : dict Json :=
  [("nds_url", json_str "http://data-store.test");
   ("nemo_url", json_str "http://nemo.test");
   ("nim_url", json_str "http://nim.test");
   ("nds_token", json_str "token");
   ("namespace", json_str "lora-tutorial-ns");
   ("dataset_name", json_str "news-lora-dataset");
   ("base_model", json_str "meta/llama-3.2-1b-instruct");
   ("base_model_version", json_str "v1.0.0+A100");
   ("custom_model_name", json_str "llama-3.2-1b-custom");
   ("wandb_api_key", json_null)].

Definition load_config (config_file : option string) : M R (dict Json) :=
  if truthy_str config_file then
    present ← call (path_exists (default "" config_file));
    if (present : bool) then
      file_config ← call (read_json (default "" config_file));
      mret (dict_update default_config file_config)
    else mret default_config
  else mret default_config.

End LoadConfig.

End Pipeline.

(* ===================================================================== *)
(** * Concrete outsides, for running the embedding *)
(* ===================================================================== *)

Module Scripted.
Import Py.

(** An outside that answers the [k]-th request from a script: the state
    is the number of requests answered so far. *)
Definition scripted {A} (script : list (reply A * nat)) (otherwise : reply A * nat)
  : op nat A :=
  fun k => let '(r, dt) := nth k script otherwise in (r, S k, dt).

(** A scheduler that wakes sleepers on time. *)
Definition punctual : nat -> nat * nat := fun k => (k, 0%nat).

(** The world at the start: nothing requested, nothing logged. *)
Definition start : World nat := MkWorld 0%nat 0 0 [].

Definition connection_error : exn := Exn RemoteError "Connection error.".

Definition customization_job (status : string) : Manager.CustomizationJob :=
  {| Manager.customization_id := "cust-1";
     Manager.customization_status := status;
     Manager.customization_status_details := None |}.

Definition evaluation_job (status : string) : Manager.EvaluationJob :=
  {| Manager.evaluation_id := "eval-1";
     Manager.evaluation_status := status;
     Manager.evaluation_status_details := None |}.

Definition deployment (ready : bool) : Manager.Deployment :=
  {| Manager.deployment_name := "llama-3.2-1b-instruct-deployment";
     Manager.deployment_namespace := "meta";
     Manager.deployed := ready;
     Manager.deployment_status_details :=
       Some {| Manager.deployment_status := "pending" |} |}.

(** One request with a fixed answer. *)
Definition answer {A} (ok : bool) (a : A) (e : exn) : op nat A :=
  scripted [] (if ok then Reply a else Fail e, 1%nat).

(** The results of an evaluation job: one score for each of the two
    metrics of the task. *)
Definition evaluation_result (f1 exact : float) : Manager.EvaluationResult :=
  {| Manager.tasks := Some
       [("qa",
         {| Manager.metrics := Some
              [("f1",
                {| Manager.scores := Some [("score", {| Manager.value := f1 |})] |});
               ("exact",
                {| Manager.scores := Some [("match", {| Manager.value := exact |})] |})]
         |})] |}.

(** A manager over scripted services. What the manager module does
    itself (deployment, namespaces, the two waits, saving the results)
    is the embedding of that module; its other methods make one request
    each. The creation of the deployment, the upload of the dataset and
    the customization job succeed or fail as the three flags say. An
    evaluation job carries the name of its model as its id; the base
    model scores 0.5 and 0.0, any other model 0.7 and 0.2. *)
Definition manager (deployment_ok dataset_ok customization_ok : bool)
  : Pipeline.NeMoMicroservicesManager nat :=
  {| Pipeline.deploy_nim :=
       fun model_name namespace base_model image_name image_tag gpu pvc_size
           wait timeout =>
         Manager.deploy_nim 1000 punctual
           (fun _ _ _ => answer deployment_ok (deployment false) connection_error)
           (fun _ _ => answer true (deployment true) connection_error)
           100 model_name namespace base_model image_name image_tag gpu
           pvc_size None wait timeout;
     Pipeline.create_namespace :=
       Manager.create_namespace "http://data-store.test"
         (fun name => answer true {| Manager.namespace_id := name |} connection_error)
         (fun _ _ =>
            answer true {| Manager.status_code := 201; Manager.text := "" |}
              connection_error);
     Pipeline.create_dataset := fun _ _ _ _ _ _ _ =>
       call (answer dataset_ok tt connection_error);
     Pipeline.list_customization_configs :=
       call (answer true
               [{| Pipeline.customization_config_namespace := "meta";
                   Pipeline.customization_config_name :=
                     "llama-3.2-1b-instruct@v1.0.0+A100" |}]
               connection_error);
     Pipeline.create_customization_job := fun _ _ _ _ _ _ _ =>
       call (answer true (customization_job "created") connection_error);
     Pipeline.wait_for_customization :=
       Manager.wait_for_customization 1000 punctual
         (fun _ =>
            answer true
              (customization_job (if customization_ok then "completed" else "failed"))
              connection_error)
         100;
     Pipeline.verify_model_deployed := fun _ _ _ =>
       call (answer true true connection_error);
     Pipeline.create_evaluation_job := fun model _ _ _ _ _ _ _ _ =>
       call (answer true
               {| Manager.evaluation_id := model;
                  Manager.evaluation_status := "created";
                  Manager.evaluation_status_details := None |}
               connection_error);
     Pipeline.wait_for_evaluation :=
       Manager.wait_for_evaluation 1000 punctual
         (fun job_id =>
            answer true
              {| Manager.evaluation_id := job_id;
                 Manager.evaluation_status := "completed";
                 Manager.evaluation_status_details := None |}
              connection_error)
         100;
     Pipeline.save_evaluation_results :=
       Manager.save_evaluation_results unit
         (fun job_id =>
            answer true
              (if String.eqb job_id "meta/llama-3.2-1b-instruct"
               then evaluation_result 0.5 0.0
               else evaluation_result 0.7 0.2)
              connection_error)
         (fun _ => answer true tt connection_error)
         (fun _ _ => answer true tt connection_error) |}.

(** The file system: every file is there, every directory can be made. *)
Definition path_join (a b : string) : string := a +:+ "/" +:+ b.
Definition path_exists (path : string) : op nat bool :=
  scripted [] (Reply true, 0%nat).
Definition mkdir (path : string) : op nat unit :=
  scripted [] (Reply tt, 0%nat).

(** The defaults of [load_config] and of the argument parser. *)
Definition default_config : Pipeline.Config :=
  {| Pipeline.config_nds_url := "http://data-store.test";
     Pipeline.config_nemo_url := "http://nemo.test";
     Pipeline.config_nim_url := "http://nim.test";
     Pipeline.config_nds_token := "token";
     Pipeline.config_namespace := "lora-tutorial-ns";
     Pipeline.config_dataset_name := "news-lora-dataset";
     Pipeline.config_base_model := "meta/llama-3.2-1b-instruct";
     Pipeline.config_base_model_version := "v1.0.0+A100";
     Pipeline.config_custom_model_name := "llama-3.2-1b-custom";
     Pipeline.config_wandb_api_key := None |}.

Definition default_args (deploy prepare_dataset customize evaluate compare all : bool)
  : Pipeline.Args :=
  {| Pipeline.nemo_url := None; Pipeline.nim_url := None;
     Pipeline.nds_url := None; Pipeline.namespace := None;
     Pipeline.dataset_name := None; Pipeline.base_model := None;
     Pipeline.project := None;
     Pipeline.deploy := deploy; Pipeline.prepare_dataset := prepare_dataset;
     Pipeline.customize := customize; Pipeline.evaluate := evaluate;
     Pipeline.compare := compare; Pipeline.all := all;
     Pipeline.gpu_count := 1; Pipeline.pvc_size := "25Gi";
     Pipeline.deployment_timeout := 600; Pipeline.data_dir := "data";
     Pipeline.epochs := 2; Pipeline.batch_size := 16;
     Pipeline.learning_rate := 0.0001; Pipeline.lora_dim := 16;
     Pipeline.lora_dropout := 0.1; Pipeline.sequence_packing := false;
     Pipeline.model_version := "1"; Pipeline.customization_timeout := 6000;
     Pipeline.eval_model := None; Pipeline.eval_samples := 50;
     Pipeline.eval_parallelism := 8; Pipeline.eval_max_tokens := 20;
     Pipeline.eval_temperature := 0.7; Pipeline.eval_top_p := 0.9;
     Pipeline.evaluation_timeout := 600; Pipeline.output_dir := "output";
     Pipeline.poll_interval := 10 |}.

(** The metric sets of the specification's comparison example. *)
Definition base_metrics : dict float := [("f1", 0.5%float); ("exact", 0.0%float)].
Definition custom_metrics : dict float := [("f1", 0.7%float); ("exact", 0.2%float)].

(** [main] against the scripted manager. *)
Definition run_main (deployment_ok dataset_ok customization_ok : bool)
    (args : Pipeline.Args) : result Z * World nat :=
  Pipeline.main path_join path_exists mkdir
    (manager deployment_ok dataset_ok customization_ok)
    args default_config start.

(** The messages of a log, without the levels. *)
Definition messages (w : World nat) : list string := map snd (log w).

(** The banners of the phases that ran, in order. *)
Definition phases_run (w : World nat) : list string :=
  filter (fun message => String.prefix "PHASE" message = true) (messages w).

(** A manager none of whose services can be reached: every method is
    one request, and it fails. *)
Definition unreachable {A} : M nat A :=
  call (scripted [] (Fail connection_error, 1%nat)).

Definition unreachable_manager : Pipeline.NeMoMicroservicesManager nat :=
  {| Pipeline.deploy_nim := fun _ _ _ _ _ _ _ _ _ => unreachable;
     Pipeline.create_namespace := fun _ => unreachable;
     Pipeline.create_dataset := fun _ _ _ _ _ _ _ => unreachable;
     Pipeline.list_customization_configs := unreachable;
     Pipeline.create_customization_job := fun _ _ _ _ _ _ _ => unreachable;
     Pipeline.wait_for_customization := fun _ _ _ => unreachable;
     Pipeline.verify_model_deployed := fun _ _ _ => unreachable;
     Pipeline.create_evaluation_job := fun _ _ _ _ _ _ _ _ _ => unreachable;
     Pipeline.wait_for_evaluation := fun _ _ _ => unreachable;
     Pipeline.save_evaluation_results := fun _ _ => unreachable |}.

(** A manager each of whose methods is one request that succeeds (the
    evaluation job is created by the manager's own method); the
    customized model is then available for inference or not, as the
    flag says. *)
Definition prompt_manager (available : bool) : Pipeline.NeMoMicroservicesManager nat :=
  {| Pipeline.deploy_nim := fun _ _ _ _ _ _ _ _ _ =>
       call (answer true (deployment true) connection_error);
     Pipeline.create_namespace := fun _ => call (answer true tt connection_error);
     Pipeline.create_dataset := fun _ _ _ _ _ _ _ =>
       call (answer true tt connection_error);
     Pipeline.list_customization_configs :=
       call (answer true
               [{| Pipeline.customization_config_namespace := "meta";
                   Pipeline.customization_config_name :=
                     "llama-3.2-1b-instruct@v1.0.0+A100" |}]
               connection_error);
     Pipeline.create_customization_job := fun _ _ _ _ _ _ _ =>
       call (answer true (customization_job "created") connection_error);
     Pipeline.wait_for_customization := fun _ _ _ =>
       call (answer true (customization_job "completed") connection_error);
     Pipeline.verify_model_deployed := fun _ _ _ =>
       call (answer true available connection_error);
     Pipeline.create_evaluation_job :=
       Manager.create_evaluation_job
         (fun _ _ => answer true (evaluation_job "created") connection_error);
     Pipeline.wait_for_evaluation := fun _ _ _ =>
       call (answer true (evaluation_job "completed") connection_error);
     Pipeline.save_evaluation_results := fun _ _ =>
       call (answer true [] connection_error) |}.

(** A manager whose evaluations report given metrics: an evaluation job
    carries the name of its model as its id, and its saved results are
    [base] for the base model of the default configuration and [custom]
    for any other model. Each method is one request that succeeds. *)
Definition reporting_manager (base custom : dict float)
  : Pipeline.NeMoMicroservicesManager nat :=
  {| Pipeline.deploy_nim := fun _ _ _ _ _ _ _ _ _ =>
       call (answer true (deployment true) connection_error);
     Pipeline.create_namespace := fun _ => call (answer true tt connection_error);
     Pipeline.create_dataset := fun _ _ _ _ _ _ _ =>
       call (answer true tt connection_error);
     Pipeline.list_customization_configs :=
       call (answer true
               [{| Pipeline.customization_config_namespace := "meta";
                   Pipeline.customization_config_name :=
                     "llama-3.2-1b-instruct@v1.0.0+A100" |}]
               connection_error);
     Pipeline.create_customization_job := fun _ _ _ _ _ _ _ =>
       call (answer true (customization_job "created") connection_error);
     Pipeline.wait_for_customization := fun _ _ _ =>
       call (answer true (customization_job "completed") connection_error);
     Pipeline.verify_model_deployed := fun _ _ _ =>
       call (answer true true connection_error);
     Pipeline.create_evaluation_job := fun model _ _ _ _ _ _ _ _ =>
       call (answer true
               {| Manager.evaluation_id := model;
                  Manager.evaluation_status := "created";
                  Manager.evaluation_status_details := None |}
               connection_error);
     Pipeline.wait_for_evaluation := fun job_id _ _ =>
       call (answer true
               {| Manager.evaluation_id := job_id;
                  Manager.evaluation_status := "completed";
                  Manager.evaluation_status_details := None |}
               connection_error);
     Pipeline.save_evaluation_results := fun job_id _ =>
       call (answer true
               (if String.eqb job_id "meta/llama-3.2-1b-instruct"
                then base else custom)
               connection_error) |}.

(** A model registry that keeps a journal of the deletions it is asked
    for, as [namespace/name]: the listing gives [models] whatever the
    filter, and the deletion of the model named [failing] is refused. *)
Definition journal_list (models : list Manager.Model)
  : option string -> string -> op (list string) (list Manager.Model) :=
  fun _ _ journal => (Reply models, journal, 1%nat).

Definition journal_delete (failing : string)
  : string -> string -> op (list string) unit :=
  fun namespace name journal =>
    (if String.eqb name failing then Fail connection_error else Reply tt,
     journal ++ [namespace +:+ "/" +:+ name], 1%nat).

(** A file system in which the [missing]-th file asked for is not
    there (counting from zero; requests to the manager count too). *)
Definition path_exists_but (missing : nat) (path : string) : op nat bool :=
  fun k => (Reply (negb (Nat.eqb k missing)), S k, 0%nat).

End Scripted.

(** An outside made of the two namespace stores. A creation request for
    a name that is present is answered with a conflict: the Entity Store
    client raises an error with the text [conflict_text], the Data Store
    answers with the status [conflict_status]. *)
Module Stores.
Import Py.

Record stores : Type := {
  entity_store : gset string;
  data_store : gset string
}.

Section Stores.
Variable conflict_text : string.
Variable conflict_status : Z.

Definition namespaces_create (name : string) : op stores Manager.Namespace :=
  fun s =>
    if decide (name ∈ entity_store s) then
      (Fail (Exn RemoteError conflict_text), s, 0%nat)
    else
      (Reply {| Manager.namespace_id := name |},
       {| entity_store := {[name]} ∪ entity_store s;
          data_store := data_store s |},
       0%nat).

Definition requests_post (url name : string) : op stores Manager.Response :=
  fun s =>
    if decide (name ∈ data_store s) then
      (Reply {| Manager.status_code := conflict_status;
                 Manager.text := "namespace already exists" |},
       s, 0%nat)
    else
      (Reply {| Manager.status_code := 201; Manager.text := "" |},
       {| entity_store := entity_store s;
          data_store := {[name]} ∪ data_store s |},
       0%nat).

Definition create_namespace (nds_url name : string) : M stores unit :=
  Manager.create_namespace nds_url namespaces_create requests_post name.
End Stores.

Definition empty : World stores :=
  MkWorld {| entity_store := ∅; data_store := ∅ |} 0 0 [].

End Stores.

(* ===================================================================== *)
(** * Vocabulary of the statements *)
(* ===================================================================== *)

Module Observe.
Import Py.

(** The world after a request that took [dt] ticks and left the outside
    in state [r]. *)
Definition after_call {R} (w : World R) (r : R) (dt : nat) : World R :=
  MkWorld r (now w + Z.of_nat dt) (S (remote_calls w)) (log w).

(** The world after a sleep of [seconds]. *)
Definition after_sleep {R} (tps : Z) (oversleep : R -> R * nat) (seconds : Z)
    (w : World R) : World R :=
  MkWorld (oversleep (env w)).1
          (now w + seconds * tps + Z.of_nat (oversleep (env w)).2)
          (remote_calls w) (log w).

(** [ceil(a / b)] for integers, [b > 0]. *)
Definition ceil_div (a b : Z) : Z := - ((- a) / b).

(** The two statuses that end a job. *)
Definition terminal (status : string) : Prop :=
  status = "completed" \/ status = "failed".


(** The texts and statuses the namespace code reads as "already exists". *)
Definition already_exists_text (text : string) : bool :=
  str_contains "409" text || str_contains "422" text.

Definition already_exists_status (status : Z) : Prop :=
  status = 409 \/ status = 422.

(** The answers to the two creation requests that [create_namespace]
    goes on from: created, or already there. *)
Definition entity_store_accepts (a : reply Manager.Namespace) : bool :=
  match a with
  | Reply _ => true
  | Fail e => already_exists_text (str_exn e)
  end.

Definition data_store_accepts (a : reply Manager.Response) : bool :=
  match a with
  | Reply resp =>
      in_pair (Manager.status_code resp) 200 201
      || in_pair (Manager.status_code resp) 409 422
  | Fail _ => false
  end.

(** An evaluation result whose only task is [qa], with the given
    metrics. *)
Definition qa_result (task_metrics : dict Manager.MetricResult)
  : Manager.EvaluationResult :=
  {| Manager.tasks := Some [("qa", {| Manager.metrics := Some task_metrics |})] |}.

(** The world with more records in the log. *)
Definition logged {R} (entries : list (level * string)) (w : World R) : World R :=
  MkWorld (env w) (now w) (remote_calls w) (log w ++ entries).

(** The lines under "Improvements:": one for each key of the base
    metrics that the custom metrics have too, in the order of the base
    metrics. *)
Definition improvement_report (base_metrics custom_metrics : dict float)
  : list (level * string) :=
  flat_map
    (fun metric_name =>
       match dict_get custom_metrics metric_name,
             dict_get base_metrics metric_name with
       | Some custom, Some base =>
           [(INFO,
             Pipeline.improvement_line metric_name
               (Pipeline.improvement_of custom base)
               (Pipeline.percentage_of (Pipeline.improvement_of custom base) base))]
       | _, _ => []
       end)
    (dict_keys base_metrics).

(** [f"{metric_name}_{score_name}"] *)
Definition score_key (metric_name score_name : string) : string :=
  metric_name +:+ "_" +:+ score_name.

(** Fetches of a polling loop between [w] and [w']: each began within
    the budget, a polling interval after the one before. *)
Definition polled {R} (tps interval timeout start : Z) (w w' : World R) : Prop :=
  (remote_calls w <= remote_calls w')%nat
  /\ let n := Z.of_nat (remote_calls w' - remote_calls w) in
     n = 0 \/ (n - 1) * (interval * tps) + (now w - start) < timeout * tps.

(** The text of the [TimeoutError] of [wait_for_deployment]. *)
Definition deployment_timeout_text (model_name : string) (timeout : Z) : string :=
  "Deployment " +:+ model_name +:+ " did not complete within "
  +:+ str_int timeout +:+ " seconds".

(** The answer to the repository creation that [create_dataset] goes on
    from: created, or a conflict. *)
Definition repo_accepts (a : reply unit) : bool :=
  match a with
  | Reply _ => true
  | Fail e => str_contains "409" (str_exn e)
  end.

(** A computation that is not cut off by the loop budget, and one that
    returns a value with a given property whatever the world. *)
Definition completes {R A} (m : M R A) : Prop :=
  forall w, (m w).1 <> OutOfFuel.

Definition returns_with {R A} (P : A -> Prop) (m : M R A) : Prop :=
  forall w, exists a w', m w = (Return a, w') /\ P a.

(** A manager none of whose methods is cut off by the loop budget. *)
Definition manager_completes {R} (manager : Pipeline.NeMoMicroservicesManager R)
  : Prop :=
  (forall a b c d e f g h i,
     completes (Pipeline.deploy_nim manager a b c d e f g h i))
  /\ (forall a, completes (Pipeline.create_namespace manager a))
  /\ (forall a b c d e f g,
        completes (Pipeline.create_dataset manager a b c d e f g))
  /\ completes (Pipeline.list_customization_configs manager)
  /\ (forall a b c d e f g,
        completes (Pipeline.create_customization_job manager a b c d e f g))
  /\ (forall a b c, completes (Pipeline.wait_for_customization manager a b c))
  /\ (forall a b c, completes (Pipeline.verify_model_deployed manager a b c))
  /\ (forall a b c d e f g h i,
        completes (Pipeline.create_evaluation_job manager a b c d e f g h i))
  /\ (forall a b c, completes (Pipeline.wait_for_evaluation manager a b c))
  /\ (forall a b, completes (Pipeline.save_evaluation_results manager a b)).

(** The world after a request to [o], whatever the answer. *)
Definition after_request {R A} (o : op R A) (w : World R) : World R :=
  after_call w (o (env w)).1.2 (o (env w)).2.

(** The world after [k] rounds of a retry loop that asks [o] and then
    sleeps [seconds]. *)
Fixpoint after_retries {R A} (tps : Z) (oversleep : R -> R * nat) (o : op R A)
    (seconds : Z) (k : nat) (w : World R) : World R :=
  match k with
  | O => w
  | S k' =>
      after_retries tps oversleep o seconds k'
        (after_sleep tps oversleep seconds (after_request o w))
  end.

(** Whether the listing that the inference service gives in the world
    [w] holds the model; a listing that fails holds nothing. *)
Definition lists_model {R} (listing : op R (list Manager.InferenceModel))
    (model_name : string) (w : World R) : bool :=
  match (listing (env w)).1.1 with
  | Reply models =>
      bool_decide (model_name ∈ map Manager.inference_model_id models)
  | Fail _ => false
  end.

(** The world after one deletion request for each of the names, in
    order, whatever the answers. *)
Fixpoint after_deletions {R} (models_delete : string -> string -> op R unit)
    (namespace : string) (names : list string) (w : World R) : World R :=
  match names with
  | [] => w
  | name :: rest =>
      after_deletions models_delete namespace rest
        (after_request (models_delete namespace name) w)
  end.

(** The records that list a set of metrics, one line each. *)
Definition metric_records (metrics : dict float) : list (level * string) :=
  map (fun '(metric_name, value) =>
         (INFO, "  " +:+ metric_name +:+ ": " +:+ format_f false 4 value))
      metrics.

(** An evaluation result with one task of the given name. *)
Definition task_result (task_name : string)
    (task_metrics : dict Manager.MetricResult) : Manager.EvaluationResult :=
  {| Manager.tasks :=
       Some [(task_name, {| Manager.metrics := Some task_metrics |})] |}.

(** [args] with another value for [--eval-samples]. *)
Definition with_eval_samples (a : Pipeline.Args) (samples : Z) : Pipeline.Args :=
  {| Pipeline.nemo_url := Pipeline.nemo_url a;
     Pipeline.nim_url := Pipeline.nim_url a;
     Pipeline.nds_url := Pipeline.nds_url a;
     Pipeline.namespace := Pipeline.namespace a;
     Pipeline.dataset_name := Pipeline.dataset_name a;
     Pipeline.base_model := Pipeline.base_model a;
     Pipeline.project := Pipeline.project a;
     Pipeline.deploy := Pipeline.deploy a;
     Pipeline.prepare_dataset := Pipeline.prepare_dataset a;
     Pipeline.customize := Pipeline.customize a;
     Pipeline.evaluate := Pipeline.evaluate a;
     Pipeline.compare := Pipeline.compare a;
     Pipeline.all := Pipeline.all a;
     Pipeline.gpu_count := Pipeline.gpu_count a;
     Pipeline.pvc_size := Pipeline.pvc_size a;
     Pipeline.deployment_timeout := Pipeline.deployment_timeout a;
     Pipeline.data_dir := Pipeline.data_dir a;
     Pipeline.epochs := Pipeline.epochs a;
     Pipeline.batch_size := Pipeline.batch_size a;
     Pipeline.learning_rate := Pipeline.learning_rate a;
     Pipeline.lora_dim := Pipeline.lora_dim a;
     Pipeline.lora_dropout := Pipeline.lora_dropout a;
     Pipeline.sequence_packing := Pipeline.sequence_packing a;
     Pipeline.model_version := Pipeline.model_version a;
     Pipeline.customization_timeout := Pipeline.customization_timeout a;
     Pipeline.eval_model := Pipeline.eval_model a;
     Pipeline.eval_samples := samples;
     Pipeline.eval_parallelism := Pipeline.eval_parallelism a;
     Pipeline.eval_max_tokens := Pipeline.eval_max_tokens a;
     Pipeline.eval_temperature := Pipeline.eval_temperature a;
     Pipeline.eval_top_p := Pipeline.eval_top_p a;
     Pipeline.evaluation_timeout := Pipeline.evaluation_timeout a;
     Pipeline.output_dir := Pipeline.output_dir a;
     Pipeline.poll_interval := Pipeline.poll_interval a |}.

(** The three records that close the log of [main]. *)
Definition closing_records : list (level * string) :=
  [(INFO, Pipeline.banner); (INFO, "Pipeline completed successfully!");
   (INFO, Pipeline.banner)].

(** The three records that open a phase. *)
Definition phase_records (title : string) : list (level * string) :=
  [(INFO, Pipeline.banner); (INFO, title); (INFO, Pipeline.banner)].

End Observe.

(* ===================================================================== *)
(** * Properties of the runtime model *)
(* ===================================================================== *)

Module PyFacts.
Import Py Observe.

Lemma call_run {R A} (o : op R A) (w : World R) r e' dt :
  o (env w) = (r, e', dt) ->
  call o w = (result_of_reply r, after_call w e' dt).
Proof. intros H. unfold call. now rewrite H. Qed.

Lemma sleep_run {R} tps (oversleep : R -> R * nat) (seconds : Z) (w : World R) :
  0 <= seconds ->
  sleep tps oversleep seconds w = (Return tt, after_sleep tps oversleep seconds w).
Proof.
  intros H. unfold sleep.
  rewrite bool_decide_eq_false_2 by lia.
  unfold after_sleep. now destruct (oversleep (env w)).
Qed.

Lemma sleep_negative {R} tps (oversleep : R -> R * nat) (seconds : Z) (w : World R) :
  seconds < 0 ->
  sleep tps oversleep seconds w =
    (Raise (Exn ValueError "sleep length must be non-negative"), w).
Proof. intros H. unfold sleep. now rewrite bool_decide_eq_true_2 by lia. Qed.

Lemma elapsed_lt_true tps t1 t0 seconds :
  t1 - t0 < seconds * tps -> elapsed_lt tps t1 t0 seconds = true.
Proof. intros H. unfold elapsed_lt. now apply bool_decide_eq_true_2. Qed.

Lemma elapsed_lt_false tps t1 t0 seconds :
  seconds * tps <= t1 - t0 -> elapsed_lt tps t1 t0 seconds = false.
Proof. intros H. unfold elapsed_lt. apply bool_decide_eq_false_2. lia. Qed.

Lemma bind_run {R A B} (m : M R A) (k : A -> M R B) (w : World R) :
  (m ≫= k) w =
    match m w with
    | (Return a, w') => k a w'
    | (Raise e, w') => (Raise e, w')
    | (OutOfFuel, w') => (OutOfFuel, w')
    end.
Proof. reflexivity. Qed.

End PyFacts.

(* ===================================================================== *)
(** * Properties of the manager *)
(* ===================================================================== *)

Module ManagerFacts.
Import Py Observe PyFacts Manager.

Section Polling.
Context {R : Type}.
Variable tps : Z.
Variable oversleep : R -> R * nat.

(** ** One round of each polling loop *)

Section Customization.
Variable retrieve : string -> op R CustomizationJob.

Local Abbreviation loop := (wait_for_customization_loop tps oversleep retrieve).

Lemma wait_for_customization_loop_round fuel job_id interval timeout start w r e' dt :
  now w - start < timeout * tps ->
  retrieve job_id (env w) = (r, e', dt) ->
  loop (S fuel) job_id interval timeout start w =
    match r with
    | Reply job =>
        if String.eqb (customization_status job) "completed" then
          (Return job, after_call w e' dt)
        else if String.eqb (customization_status job) "failed" then
          (Raise (Exn Exception
                    ("Customization job " +:+ job_id +:+ " failed: "
                     +:+ str_status_details (customization_status_details job))),
           after_call w e' dt)
        else
          (sleep tps oversleep interval;;
           loop fuel job_id interval timeout start) (after_call w e' dt)
    | Fail e => (Raise e, after_call w e' dt)
    end.
Proof.
  intros Hbudget Hfetch.
  cbn [wait_for_customization_loop].
  rewrite bind_run. cbn [time].
  rewrite (elapsed_lt_true _ _ _ _ Hbudget).
  rewrite bind_run, (call_run _ _ _ _ _ Hfetch).
  destruct r as [job|e]; cbn [result_of_reply]; [|reflexivity].
  cbv zeta.
  destruct (String.eqb (customization_status job) "completed"); [reflexivity|].
  destruct (String.eqb (customization_status job) "failed"); [reflexivity|].
  now destruct (bool_decide _).
Qed.

Lemma wait_for_customization_loop_expired fuel job_id interval timeout start w :
  timeout * tps <= now w - start ->
  loop (S fuel) job_id interval timeout start w =
    (Raise (Exn TimeoutError
              ("Customization job " +:+ job_id
               +:+ " did not complete within " +:+ str_int timeout
               +:+ " seconds")), w).
Proof.
  intros Hover.
  cbn [wait_for_customization_loop].
  rewrite bind_run. cbn [time].
  now rewrite (elapsed_lt_false _ _ _ _ Hover).
Qed.
End Customization.

Section Evaluation.
Variable retrieve : string -> op R EvaluationJob.

Local Abbreviation loop := (wait_for_evaluation_loop tps oversleep retrieve).

Lemma wait_for_evaluation_loop_round fuel job_id interval timeout start w r e' dt :
  now w - start < timeout * tps ->
  retrieve job_id (env w) = (r, e', dt) ->
  loop (S fuel) job_id interval timeout start w =
    match r with
    | Reply job =>
        if String.eqb (evaluation_status job) "completed" then
          (Return job, after_call w e' dt)
        else if String.eqb (evaluation_status job) "failed" then
          (Raise (Exn Exception ("Evaluation job " +:+ job_id +:+ " failed")),
           after_call w e' dt)
        else
          (sleep tps oversleep interval;;
           loop fuel job_id interval timeout start) (after_call w e' dt)
    | Fail e => (Raise e, after_call w e' dt)
    end.
Proof.
  intros Hbudget Hfetch.
  cbn [wait_for_evaluation_loop].
  rewrite bind_run. cbn [time].
  rewrite (elapsed_lt_true _ _ _ _ Hbudget).
  rewrite bind_run, (call_run _ _ _ _ _ Hfetch).
  destruct r as [job|e]; cbn [result_of_reply]; [|reflexivity].
  cbv zeta.
  destruct (String.eqb (evaluation_status job) "completed"); [reflexivity|].
  destruct (String.eqb (evaluation_status job) "failed"); [reflexivity|].
  now destruct (bool_decide _).
Qed.

Lemma wait_for_evaluation_loop_expired fuel job_id interval timeout start w :
  timeout * tps <= now w - start ->
  loop (S fuel) job_id interval timeout start w =
    (Raise (Exn TimeoutError
              ("Evaluation job " +:+ job_id
               +:+ " did not complete within " +:+ str_int timeout
               +:+ " seconds")), w).
Proof.
  intros Hover.
  cbn [wait_for_evaluation_loop].
  rewrite bind_run. cbn [time].
  now rewrite (elapsed_lt_false _ _ _ _ Hover).
Qed.
End Evaluation.

Section Deployment.
Variable retrieve : string -> string -> op R Deployment.

Local Abbreviation loop := (wait_for_deployment_loop tps oversleep retrieve).

Lemma wait_for_deployment_loop_round fuel model_name namespace timeout start w r e' dt :
  now w - start < timeout * tps ->
  retrieve model_name namespace (env w) = (r, e', dt) ->
  loop (S fuel) model_name namespace timeout start w =
    match r with
    | Reply deployment =>
        if deployed deployment then (Return deployment, after_call w e' dt)
        else loop fuel model_name namespace timeout start
               (after_sleep tps oversleep 10 (after_call w e' dt))
    | Fail e =>
        loop fuel model_name namespace timeout start
          (after_sleep tps oversleep 10 (after_call w e' dt))
    end.
Proof.
  intros Hbudget Hfetch.
  cbn [wait_for_deployment_loop].
  rewrite bind_run. cbn [time].
  rewrite (elapsed_lt_true _ _ _ _ Hbudget).
  rewrite bind_run. unfold wait_for_deployment_body, try_except.
  rewrite bind_run, (call_run _ _ _ _ _ Hfetch).
  destruct r as [deployment|e]; cbn [result_of_reply].
  - destruct (deployed deployment); [reflexivity|].
    destruct (deployment_status_details deployment).
    + rewrite bind_run, sleep_run by lia. reflexivity.
    + unfold raise. rewrite bind_run, sleep_run by lia. reflexivity.
  - rewrite bind_run, sleep_run by lia. reflexivity.
Qed.

Lemma wait_for_deployment_loop_expired fuel model_name namespace timeout start w :
  timeout * tps <= now w - start ->
  loop (S fuel) model_name namespace timeout start w =
    (Raise (Exn TimeoutError
              ("Deployment " +:+ model_name
               +:+ " did not complete within " +:+ str_int timeout
               +:+ " seconds")), w).
Proof.
  intros Hover.
  cbn [wait_for_deployment_loop].
  rewrite bind_run. cbn [time].
  now rewrite (elapsed_lt_false _ _ _ _ Hover).
Qed.
End Deployment.

End Polling.

End ManagerFacts.

(* ===================================================================== *)
(** * The polling loops *)
(* ===================================================================== *)

Module PollingProps.
Import Py Observe PyFacts Manager ManagerFacts.

Lemma not_terminal_eqb (status : string) :
  ~ terminal status ->
  String.eqb status "completed" = false /\ String.eqb status "failed" = false.
Proof.
  intros H. split; apply String.eqb_neq; intros ->; apply H; [left|right]; reflexivity.
Qed.

(** C2. While the time budget lasts, one poll of a customization or an
    evaluation job decides the round by the status alone: ["completed"]
    returns the job, ["failed"] raises an [Exception], and every other
    status (["pending"], ["created"], ["running"] or a string the code
    does not know) raises nothing: the loop sleeps for the polling
    interval and polls again. *)
Theorem poll_status_classification {R : Type} (tps : Z) (oversleep : R -> R * nat)
    (customization_retrieve : string -> op R CustomizationJob)
    (evaluation_retrieve : string -> op R EvaluationJob)
    (fuel : nat) (job_id : string) (interval timeout start : Z) (w : World R) :
  0 <= interval ->
  now w - start < timeout * tps ->
  (forall job e' dt,
     customization_retrieve job_id (env w) = (Reply job, e', dt) ->
     let run fuel := wait_for_customization_loop tps oversleep
                       customization_retrieve fuel job_id interval timeout start in
     let status := customization_status job in
     (status = "completed" -> run (S fuel) w = (Return job, after_call w e' dt))
     /\ (status = "failed" ->
         exists msg, run (S fuel) w = (Raise (Exn Exception msg), after_call w e' dt))
     /\ (~ terminal status ->
         run (S fuel) w
         = run fuel (after_sleep tps oversleep interval (after_call w e' dt))))
  /\
  (forall job e' dt,
     evaluation_retrieve job_id (env w) = (Reply job, e', dt) ->
     let run fuel := wait_for_evaluation_loop tps oversleep
                       evaluation_retrieve fuel job_id interval timeout start in
     let status := evaluation_status job in
     (status = "completed" -> run (S fuel) w = (Return job, after_call w e' dt))
     /\ (status = "failed" ->
         exists msg, run (S fuel) w = (Raise (Exn Exception msg), after_call w e' dt))
     /\ (~ terminal status ->
         run (S fuel) w
         = run fuel (after_sleep tps oversleep interval (after_call w e' dt)))).
Proof.
  intros Hinterval Hbudget. split.
  - intros job e' dt Hfetch. cbv zeta.
    pose proof (wait_for_customization_loop_round tps oversleep
                  customization_retrieve fuel job_id interval timeout start
                  w _ _ _ Hbudget Hfetch) as Hround.
    split; [|split].
    + intros Hs. rewrite Hround, Hs. reflexivity.
    + intros Hs. rewrite Hround, Hs. eexists. reflexivity.
    + intros Hs. destruct (not_terminal_eqb _ Hs) as [Hc Hf].
      rewrite Hround, Hc, Hf, bind_run, sleep_run by assumption. reflexivity.
  - intros job e' dt Hfetch. cbv zeta.
    pose proof (wait_for_evaluation_loop_round tps oversleep
                  evaluation_retrieve fuel job_id interval timeout start
                  w _ _ _ Hbudget Hfetch) as Hround.
    split; [|split].
    + intros Hs. rewrite Hround, Hs. reflexivity.
    + intros Hs. rewrite Hround, Hs. eexists. reflexivity.
    + intros Hs. destruct (not_terminal_eqb _ Hs) as [Hc Hf].
      rewrite Hround, Hc, Hf, bind_run, sleep_run by assumption. reflexivity.
Qed.

(** The six statuses of the specification's test, through the
    classification: the round of ["weird-status"] raises nothing, and
    the next poll, which finds the job completed, returns it. *)
Lemma poll_status_classification_witness :
  0 <= 10 /\
  now Scripted.start - 0 < 600 * 1000 /\
  let retrieve := fun _ : string =>
    Scripted.scripted
      [(Reply (Scripted.customization_job "weird-status"), 3%nat);
       (Reply (Scripted.customization_job "completed"), 3%nat)]
      (Fail Scripted.connection_error, 0%nat) in
  let run fuel :=
    wait_for_customization_loop 1000 Scripted.punctual retrieve fuel
      "cust-1" 10 600 0 in
  run 2%nat Scripted.start
  = run 1%nat (after_sleep 1000 Scripted.punctual 10
                 (after_call Scripted.start 1%nat 3%nat)).
Proof.
  split; [lia|]. split; [vm_compute; reflexivity|].
  intros retrieve run.
  destruct (poll_status_classification 1000 Scripted.punctual retrieve
              (fun _ => Scripted.scripted [] (Reply (Scripted.evaluation_job "running"), 0%nat))
              1 "cust-1" 10 600 0 Scripted.start
              ltac:(lia) ltac:(vm_compute; reflexivity)) as [Hcust _].
  destruct (Hcust (Scripted.customization_job "weird-status") 1%nat 3%nat eq_refl)
    as (_ & _ & Hother).
  apply Hother. intros [H|H]; discriminate H.
Defined.

(** C3. An error raised by the status fetch. In the deployment wait the
    handler of the loop takes it: the round sleeps ten seconds and the
    loop polls again, the time spent counting against the timeout. In
    the customization wait and in the evaluation wait nothing catches
    it: the wait ends at once with that error. *)
Theorem fetch_error_in_wait_loops {R : Type} (tps : Z) (oversleep : R -> R * nat)
    (deployments_retrieve : string -> string -> op R Deployment)
    (customization_retrieve : string -> op R CustomizationJob)
    (evaluation_retrieve : string -> op R EvaluationJob)
    (fuel : nat) (name namespace : string) (interval timeout start : Z)
    (w : World R) (e : exn) (e' : R) (dt : nat) :
  now w - start < timeout * tps ->
  (deployments_retrieve name namespace (env w) = (Fail e, e', dt) ->
   wait_for_deployment_loop tps oversleep deployments_retrieve
     (S fuel) name namespace timeout start w
   = wait_for_deployment_loop tps oversleep deployments_retrieve
       fuel name namespace timeout start
       (after_sleep tps oversleep 10 (after_call w e' dt)))
  /\ (customization_retrieve name (env w) = (Fail e, e', dt) ->
      wait_for_customization_loop tps oversleep customization_retrieve
        (S fuel) name interval timeout start w
      = (Raise e, after_call w e' dt))
  /\ (evaluation_retrieve name (env w) = (Fail e, e', dt) ->
      wait_for_evaluation_loop tps oversleep evaluation_retrieve
        (S fuel) name interval timeout start w
      = (Raise e, after_call w e' dt)).
Proof.
  intros Hbudget. split; [|split]; intros Hfetch.
  - now rewrite (wait_for_deployment_loop_round _ _ _ _ _ _ _ _ _ _ _ _ Hbudget Hfetch).
  - now rewrite (wait_for_customization_loop_round _ _ _ _ _ _ _ _ _ _ _ _ Hbudget Hfetch).
  - now rewrite (wait_for_evaluation_loop_round _ _ _ _ _ _ _ _ _ _ _ _ Hbudget Hfetch).
Qed.

(** One connection error on the first fetch, the job completed (the
    deployment ready) on the second: the deployment wait returns the
    deployment after two fetches and ten seconds, the two job waits
    raise the connection error after one. *)
Lemma fetch_error_in_wait_loops_witness :
  let flaky {A} (a : A) : op nat A :=
    Scripted.scripted [(Fail Scripted.connection_error, 0%nat)] (Reply a, 0%nat) in
  wait_for_deployment 1000 Scripted.punctual
    (fun _ _ => flaky (Scripted.deployment true))
    100 "llama-3.2-1b-instruct-deployment" "meta" 600 Scripted.start
  = (Return (Scripted.deployment true), MkWorld 2%nat 10000 2 [])
  /\ wait_for_customization 1000 Scripted.punctual
       (fun _ => flaky (Scripted.customization_job "completed"))
       100 "cust-1" 10 600 Scripted.start
     = (Raise Scripted.connection_error, MkWorld 1%nat 0 1 [])
  /\ wait_for_evaluation 1000 Scripted.punctual
       (fun _ => flaky (Scripted.evaluation_job "completed"))
       100 "eval-1" 10 600 Scripted.start
     = (Raise Scripted.connection_error, MkWorld 1%nat 0 1 []).
Proof.
  intros flaky.
  destruct (fetch_error_in_wait_loops 1000 Scripted.punctual
              (fun _ _ => flaky _ (Scripted.deployment true))
              (fun _ => flaky _ (Scripted.customization_job "completed"))
              (fun _ => flaky _ (Scripted.evaluation_job "completed"))
              99 "cust-1" "meta" 10 600 0 Scripted.start
              Scripted.connection_error 1%nat 0%nat
              ltac:(vm_compute; reflexivity)) as (Hd & Hc & He).
  split; [|split].
  - vm_compute. reflexivity.
  - exact (Hc eq_refl).
  - vm_compute. reflexivity.
Defined.

(** ** The timeout *)

Lemma ceil_div_upper (a b : Z) : 0 < b -> a <= ceil_div a b * b.
Proof.
  intros Hb. unfold ceil_div.
  pose proof (Z.div_mod (- a) b ltac:(lia)) as Hdm.
  pose proof (Z.mod_pos_bound (- a) b Hb) as Hmod.
  nia.
Qed.

Section NeverTerminal.
Context {R : Type}.
Variable tps : Z.
Variable oversleep : R -> R * nat.
Variables interval timeout start : Z.
Variable job_id : string.
Hypothesis tps_pos : 0 < tps.
Hypothesis interval_pos : 0 < interval.




Section Customization.
Variable retrieve : string -> op R CustomizationJob.
Hypothesis never_terminal :
  forall r, exists job r' dt,
    retrieve job_id r = (Reply job, r', dt)
    /\ ~ terminal (customization_status job).

End Customization.

Section Evaluation.
Variable retrieve : string -> op R EvaluationJob.
Hypothesis never_terminal :
  forall r, exists job r' dt,
    retrieve job_id r = (Reply job, r', dt)
    /\ ~ terminal (evaluation_status job).

End Evaluation.

End NeverTerminal.



Example wait_timeout_run :
  wait_for_customization 1000 Scripted.punctual
    (fun _ => Scripted.scripted [] (Reply (Scripted.customization_job "running"), 0%nat))
    5 "cust-1" 10 35 Scripted.start
  = (Raise (Exn TimeoutError
              "Customization job cust-1 did not complete within 35 seconds"),
     MkWorld 4%nat 40000 4 []).
Proof. vm_compute. reflexivity. Qed.

(** Why the interval must not be negative: [sleep] refuses, and the
    round of a job that is still pending raises [ValueError]. *)
Example negative_interval_raises :
  wait_for_customization 1000 Scripted.punctual
    (fun _ => Scripted.scripted [] (Reply (Scripted.customization_job "pending"), 0%nat))
    5 "cust-1" (-1) 600 Scripted.start
  = (Raise (Exn ValueError "sleep length must be non-negative"),
     MkWorld 1%nat 0 1 []).
Proof. vm_compute. reflexivity. Qed.

End PollingProps.

(* ===================================================================== *)
(** * Model deployment *)
(* ===================================================================== *)

Module DeploymentProps.
Import Py Observe PyFacts Manager ManagerFacts.

Section DeployNim.
Context {R : Type}.
Variable tps : Z.
Variable oversleep : R -> R * nat.
Variable create : string -> string -> DeploymentConfig -> op R Deployment.
Variable retrieve : string -> string -> op R Deployment.
Variables model_name namespace base_model image_name image_tag pvc_size : string.
Variable gpu : Z.
Variable additional_envs : option (dict string).

Local Abbreviation config :=
  (deployment_config base_model image_name image_tag gpu pvc_size additional_envs).
Local Abbreviation deploy fuel wait timeout :=
  (deploy_nim tps oversleep create retrieve fuel model_name namespace
     base_model image_name image_tag gpu pvc_size additional_envs wait timeout).

(** When the creation call raises, [deploy_nim] is its handler run with
    [deployment] unbound. *)
Lemma deploy_nim_create_fails fuel wait timeout (w : World R) e r1 dt :
  create model_name namespace config (env w) = (Fail e, r1, dt) ->
  deploy fuel wait timeout w
  = deploy_nim_except retrieve model_name namespace None e (after_call w r1 dt).
Proof.
  intros Hcreate. unfold deploy_nim.
  now rewrite (call_run _ _ _ _ _ Hcreate).
Qed.

End DeployNim.

(** C5. A creation call that fails with the error class the code reads
    as "already exists" (an error whose text contains [500]): the
    outcome of [deploy_nim] is the outcome of the retrieve-by-name call
    made next, so when that call returns the existing deployment,
    [deploy_nim] returns that same deployment and raises nothing. *)
Theorem deploy_nim_conflict_fallback {R : Type} (tps : Z)
    (oversleep : R -> R * nat)
    (create : string -> string -> DeploymentConfig -> op R Deployment)
    (retrieve : string -> string -> op R Deployment)
    (fuel : nat) (model_name namespace base_model image_name image_tag : string)
    (gpu : Z) (pvc_size : string) (additional_envs : option (dict string))
    (wait : bool) (timeout : Z) (w : World R) (e : exn) (r1 : R) (dt : nat) :
  create model_name namespace
    (deployment_config base_model image_name image_tag gpu pvc_size additional_envs)
    (env w) = (Fail e, r1, dt) ->
  str_contains "500" (str_exn e) = true ->
  deploy_nim tps oversleep create retrieve fuel model_name namespace base_model
    image_name image_tag gpu pvc_size additional_envs wait timeout w
  = call (retrieve model_name namespace) (after_call w r1 dt)
  /\ forall existing r2 dt2,
       retrieve model_name namespace r1 = (Reply existing, r2, dt2) ->
       deploy_nim tps oversleep create retrieve fuel model_name namespace
         base_model image_name image_tag gpu pvc_size additional_envs wait
         timeout w
       = (Return existing, after_call (after_call w r1 dt) r2 dt2).
Proof.
  intros Hcreate Hconflict.
  erewrite deploy_nim_create_fails by exact Hcreate.
  unfold deploy_nim_except. rewrite Hconflict.
  assert (forall w',
            ((call (retrieve model_name namespace) ≫= (fun d => mret (Some d)))
               ≫= read_local "deployment") w'
            = call (retrieve model_name namespace) w') as Hsame.
  { intros w'. rewrite !bind_run.
    destruct (call (retrieve model_name namespace) w') as [[d|e0|] w'']; reflexivity. }
  split.
  - apply Hsame.
  - intros existing r2 dt2 Hretrieve.
    rewrite Hsame. now rewrite (call_run _ (after_call w r1 dt) _ _ _ Hretrieve).
Qed.

(** The service answers the creation with a 500, and the retrieve with
    the deployment that exists. *)
Lemma deploy_nim_conflict_fallback_witness :
  let create : string -> string -> DeploymentConfig -> op nat Deployment :=
    fun _ _ _ =>
      Scripted.scripted [] (Fail (Exn RemoteError "Error code: 500 - Internal Server Error"), 2%nat) in
  let retrieve : string -> string -> op nat Deployment :=
    fun _ _ => Scripted.scripted [] (Reply (Scripted.deployment true), 1%nat) in
  deploy_nim 1000 Scripted.punctual create retrieve 100
    "llama-3.2-1b-instruct-deployment" "meta" "meta/llama-3.2-1b-instruct"
    "nvcr.io/nim/meta/llama-3.2-1b-instruct" "1.8" 1 "25Gi" None true 600
    Scripted.start
  = (Return (Scripted.deployment true), MkWorld 2%nat 3 2 []).
Proof.
  intros create retrieve.
  exact (proj2 (deploy_nim_conflict_fallback 1000 Scripted.punctual create retrieve
                  100 "llama-3.2-1b-instruct-deployment" "meta"
                  "meta/llama-3.2-1b-instruct"
                  "nvcr.io/nim/meta/llama-3.2-1b-instruct" "1.8" 1 "25Gi" None
                  true 600 Scripted.start
                  (Exn RemoteError "Error code: 500 - Internal Server Error")
                  1%nat 2%nat eq_refl eq_refl)
               (Scripted.deployment true) 2%nat 1%nat eq_refl).
Defined.

(** C6. A creation call that fails with an error whose text does not
    contain [500]: the handler skips the retrieve and reads the local
    [deployment], which was never assigned. [deploy_nim] raises
    [UnboundLocalError], not the error of the creation call, and makes no
    further request. *)
Theorem deploy_nim_unbound_local {R : Type} (tps : Z)
    (oversleep : R -> R * nat)
    (create : string -> string -> DeploymentConfig -> op R Deployment)
    (retrieve : string -> string -> op R Deployment)
    (fuel : nat) (model_name namespace base_model image_name image_tag : string)
    (gpu : Z) (pvc_size : string) (additional_envs : option (dict string))
    (wait : bool) (timeout : Z) (w : World R) (e : exn) (r1 : R) (dt : nat) :
  create model_name namespace
    (deployment_config base_model image_name image_tag gpu pvc_size additional_envs)
    (env w) = (Fail e, r1, dt) ->
  str_contains "500" (str_exn e) = false ->
  exists msg,
    deploy_nim tps oversleep create retrieve fuel model_name namespace base_model
      image_name image_tag gpu pvc_size additional_envs wait timeout w
    = (Raise (Exn UnboundLocalError msg), after_call w r1 dt)
    /\ (exn_cls e <> UnboundLocalError -> Exn UnboundLocalError msg <> e).
Proof.
  intros Hcreate Hother.
  erewrite deploy_nim_create_fails by exact Hcreate.
  unfold deploy_nim_except. rewrite Hother.
  eexists. split; [reflexivity|].
  intros Hcls Heq. apply Hcls. now rewrite <- Heq.
Qed.

(** The service answers the creation with a 409 conflict. *)
Lemma deploy_nim_unbound_local_witness :
  let create : string -> string -> DeploymentConfig -> op nat Deployment :=
    fun _ _ _ =>
      Scripted.scripted [] (Fail (Exn RemoteError "Error code: 409 - Conflict"), 2%nat) in
  let retrieve : string -> string -> op nat Deployment :=
    fun _ _ => Scripted.scripted [] (Reply (Scripted.deployment true), 1%nat) in
  exists msg,
    deploy_nim 1000 Scripted.punctual create retrieve 100
      "llama-3.2-1b-instruct-deployment" "meta" "meta/llama-3.2-1b-instruct"
      "nvcr.io/nim/meta/llama-3.2-1b-instruct" "1.8" 1 "25Gi" None true 600
      Scripted.start
    = (Raise (Exn UnboundLocalError msg), MkWorld 1%nat 2 1 []).
Proof.
  intros create retrieve.
  destruct (deploy_nim_unbound_local 1000 Scripted.punctual create retrieve
              100 "llama-3.2-1b-instruct-deployment" "meta"
              "meta/llama-3.2-1b-instruct"
              "nvcr.io/nim/meta/llama-3.2-1b-instruct" "1.8" 1 "25Gi" None
              true 600 Scripted.start
              (Exn RemoteError "Error code: 409 - Conflict")
              1%nat 2%nat eq_refl eq_refl) as (msg & Hrun & _).
  exists msg. exact Hrun.
Defined.

(** After a creation that returned, the local [deployment] is bound: a
    timeout of the wait is caught by the same handler, which then
    returns the deployment as the creation call gave it, not ready. *)
Example deploy_nim_timeout_after_creation :
  deploy_nim 1000 Scripted.punctual
    (fun _ _ _ => Scripted.scripted [] (Reply (Scripted.deployment false), 0%nat))
    (fun _ _ => Scripted.scripted [] (Reply (Scripted.deployment false), 0%nat))
    100 "llama-3.2-1b-instruct-deployment" "meta" "meta/llama-3.2-1b-instruct"
    "nvcr.io/nim/meta/llama-3.2-1b-instruct" "1.8" 1 "25Gi" None true 30
    Scripted.start
  = (Return (Scripted.deployment false), MkWorld 4%nat 30000 4 []).
Proof. vm_compute. reflexivity. Qed.

End DeploymentProps.

(* ===================================================================== *)
(** * Namespace management *)
(* ===================================================================== *)

Module NamespaceProps.
Import Py Observe PyFacts Manager.

Lemma in_pair_spec (x a b : Z) : in_pair x a b = true <-> x = a \/ x = b.
Proof. unfold in_pair. rewrite orb_true_iff, !Z.eqb_eq. reflexivity. Qed.

Section CreateNamespace.
Context {R : Type}.
Variable nds_url : string.
Variable namespaces_create : string -> op R Namespace.
Variable requests_post : string -> string -> op R Response.
Variable name : string.

Local Abbreviation create := (create_namespace nds_url namespaces_create requests_post name).
Local Abbreviation url := (nds_url +:+ "/v1/datastore/namespaces").

(** The Entity Store half: a creation that is refused for another reason
    than "already exists" ends [create_namespace] with that error, before
    the Data Store is asked. *)
Lemma create_namespace_entity_store_error (w : World R) e r1 dt1 :
  namespaces_create name (env w) = (Fail e, r1, dt1) ->
  already_exists_text (str_exn e) = false ->
  create w = (Raise e, after_call w r1 dt1).
Proof.
  intros Hcreate Hother.
  unfold create_namespace, try_except.
  rewrite bind_run, bind_run, (call_run _ _ _ _ _ Hcreate).
  cbn [result_of_reply]. unfold already_exists_text in Hother.
  now rewrite Hother.
Qed.

(** Once the Entity Store has accepted, the answer of the Data Store
    decides. *)
Lemma create_namespace_data_store (w : World R) a1 r1 dt1 a2 r2 dt2 :
  namespaces_create name (env w) = (a1, r1, dt1) ->
  entity_store_accepts a1 = true ->
  requests_post url name r1 = (a2, r2, dt2) ->
  create w =
    (match a2 with
     | Reply resp =>
         if data_store_accepts a2 then Return tt
         else Raise (Exn Exception
                       ("Failed to create namespace in Data Store: "
                        +:+ str_int (status_code resp) +:+ " - " +:+ text resp))
     | Fail e => Raise e
     end,
     after_call (after_call w r1 dt1) r2 dt2).
Proof.
  intros Hcreate Haccept Hpost.
  unfold create_namespace, try_except.
  rewrite bind_run, bind_run, (call_run _ _ _ _ _ Hcreate).
  assert (requests_post url name (env (after_call w r1 dt1)) = (a2, r2, dt2))
    as Hpost' by exact Hpost.
  destruct a1 as [obj|e]; cbn [result_of_reply entity_store_accepts] in *.
  - cbn [mret M_ret ret]. rewrite bind_run, (call_run _ _ _ _ _ Hpost').
    destruct a2 as [resp|e2]; cbn [result_of_reply data_store_accepts]; [|reflexivity].
    destruct (in_pair (status_code resp) 200 201); [reflexivity|].
    destruct (in_pair (status_code resp) 409 422); reflexivity.
  - unfold already_exists_text in Haccept. rewrite Haccept.
    cbn [mret M_ret ret]. rewrite bind_run, (call_run _ _ _ _ _ Hpost').
    destruct a2 as [resp|e2]; cbn [result_of_reply data_store_accepts]; [|reflexivity].
    destruct (in_pair (status_code resp) 200 201); [reflexivity|].
    destruct (in_pair (status_code resp) 409 422); reflexivity.
Qed.

End CreateNamespace.

(** ** Two stores that answer a repeated creation with a conflict *)

Section TwoStores.
Variable conflict_text : string.
Variable conflict_status : Z.
Variables nds_url name : string.
Hypothesis text_is_conflict : already_exists_text conflict_text = true.
Hypothesis status_is_conflict : already_exists_status conflict_status.

Local Abbreviation create :=
  (Stores.create_namespace conflict_text conflict_status nds_url name).

Lemma stores_entity_accepts (s : Stores.stores) :
  exists a s',
    Stores.namespaces_create conflict_text name s = (a, s', 0%nat)
    /\ entity_store_accepts a = true
    /\ name ∈ Stores.entity_store s'
    /\ Stores.data_store s' = Stores.data_store s
    /\ (name ∈ Stores.entity_store s -> s' = s).
Proof.
  unfold Stores.namespaces_create.
  destruct (decide (name ∈ Stores.entity_store s)) as [Hin|Hout].
  - eexists _, _. split; [reflexivity|]. cbn. repeat split; auto.
  - eexists _, _. split; [reflexivity|]. cbn. repeat split; try tauto.
    set_solver.
Qed.

Lemma stores_data_accepts (url : string) (s : Stores.stores) :
  exists a s',
    Stores.requests_post conflict_status url name s = (a, s', 0%nat)
    /\ data_store_accepts a = true
    /\ name ∈ Stores.data_store s'
    /\ Stores.entity_store s' = Stores.entity_store s
    /\ (name ∈ Stores.data_store s -> s' = s).
Proof.
  unfold Stores.requests_post.
  destruct (decide (name ∈ Stores.data_store s)) as [Hin|Hout].
  - eexists _, _. split; [reflexivity|]. cbn.
    assert (in_pair conflict_status 409 422 = true) as ->
      by (apply in_pair_spec; exact status_is_conflict).
    rewrite orb_true_r. repeat split; auto.
  - eexists _, _. split; [reflexivity|]. cbn. repeat split; try tauto.
    set_solver.
Qed.

(** One call succeeds from any state of the stores and leaves the name
    in both; it changes nothing when the name was in both already. *)
Lemma stores_create_namespace (w : World Stores.stores) :
  exists w',
    create w = (Return tt, w')
    /\ name ∈ Stores.entity_store (env w')
    /\ name ∈ Stores.data_store (env w')
    /\ (name ∈ Stores.entity_store (env w) ->
        name ∈ Stores.data_store (env w) -> env w' = env w).
Proof.
  destruct (stores_entity_accepts (env w)) as (a1 & s1 & H1 & Ha1 & Hin1 & Hd1 & Hsame1).
  destruct (stores_data_accepts (nds_url +:+ "/v1/datastore/namespaces") s1)
    as (a2 & s2 & H2 & Ha2 & Hin2 & He2 & Hsame2).
  eexists. split.
  - unfold Stores.create_namespace.
    rewrite (create_namespace_data_store _ _ _ _ _ _ _ _ _ _ _ H1 Ha1 H2).
    destruct a2 as [resp|e]; [|discriminate Ha2].
    rewrite Ha2. reflexivity.
  - cbn [env after_call]. split; [now rewrite He2|]. split; [assumption|].
    intros Hes Hds. rewrite Hsame2, Hsame1; auto. now rewrite Hd1.
Qed.

End TwoStores.

(** C7. [create_namespace] against two stores that answer a repeated
    creation with a conflict succeeds both times, and the second call
    leaves the stores as the first one did. A 409 or a 422 is read as
    success from either store, the Data Store's from the status of its
    response, the Entity Store's from the text of the error: the call
    returns exactly when the Entity Store created the namespace or
    raised an error whose text contains [409] or [422], and the Data
    Store answered 200, 201, 409 or 422. Every other answer of the Data
    Store and every Entity Store error without [409] and [422] in its
    text ends the call with an error. But an Entity Store error that is
    no conflict and has [409] or [422] somewhere in its text (in the
    name of the namespace, say) does not propagate: it is taken for
    "already exists" and lost. *)
Theorem create_namespace_idempotent :
  (forall (R : Type) (nds_url : string)
          (namespaces_create : string -> op R Namespace)
          (requests_post : string -> string -> op R Response)
          (name : string) (w : World R) a1 r1 dt1 a2 r2 dt2,
     namespaces_create name (env w) = (a1, r1, dt1) ->
     requests_post (nds_url +:+ "/v1/datastore/namespaces") name r1 = (a2, r2, dt2) ->
     let run := create_namespace nds_url namespaces_create requests_post name w in
     let w1 := after_call w r1 dt1 in
     let w2 := after_call w1 r2 dt2 in
     (entity_store_accepts a1 = true -> data_store_accepts a2 = true ->
      run = (Return tt, w2))
     /\ (forall e, a1 = Fail e -> already_exists_text (str_exn e) = false ->
         run = (Raise e, w1))
     /\ (entity_store_accepts a1 = true -> forall e, a2 = Fail e ->
         run = (Raise e, w2))
     /\ (entity_store_accepts a1 = true -> data_store_accepts a2 = false ->
         forall resp, a2 = Reply resp ->
         exists msg, run = (Raise (Exn Exception msg), w2))
     /\ (forall cls msg resp,
           a1 = Fail (Exn cls msg) ->
           str_contains "409" msg = true \/ str_contains "422" msg = true ->
           a2 = Reply resp ->
           status_code resp = 200 \/ status_code resp = 201 ->
           run = (Return tt, w2)))
  /\
  (forall (conflict_text : string) (conflict_status : Z) (nds_url name : string)
          (w : World Stores.stores),
     already_exists_text conflict_text = true ->
     already_exists_status conflict_status ->
     exists w1 w2,
       Stores.create_namespace conflict_text conflict_status nds_url name w
       = (Return tt, w1)
       /\ Stores.create_namespace conflict_text conflict_status nds_url name w1
          = (Return tt, w2)
       /\ env w2 = env w1
       /\ name ∈ Stores.entity_store (env w1)
       /\ name ∈ Stores.data_store (env w1)).
Proof.
  split.
  - intros R nds_url namespaces_create requests_post name w a1 r1 dt1 a2 r2 dt2
      H1 H2 run w1 w2. subst run w1 w2.
    split; [|split; [|split; [|split]]].
    + intros Ha1 Ha2.
      rewrite (create_namespace_data_store _ _ _ _ _ _ _ _ _ _ _ H1 Ha1 H2).
      destruct a2 as [resp|e]; [|discriminate Ha2]. now rewrite Ha2.
    + intros e -> Hother.
      now apply create_namespace_entity_store_error.
    + intros Ha1 e ->.
      now rewrite (create_namespace_data_store _ _ _ _ _ _ _ _ _ _ _ H1 Ha1 H2).
    + intros Ha1 Ha2 resp ->.
      rewrite (create_namespace_data_store _ _ _ _ _ _ _ _ _ _ _ H1 Ha1 H2).
      rewrite Ha2. eexists. reflexivity.
    + intros cls msg resp -> Htext -> Hstatus.
      assert (entity_store_accepts (Fail (Exn cls msg)) = true) as Ha1.
      { cbn [entity_store_accepts str_exn exn_msg]. unfold already_exists_text.
        apply orb_true_iff. exact Htext. }
      assert (data_store_accepts (Reply resp) = true) as Ha2.
      { cbn [data_store_accepts]. apply orb_true_iff. left.
        apply in_pair_spec. exact Hstatus. }
      rewrite (create_namespace_data_store _ _ _ _ _ _ _ _ _ _ _ H1 Ha1 H2).
      now rewrite Ha2.
  - intros conflict_text conflict_status nds_url name w Htext Hstatus.
    destruct (stores_create_namespace conflict_text conflict_status nds_url name
                Htext Hstatus w) as (w1 & Hrun1 & Hes & Hds & _).
    destruct (stores_create_namespace conflict_text conflict_status nds_url name
                Htext Hstatus w1) as (w2 & Hrun2 & _ & _ & Hsame).
    exists w1, w2. repeat split; auto.
Qed.

(** The namespace [exp-409] while the Entity Store is unavailable: the
    503 names the namespace, so its text contains [409], and the call
    returns as if the namespace were there. And two calls for
    [lora-tutorial-ns] against empty stores that report conflicts as
    409. *)
Lemma create_namespace_idempotent_witness :
  create_namespace "http://data-store.test"
    (fun _ =>
       Scripted.answer false {| namespace_id := "" |}
         (Exn RemoteError
            "Error code: 503 - Service Unavailable: cannot create namespace exp-409"))
    (fun _ _ =>
       Scripted.answer true {| status_code := 201; text := "" |}
         Scripted.connection_error)
    "exp-409" Scripted.start
  = (Return tt, after_call (after_call Scripted.start 1%nat 1%nat) 2%nat 1%nat)
  /\ exists w1 w2,
       Stores.create_namespace "Error code: 409 - namespace already exists" 409
         "http://data-store.test" "lora-tutorial-ns" Stores.empty
       = (Return tt, w1)
       /\ Stores.create_namespace "Error code: 409 - namespace already exists" 409
            "http://data-store.test" "lora-tutorial-ns" w1
          = (Return tt, w2)
       /\ env w2 = env w1
       /\ "lora-tutorial-ns" ∈ Stores.entity_store (env w1)
       /\ "lora-tutorial-ns" ∈ Stores.data_store (env w1).
Proof.
  split.
  - refine (proj2 (proj2 (proj2 (proj2
              (proj1 create_namespace_idempotent nat "http://data-store.test"
                 _ _ "exp-409" Scripted.start _ 1%nat 1%nat _ 2%nat 1%nat
                 eq_refl eq_refl))))
              RemoteError _ {| status_code := 201; text := "" |}
              eq_refl _ eq_refl _).
    + left. vm_compute. reflexivity.
    + right. reflexivity.
  - apply (proj2 create_namespace_idempotent).
    + vm_compute. reflexivity.
    + left. reflexivity.
Defined.

(** ** Verification *)

(** C8. [verify_namespace] always returns a boolean, whatever the two
    stores answer: [True] exactly when the Entity Store hands back a
    namespace and the Data Store answers 200 or 201; an error of either
    query gives [False], never an exception. *)
Theorem verify_namespace_boolean {R : Type} (nds_url : string)
    (namespaces_retrieve : string -> op R (option Namespace))
    (requests_get : string -> op R Response)
    (name : string) (w : World R) :
  exists b w',
    verify_namespace nds_url namespaces_retrieve requests_get name w
    = (Return b, w')
    /\ (b = true <->
        exists obj r1 dt1 resp r2 dt2,
          namespaces_retrieve name (env w) = (Reply (Some obj), r1, dt1)
          /\ requests_get (nds_url +:+ "/v1/datastore/namespaces/" +:+ name) r1
             = (Reply resp, r2, dt2)
          /\ (status_code resp = 200 \/ status_code resp = 201))
    /\ ((exists e r1 dt1, namespaces_retrieve name (env w) = (Fail e, r1, dt1))
        -> b = false)
    /\ (forall a1 r1 dt1 e r2 dt2,
          namespaces_retrieve name (env w) = (a1, r1, dt1) ->
          requests_get (nds_url +:+ "/v1/datastore/namespaces/" +:+ name) r1
          = (Fail e, r2, dt2) ->
          b = false).
Proof.
  unfold verify_namespace, try_except.
  rewrite bind_run.
  destruct (namespaces_retrieve name (env w)) as [[a1 r1] dt1] eqn:H1.
  rewrite (call_run _ _ _ _ _ H1).
  destruct a1 as [obj|e]; cbn [result_of_reply].
  - rewrite bind_run.
    destruct (requests_get (nds_url +:+ "/v1/datastore/namespaces/" +:+ name) r1)
      as [[a2 r2] dt2] eqn:H2.
    assert (requests_get (nds_url +:+ "/v1/datastore/namespaces/" +:+ name)
              (env (after_call w r1 dt1)) = (a2, r2, dt2)) as H2' by exact H2.
    rewrite (call_run _ _ _ _ _ H2').
    destruct a2 as [resp|e]; cbn [result_of_reply].
    + eexists _, _. split; [reflexivity|]. split; [|split].
      * rewrite andb_true_iff, bool_decide_eq_true, in_pair_spec. split.
        -- intros [Hobj Hstatus]. destruct obj as [obj|]; [|congruence].
           exists obj, r1, dt1, resp, r2, dt2. auto.
        -- intros (obj' & r1' & dt1' & resp' & r2' & dt2' & Ho & Hg & Hs).
           injection Ho as -> -> ->. rewrite H2 in Hg. injection Hg as -> -> ->.
           split; [discriminate|assumption].
      * intros (e & r1' & dt1' & He). discriminate He.
      * intros a1 r1' dt1' e r2' dt2' Ho Hg.
        injection Ho as <- <- <-. rewrite H2 in Hg. discriminate Hg.
    + eexists _, _. split; [reflexivity|]. split; [|split]; auto.
      split; [discriminate|].
      intros (obj' & r1' & dt1' & resp' & r2' & dt2' & Ho & Hg & Hs).
      injection Ho as -> -> ->. rewrite H2 in Hg. discriminate Hg.
  - eexists _, _. split; [reflexivity|]. split; [|split]; auto.
    split; [discriminate|].
    intros (obj' & r1' & dt1' & resp' & r2' & dt2' & Ho & Hg & Hs).
    discriminate Ho.
Qed.

End NamespaceProps.

(* ===================================================================== *)
(** * Metrics: extraction and comparison *)
(* ===================================================================== *)

Module MetricsProps.
Import Py Observe PyFacts Manager.

(** ** Dictionaries *)

Lemma dict_get_set {V} (d : dict V) (k k' : string) (v : V) :
  dict_get (dict_set d k v) k' = if String.eqb k k' then Some v else dict_get d k'.
Proof.
  induction d as [|[k0 v0] d IH]; cbn.
  - reflexivity.
  - destruct (String.eqb_spec k0 k) as [->|Hne]; cbn.
    + destruct (String.eqb_spec k k'); reflexivity.
    + destruct (String.eqb_spec k0 k') as [->|Hne'].
      * destruct (String.eqb_spec k k'); [congruence|reflexivity].
      * exact IH.
Qed.

Lemma dict_get_In {V} (d : dict V) (k : string) (v : V) :
  dict_get d k = Some v -> In (k, v) d.
Proof.
  induction d as [|[k0 v0] d IH]; cbn; [discriminate|].
  destruct (String.eqb_spec k0 k) as [->|Hne].
  - intros [= ->]. now left.
  - intros H. right. now apply IH.
Qed.

Lemma dict_keys_get {V} (d : dict V) (k : string) :
  In k (dict_keys d) -> exists v, dict_get d k = Some v.
Proof.
  induction d as [|[k0 v0] d IH]; cbn; [tauto|].
  intros [->|Hin].
  - rewrite String.eqb_refl. eauto.
  - destruct (String.eqb k0 k); eauto.
Qed.

Lemma dict_mem_set {V} (d : dict V) (k k' : string) (v : V) :
  dict_mem (dict_set d k v) k' = String.eqb k k' || dict_mem d k'.
Proof.
  unfold dict_mem. rewrite dict_get_set.
  destruct (String.eqb k k'); reflexivity.
Qed.

(** ** Extraction *)

Lemma add_scores_get (metric_name : string) (ss : dict Score) (acc : dict float)
    (k : string) (v : float) :
  dict_get (add_scores metric_name ss acc) k = Some v ->
  dict_get acc k = Some v
  \/ exists score_name score,
       In (score_name, score) ss
       /\ k = score_key metric_name score_name /\ v = value score.
Proof.
  unfold add_scores. revert acc.
  induction ss as [|[s sc] ss IH]; intros acc; cbn [fold_left].
  - now left.
  - intros H. destruct (IH _ H) as [Hacc|(s' & sc' & Hin & Hk & Hv)].
    + rewrite dict_get_set in Hacc.
      destruct (String.eqb_spec (metric_name +:+ "_" +:+ s) k) as [<-|Hne].
      * right. exists s, sc. injection Hacc as <-. split; [now left|]. now split.
      * now left.
    + right. exists s', sc'. split; [now right|]. now split.
Qed.

Lemma add_scores_mem (metric_name : string) (ss : dict Score) (acc : dict float)
    (k : string) :
  dict_mem (add_scores metric_name ss acc) k
  = dict_mem acc k
    || existsb (fun '(s, _) => String.eqb (score_key metric_name s) k) ss.
Proof.
  unfold add_scores. revert acc.
  induction ss as [|[s sc] ss IH]; intros acc; cbn [fold_left existsb].
  - now rewrite orb_false_r.
  - rewrite IH, dict_mem_set. unfold score_key.
    destruct (String.eqb (metric_name +:+ "_" +:+ s) k), (dict_mem acc k); reflexivity.
Qed.

Lemma add_metrics_get (ms : dict MetricResult) (acc : dict float)
    (k : string) (v : float) :
  dict_get (add_metrics ms acc) k = Some v ->
  dict_get acc k = Some v
  \/ exists metric_name metric_result ss score_name score,
       In (metric_name, metric_result) ms
       /\ scores metric_result = Some ss
       /\ In (score_name, score) ss
       /\ k = score_key metric_name score_name /\ v = value score.
Proof.
  unfold add_metrics. revert acc.
  induction ms as [|[m mr] ms IH]; intros acc; cbn [fold_left].
  - now left.
  - intros H. destruct (IH _ H) as [Hacc|(m' & mr' & ss & s & sc & Hin & Hrest)].
    + destruct (scores mr) as [[|entry ss]|] eqn:Hscores; cbn [truthy_dict] in Hacc;
        try (now left).
      cbn [default] in Hacc.
      destruct (add_scores_get _ _ _ _ _ Hacc) as [Hacc'|(s & sc & Hin & Hk & Hv)];
        [now left|].
      right. exists m, mr, (entry :: ss), s, sc. split; [now left|]. auto.
    + right. exists m', mr', ss, s, sc. split; [now right|]. exact Hrest.
Qed.

Lemma add_metrics_mem_acc (ms : dict MetricResult) (acc : dict float) (k : string) :
  dict_mem acc k = true -> dict_mem (add_metrics ms acc) k = true.
Proof.
  unfold add_metrics. revert acc.
  induction ms as [|[m mr] ms IH]; intros acc Hacc; cbn [fold_left]; [assumption|].
  apply IH. destruct (truthy_dict (scores mr)); [|assumption].
  now rewrite add_scores_mem, Hacc.
Qed.

Lemma add_metrics_mem (ms : dict MetricResult) (acc : dict float)
    metric_name metric_result ss score_name score :
  In (metric_name, metric_result) ms ->
  scores metric_result = Some ss ->
  In (score_name, score) ss ->
  dict_mem (add_metrics ms acc) (score_key metric_name score_name) = true.
Proof.
  unfold add_metrics. revert acc.
  induction ms as [|[m mr] ms IH]; intros acc Hin Hscores Hs; [destruct Hin|].
  cbn [fold_left]. destruct Hin as [[= -> ->]|Hin].
  - apply add_metrics_mem_acc. rewrite Hscores.
    destruct ss as [|entry ss]; [destruct Hs|]. cbn [truthy_dict default].
    rewrite add_scores_mem. apply orb_true_iff. right.
    apply existsb_exists. exists (score_name, score). split; [assumption|].
    apply String.eqb_refl.
  - now apply IH.
Qed.

Lemma add_metrics_no_scores (ms1 ms2 : dict MetricResult) metric_name metric_result
    (acc : dict float) :
  truthy_dict (scores metric_result) = false ->
  add_metrics (ms1 ++ (metric_name, metric_result) :: ms2) acc
  = add_metrics (ms1 ++ ms2) acc.
Proof.
  intros Hnone. unfold add_metrics.
  rewrite !fold_left_app. cbn [fold_left]. now rewrite Hnone.
Qed.

Lemma save_evaluation_results_metrics_qa (results : EvaluationResult) ts qa :
  tasks results = Some ts ->
  dict_get ts "qa" = Some qa ->
  save_evaluation_results_metrics results
  = if truthy_dict (metrics qa) then add_metrics (default [] (metrics qa)) [] else [].
Proof.
  intros Hts Hqa. unfold save_evaluation_results_metrics.
  rewrite Hts. cbn [from_option id]. unfold dict_mem. rewrite Hqa.
  destruct ts as [|t ts]; [discriminate Hqa|]. reflexivity.
Qed.

Lemma save_evaluation_results_metrics_qa_result (ms : dict MetricResult) :
  save_evaluation_results_metrics (qa_result ms)
  = if truthy_dict (Some ms) then add_metrics ms [] else [].
Proof. reflexivity. Qed.

Lemma save_evaluation_results_metrics_get (results : EvaluationResult) k v :
  dict_get (save_evaluation_results_metrics results) k = Some v ->
  exists ts qa ms,
    tasks results = Some ts /\ dict_get ts "qa" = Some qa /\ metrics qa = Some ms
    /\ dict_get (add_metrics ms []) k = Some v.
Proof.
  unfold save_evaluation_results_metrics.
  destruct (tasks results) as [ts|]; [|discriminate].
  cbn [from_option id]. unfold dict_mem.
  destruct (dict_get ts "qa") as [qa|] eqn:Hqa;
    [|rewrite andb_false_r; discriminate].
  destruct (truthy_dict (Some ts)); cbn [andb]; [|discriminate].
  destruct (metrics qa) as [[|entry ms]|] eqn:Hms; cbn [truthy_dict];
    try discriminate.
  cbn [from_option id]. intros H. exists ts, qa, (entry :: ms). auto.
Qed.

(** C10. The metrics block of [save_evaluation_results] flattens the
    metrics of the task named [qa], the one task it reads, into one
    dictionary keyed ["{metric}_{score}"]; tasks of other names
    contribute no keys. The result of the specification's example is
    [{"f1_default": 0.83}]; every key of the output is such a pair of the
    [qa] task, with that score's value or a later one's for the same
    key, and every such pair has its key in the output; a [qa] task
    whose metrics mapping is empty or absent gives the empty dictionary,
    as does a result without a [qa] task; a metric whose scores are
    empty or absent adds nothing; and the block raises nothing: once the
    three remote calls of [save_evaluation_results] have answered, the
    function returns the flattened metrics. *)
Theorem metric_flattening :
  save_evaluation_results_metrics
    (qa_result [("f1", {| scores := Some [("default", {| value := 0.83 |})] |})])
  = [("f1_default", 0.83%float)]
  /\ (forall results k v,
        dict_get (save_evaluation_results_metrics results) k = Some v ->
        exists ts qa ms metric_name metric_result ss score_name score,
          tasks results = Some ts /\ dict_get ts "qa" = Some qa
          /\ metrics qa = Some ms
          /\ In (metric_name, metric_result) ms
          /\ scores metric_result = Some ss
          /\ In (score_name, score) ss
          /\ k = metric_name +:+ "_" +:+ score_name /\ v = value score)
  /\ (forall results ts qa ms metric_name metric_result ss score_name score,
        tasks results = Some ts -> dict_get ts "qa" = Some qa ->
        metrics qa = Some ms ->
        In (metric_name, metric_result) ms ->
        scores metric_result = Some ss ->
        In (score_name, score) ss ->
        dict_mem (save_evaluation_results_metrics results)
          (metric_name +:+ "_" +:+ score_name) = true)
  /\ (forall results ts qa,
        tasks results = Some ts -> dict_get ts "qa" = Some qa ->
        metrics qa = None \/ metrics qa = Some [] ->
        save_evaluation_results_metrics results = [])
  /\ (forall results,
        (forall ts, tasks results = Some ts -> dict_get ts "qa" = None) ->
        save_evaluation_results_metrics results = [])
  /\ (forall ms1 ms2 metric_name metric_result,
        scores metric_result = None \/ scores metric_result = Some [] ->
        save_evaluation_results_metrics
          (qa_result (ms1 ++ (metric_name, metric_result) :: ms2))
        = save_evaluation_results_metrics (qa_result (ms1 ++ ms2)))
  /\ (forall (R Zip : Type) (fetch : string -> op R EvaluationResult)
             (download : string -> op R Zip)
             (write : Zip -> string -> op R unit)
             job_id output_path (w : World R) results r1 dt1 zip r2 dt2 r3 dt3,
        fetch job_id (env w) = (Reply results, r1, dt1) ->
        download job_id r1 = (Reply zip, r2, dt2) ->
        write zip output_path r2 = (Reply tt, r3, dt3) ->
        save_evaluation_results Zip fetch download write job_id output_path w
        = (Return (save_evaluation_results_metrics results),
           after_call (after_call (after_call w r1 dt1) r2 dt2) r3 dt3)).
Proof.
  split; [vm_compute; reflexivity|].
  split; [|split; [|split; [|split; [|split]]]].
  - intros results k v H.
    destruct (save_evaluation_results_metrics_get _ _ _ H)
      as (ts & qa & ms & Hts & Hqa & Hms & Hget).
    destruct (add_metrics_get _ _ _ _ Hget)
      as [Hempty|(m & mr & ss & s & sc & Hin & Hss & Hs & Hk & Hv)];
      [discriminate Hempty|].
    exists ts, qa, ms, m, mr, ss, s, sc. auto 10.
  - intros results ts qa ms m mr ss s sc Hts Hqa Hms Hin Hss Hs.
    rewrite (save_evaluation_results_metrics_qa _ _ _ Hts Hqa), Hms.
    destruct ms as [|entry ms]; [destruct Hin|]. cbn [truthy_dict from_option id].
    now apply add_metrics_mem with (metric_result := mr) (ss := ss) (score := sc).
  - intros results ts qa Hts Hqa Hnone.
    rewrite (save_evaluation_results_metrics_qa _ _ _ Hts Hqa).
    destruct Hnone as [-> | ->]; reflexivity.
  - intros results Hnoqa. unfold save_evaluation_results_metrics.
    destruct (tasks results) as [ts|]; [|reflexivity].
    cbn [from_option id]. unfold dict_mem. rewrite (Hnoqa ts eq_refl).
    now rewrite andb_false_r.
  - intros ms1 ms2 m mr Hnone.
    assert (truthy_dict (scores mr) = false) as Hfalse
      by (destruct Hnone as [-> | ->]; reflexivity).
    rewrite !save_evaluation_results_metrics_qa_result.
    destruct ms1 as [|entry ms1]; cbn [app truthy_dict].
    + destruct ms2 as [|entry ms2].
      * unfold add_metrics. cbn [fold_left]. now rewrite Hfalse.
      * exact (add_metrics_no_scores [] (entry :: ms2) m mr [] Hfalse).
    + exact (add_metrics_no_scores (entry :: ms1) ms2 m mr [] Hfalse).
  - intros R Zip fetch download write job_id output_path w results r1 dt1 zip
      r2 dt2 r3 dt3 H1 H2 H3.
    unfold save_evaluation_results, get_evaluation_results.
    rewrite !bind_run, (call_run _ _ _ _ _ H1). cbn [result_of_reply].
    rewrite bind_run, (call_run _ (after_call w r1 dt1) _ _ _ H2).
    cbn [result_of_reply mret M_ret ret].
    rewrite bind_run, (call_run _ (after_call (after_call w r1 dt1) r2 dt2) _ _ _ H3).
    reflexivity.
Qed.

(** Two metrics, one with a score and one with none, beside a task that
    is not [qa]. *)
Lemma metric_flattening_witness :
  save_evaluation_results_metrics
    {| tasks := Some
         [("summary", {| metrics := Some [("rouge", {| scores := None |})] |});
          ("qa", {| metrics := Some
                      [("string-check", {| scores := Some [] |});
                       ("f1", {| scores := Some [("default", {| value := 0.83 |})] |})] |})] |}
  = [("f1_default", 0.83%float)]
  /\ dict_mem
       (save_evaluation_results_metrics
          (qa_result [("f1", {| scores := Some [("default", {| value := 0.83 |})] |})]))
       ("f1" +:+ "_" +:+ "default") = true
  /\ save_evaluation_results_metrics
       (qa_result ([] ++ ("string-check", {| scores := Some [] |})
                   :: [("f1", {| scores := Some [("default", {| value := 0.83 |})] |})]))
     = save_evaluation_results_metrics
         (qa_result ([] ++ [("f1", {| scores := Some [("default", {| value := 0.83 |})] |})])).
Proof.
  destruct metric_flattening as (_ & _ & Hmem & _ & _ & Hnone & _).
  split; [vm_compute; reflexivity|]. split.
  - eapply (Hmem (qa_result _) _ _ _ "f1" _ _ "default").
    + reflexivity.
    + reflexivity.
    + reflexivity.
    + left. reflexivity.
    + reflexivity.
    + left. reflexivity.
  - apply Hnone. right. reflexivity.
Defined.

(** The flattening is not per task: the metrics of the specification's
    example, under a task named [summary] instead of [qa], give no key
    at all, where the same metrics under [qa] give [f1_default]. *)
Lemma metric_flattening_counterexample :
  save_evaluation_results_metrics
    (task_result "summary"
       [("f1", {| scores := Some [("default", {| value := 0.83 |})] |})])
  = []
  /\ dict_mem
       (save_evaluation_results_metrics
          (task_result "summary"
             [("f1", {| scores := Some [("default", {| value := 0.83 |})] |})]))
       "f1_default"
     = false
  /\ save_evaluation_results_metrics
       (task_result "qa"
          [("f1", {| scores := Some [("default", {| value := 0.83 |})] |})])
     = [("f1_default", 0.83%float)].
Proof. vm_compute. repeat split. Qed.

End MetricsProps.

(* ===================================================================== *)
(** * The pipeline *)
(* ===================================================================== *)

Module PipelineProps.
Import Py Observe PyFacts Pipeline.

Lemma log_at_run {R} (l : level) (msg : string) (w : World R) :
  log_at l msg w = (Return tt, logged [(l, msg)] w).
Proof. reflexivity. Qed.

Lemma bind_log_at {R B} (l : level) (msg : string) (k : unit -> M R B) (w : World R) :
  (log_at l msg ≫= k) w = k tt (logged [(l, msg)] w).
Proof. reflexivity. Qed.

Lemma bind_mret {R A B} (a : A) (k : A -> M R B) (w : World R) :
  (mret a ≫= k) w = k a w.
Proof. reflexivity. Qed.

Lemma logged_nil {R} (w : World R) : logged [] w = w.
Proof. destruct w. unfold logged. cbn. now rewrite app_nil_r. Qed.

Lemma logged_logged {R} (a b : list (level * string)) (w : World R) :
  logged b (logged a w) = logged (a ++ b) w.
Proof. unfold logged. cbn. now rewrite app_assoc. Qed.

(** ** The comparison report *)

Section Report.
Context {R : Type}.
Variables base_metrics custom_metrics : dict float.

Lemma report_improvement_run (metric_name : string) (w : World R) :
  In metric_name (dict_keys base_metrics) ->
  report_improvement base_metrics custom_metrics metric_name w
  = (Return tt,
     logged
       match dict_get custom_metrics metric_name,
             dict_get base_metrics metric_name with
       | Some custom, Some base =>
           [(INFO,
             improvement_line metric_name
               (improvement_of custom base)
               (percentage_of (improvement_of custom base) base))]
       | _, _ => []
       end w).
Proof.
  intros Hin. destruct (MetricsProps.dict_keys_get _ _ Hin) as [base Hbase].
  unfold report_improvement, dict_mem. rewrite Hbase.
  destruct (dict_get custom_metrics metric_name) as [custom|].
  - apply log_at_run.
  - cbn. now rewrite logged_nil.
Qed.

Lemma report_improvements_run (keys : list string) (w : World R) :
  (forall k, In k keys -> In k (dict_keys base_metrics)) ->
  for_each keys (report_improvement base_metrics custom_metrics) w
  = (Return tt,
     logged
       (flat_map
          (fun metric_name =>
             match dict_get custom_metrics metric_name,
                   dict_get base_metrics metric_name with
             | Some custom, Some base =>
                 [(INFO,
                   improvement_line metric_name
                     (improvement_of custom base)
                     (percentage_of (improvement_of custom base) base))]
             | _, _ => []
             end) keys) w).
Proof.
  revert w. induction keys as [|k keys IH]; intros w Hkeys.
  - cbn. now rewrite logged_nil.
  - cbn [for_each flat_map]. unfold bind.
    rewrite report_improvement_run by (apply Hkeys; now left).
    rewrite IH by (intros k' Hk'; apply Hkeys; now right).
    now rewrite logged_logged.
Qed.

End Report.

(** The line of one metric, spelled out in float operations. *)
Lemma improvement_line_spelled (metric_name : string) (custom base : float) :
  improvement_line metric_name (improvement_of custom base)
    (percentage_of (improvement_of custom base) base)
  = "  " +:+ metric_name +:+ ": " +:+ format_f true 4 (custom - base)%float
    +:+ " ("
    +:+ format_f true 1
          (if PrimFloat.eqb base 0 then 0 else (custom - base) / base * 100)%float
    +:+ "%)".
Proof.
  unfold improvement_line, percentage_of, improvement_of, float_nonzero.
  now destruct (PrimFloat.eqb base 0).
Qed.

(** The listing of a set of metrics. *)
Lemma report_metrics_run {R} (metrics : dict float) (w : World R) :
  report_metrics metrics w = (Return tt, logged (metric_records metrics) w).
Proof.
  unfold report_metrics, metric_records. revert w.
  induction metrics as [|[metric_name value] metrics IH]; intros w.
  - cbn. now rewrite logged_nil.
  - cbn [for_each map]. unfold bind. rewrite log_at_run. cbv beta iota.
    rewrite IH, logged_logged. reflexivity.
Qed.

(** C9. The comparison phase, once its two evaluations have returned
    the base and the custom metrics, raises nothing and logs its
    report: the two sets of metrics and, under "Improvements:", one
    line for each metric of the base set that the custom set has too,
    in the order of the base set, and no other line. The line shows the
    custom value minus the base value, to four places, and
    [(delta / base) * 100], to one place, when the base value is not
    zero, zero when it is. *)
Theorem comparison_deltas {R : Type} (path_join : string -> string -> string)
    (manager : NeMoMicroservicesManager R) (config : Config) (args : Args)
    (custom_model : option string) (base_metrics custom_metrics : dict float)
    (w w1 w2 : World R) :
  compare args = true ->
  truthy_str custom_model = true ->
  run_evaluation_phase path_join manager config args
    (Some (config_base_model config))
    (logged (phase_records "PHASE 5: Model Comparison"
             ++ [(INFO, "Evaluating base model...")]) w)
  = (Return base_metrics, w1) ->
  run_evaluation_phase path_join manager config args custom_model
    (logged [(INFO, "Evaluating custom model...")] w1)
  = (Return custom_metrics, w2) ->
  exists improvements,
    run_comparison_phase path_join manager config args custom_model w
    = (Return tt,
       logged
         ([(INFO, banner); (INFO, "Model Comparison Results:"); (INFO, rule);
           (INFO, "Base Model: " +:+ config_base_model config)]
          ++ metric_records base_metrics
          ++ [(INFO, rule); (INFO, "Custom Model: " +:+ default "" custom_model)]
          ++ metric_records custom_metrics
          ++ [(INFO, rule); (INFO, "Improvements:")]
          ++ improvements
          ++ [(INFO, banner)]) w2)
    /\ improvements = improvement_report base_metrics custom_metrics
    /\ (forall metric_name base custom,
          dict_get base_metrics metric_name = Some base ->
          dict_get custom_metrics metric_name = Some custom ->
          In (INFO,
              "  " +:+ metric_name +:+ ": "
              +:+ format_f true 4 (custom - base)%float +:+ " ("
              +:+ format_f true 1
                    (if PrimFloat.eqb base 0 then 0
                     else (custom - base) / base * 100)%float
              +:+ "%)")
             improvements)
    /\ (forall entry,
          In entry improvements ->
          exists metric_name base custom,
            dict_get base_metrics metric_name = Some base
            /\ dict_get custom_metrics metric_name = Some custom
            /\ entry
               = (INFO,
                  "  " +:+ metric_name +:+ ": "
                  +:+ format_f true 4 (custom - base)%float +:+ " ("
                  +:+ format_f true 1
                        (if PrimFloat.eqb base 0 then 0
                         else (custom - base) / base * 100)%float
                  +:+ "%)")).
Proof.
  intros Hcompare Hcustom Hbase Hcust.
  exists (improvement_report base_metrics custom_metrics).
  split; [|split; [reflexivity|split]].
  - unfold run_comparison_phase, try_except.
    rewrite Hcompare, Hcustom. cbn [negb orb].
    rewrite !bind_log_at, !logged_logged.
    rewrite bind_run.
    match goal with
    | |- context [run_evaluation_phase _ _ _ _ (Some _) ?w0] =>
        change w0
          with (logged (phase_records "PHASE 5: Model Comparison"
                        ++ [(INFO, "Evaluating base model...")]) w)
    end.
    rewrite Hbase, bind_log_at, bind_run, Hcust.
    rewrite !bind_log_at.
    rewrite bind_run, report_metrics_run, !bind_log_at.
    rewrite bind_run, report_metrics_run, !bind_log_at.
    rewrite bind_run.
    rewrite (report_improvements_run base_metrics custom_metrics
               (dict_keys base_metrics)) by auto.
    rewrite log_at_run, !logged_logged.
    fold (improvement_report base_metrics custom_metrics).
    repeat rewrite <- app_assoc. reflexivity.
  - intros metric_name base custom Hb Hc.
    unfold improvement_report. apply in_flat_map. exists metric_name. split.
    + apply MetricsProps.dict_get_In in Hb.
      unfold dict_keys. apply in_map_iff. now exists (metric_name, base).
    + rewrite Hb, Hc, improvement_line_spelled. now left.
  - intros entry Hentry.
    unfold improvement_report in Hentry. apply in_flat_map in Hentry.
    destruct Hentry as (metric_name & _ & Hin).
    destruct (dict_get custom_metrics metric_name) as [custom|] eqn:Hc;
      [|destruct Hin].
    destruct (dict_get base_metrics metric_name) as [base|] eqn:Hb;
      [|destruct Hin].
    destruct Hin as [<-|[]]. exists metric_name, base, custom.
    now rewrite improvement_line_spelled.
Qed.

(** The example of the specification through the phase: base
    [{f1: 0.5, exact: 0.0}] and custom [{f1: 0.7, exact: 0.2}]. *)
Lemma comparison_deltas_witness :
  exists w2,
    run_comparison_phase Scripted.path_join
      (Scripted.reporting_manager Scripted.base_metrics Scripted.custom_metrics)
      Scripted.default_config
      (Scripted.default_args false false false true true false)
      (Some "lora-tutorial-ns/llama-3.2-1b-custom@v1") Scripted.start
    = (Return tt,
       logged
         [(INFO, banner); (INFO, "Model Comparison Results:"); (INFO, rule);
          (INFO, "Base Model: meta/llama-3.2-1b-instruct");
          (INFO, "  f1: 0.5000"); (INFO, "  exact: 0.0000");
          (INFO, rule);
          (INFO, "Custom Model: lora-tutorial-ns/llama-3.2-1b-custom@v1");
          (INFO, "  f1: 0.7000"); (INFO, "  exact: 0.2000");
          (INFO, rule); (INFO, "Improvements:");
          (INFO, "  f1: +0.2000 (+40.0%)"); (INFO, "  exact: +0.2000 (+0.0%)");
          (INFO, banner)] w2).
Proof.
  pose (manager :=
          Scripted.reporting_manager Scripted.base_metrics Scripted.custom_metrics).
  pose (args := Scripted.default_args false false false true true false).
  pose (w1 :=
          (run_evaluation_phase Scripted.path_join manager Scripted.default_config
             args (Some (config_base_model Scripted.default_config))
             (logged (phase_records "PHASE 5: Model Comparison"
                      ++ [(INFO, "Evaluating base model...")]) Scripted.start)).2).
  pose (w2 :=
          (run_evaluation_phase Scripted.path_join manager Scripted.default_config
             args (Some "lora-tutorial-ns/llama-3.2-1b-custom@v1")
             (logged [(INFO, "Evaluating custom model...")] w1)).2).
  assert (Hbase :
            run_evaluation_phase Scripted.path_join manager Scripted.default_config
              args (Some (config_base_model Scripted.default_config))
              (logged (phase_records "PHASE 5: Model Comparison"
                       ++ [(INFO, "Evaluating base model...")]) Scripted.start)
            = (Return Scripted.base_metrics, w1))
    by (vm_compute; reflexivity).
  assert (Hcustom :
            run_evaluation_phase Scripted.path_join manager Scripted.default_config
              args (Some "lora-tutorial-ns/llama-3.2-1b-custom@v1")
              (logged [(INFO, "Evaluating custom model...")] w1)
            = (Return Scripted.custom_metrics, w2))
    by (vm_compute; reflexivity).
  destruct (comparison_deltas Scripted.path_join manager Scripted.default_config
              args (Some "lora-tutorial-ns/llama-3.2-1b-custom@v1")
              Scripted.base_metrics Scripted.custom_metrics
              Scripted.start w1 w2 eq_refl eq_refl Hbase Hcustom)
    as (improvements & Hrun & -> & _).
  exists w2. etransitivity; [exact Hrun|].
  apply f_equal. apply (f_equal (fun entries => logged entries w2)).
  vm_compute. reflexivity.
Defined.

(** In binary64 the difference of 0.7 and 0.5 is not the float 0.2, and
    the percentage is not the float 40: the report rounds them. *)
Example improvement_is_rounded :
  PrimFloat.eqb (improvement_of 0.7 0.5) 0.2 = false
  /\ PrimFloat.eqb (improvement_of 0.7 0.5) 0x1.9999999999998p-3 = true
  /\ PrimFloat.eqb (percentage_of (improvement_of 0.7 0.5) 0.5) 40 = false
  /\ format_f true 4 (improvement_of 0.7 0.5) = "+0.2000"
  /\ format_f true 1 (percentage_of (improvement_of 0.7 0.5) 0.5) = "+40.0".
Proof. vm_compute. repeat split. Qed.

(** The whole comparison phase against the scripted manager: what it
    logs from "Improvements:" on. *)
Example run_comparison_phase_report :
  let '(r, w) :=
    run_comparison_phase Scripted.path_join
      (Scripted.manager true true true)
      Scripted.default_config
      (Scripted.default_args false false false true true false)
      (Some "lora-tutorial-ns/llama-3.2-1b-custom@v1") Scripted.start in
  r = Return tt
  /\ skipn 36 (Scripted.messages w)
     = ["Improvements:"; "  f1_score: +0.2000 (+40.0%)";
        "  exact_match: +0.2000 (+0.0%)"; banner].
Proof. vm_compute. split; reflexivity. Qed.

(** ** Gating of the phases *)

Section Gating.
Context {R : Type}.
Variable path_join : string -> string -> string.
Variable path_exists : string -> op R bool.
Variable mkdir : string -> op R unit.
Variable manager : NeMoMicroservicesManager R.

(** The deployment phase reports a failure exactly by catching what
    [deploy_nim] raised. *)
Lemma run_deployment_phase_fails (config : Config) (args : Args) (w w' : World R) e :
  deploy args = true ->
  deploy_nim manager
    (last_piece (str_split "/"%char (config_base_model config)) +:+ "-deployment")
    (first_piece (str_split "/"%char (config_base_model config)))
    (config_base_model config) ("nvcr.io/nim/" +:+ config_base_model config)
    "1.8" (gpu_count args) (pvc_size args) true (deployment_timeout args)
    (logged [(INFO, banner); (INFO, "PHASE 1: Model Deployment"); (INFO, banner)] w)
  = (Raise e, w') ->
  run_deployment_phase manager config args w
  = (Return false, logged [(ERROR, "Deployment failed: " +:+ str_exn e)] w').
Proof.
  intros Hdeploy Hraise. unfold run_deployment_phase. rewrite Hdeploy. cbn [negb].
  rewrite !bind_log_at, !logged_logged. cbn [app].
  unfold try_except. rewrite bind_run, Hraise. reflexivity.
Qed.

(** With [success] false and no custom model, the rest of [main] runs no
    phase. *)
Lemma main_dataset_preparation_skips (config : Config) (args : Args) (w : World R) :
  main_dataset_preparation path_join path_exists manager config args false w
  = (Return 0,
     logged [(INFO, banner); (INFO, "Pipeline completed successfully!");
             (INFO, banner)] w).
Proof.
  unfold main_dataset_preparation, main_customization, main_evaluation,
    main_comparison.
  rewrite !andb_false_r. cbn [truthy_str].
  rewrite !bind_mret, !bind_log_at, !logged_logged. reflexivity.
Qed.

End Gating.

(** C1. The deployment phase is enabled and fails. Without [--all],
    [main] logs that it stops and returns 1: no later phase runs. With
    [--all], [main] does not stop, yet no later phase runs either:
    phases 2 to 4 are guarded by [success], which is now false, and
    phase 5 by [custom_model], which is still [None]; [main] logs that
    the pipeline completed and returns 0. In both cases the world
    [main] leaves is the one the deployment phase left, with the closing
    log lines added. *)
Theorem deployment_failure_gating {R : Type}
    (path_join : string -> string -> string)
    (path_exists : string -> op R bool) (mkdir : string -> op R unit)
    (manager : NeMoMicroservicesManager R)
    (args : Args) (loaded : Config) (w w1 : World R) (r0 : R) (dt0 : nat) :
  let args' := if all args then enable_all_phases args else args in
  let config := override_config loaded args' in
  deploy args' = true ->
  mkdir (output_dir args') (env w) = (Reply tt, r0, dt0) ->
  run_deployment_phase manager config args'
    (logged [(INFO, "Initializing NeMo Microservices Manager...")]
       (after_call w r0 dt0))
  = (Return false, w1) ->
  main path_join path_exists mkdir manager args loaded w
  = if all args then
      (Return 0,
       logged [(INFO, banner); (INFO, "Pipeline completed successfully!");
               (INFO, banner)] w1)
    else
      (Return 1, logged [(ERROR, "Deployment failed, stopping pipeline")] w1).
Proof.
  intros args' config Hdeploy Hmkdir Hfails.
  unfold main. fold args'. fold config.
  rewrite bind_run, (call_run _ _ _ _ _ Hmkdir). cbn [result_of_reply].
  rewrite bind_log_at.
  unfold main_deployment. rewrite Hdeploy, bind_run, Hfails. cbn [negb andb].
  assert (all args' = all args) as ->
    by (unfold args'; destruct (all args) eqn:Hall; exact Hall).
  destruct (all args); cbn [negb].
  - apply main_dataset_preparation_skips.
  - now rewrite bind_log_at.
Qed.

(** The failing input: [--all], and a deployment service that cannot be
    reached, so that [deploy_nim] raises. Only phase 1 runs, and [main]
    returns 0. *)
Lemma deployment_failure_gating_witness :
  let failed : World nat :=
    MkWorld 2%nat 1 2
      [(INFO, "Initializing NeMo Microservices Manager...");
       (INFO, banner); (INFO, "PHASE 1: Model Deployment"); (INFO, banner);
       (ERROR, "Deployment failed: cannot access local variable 'deployment' where it is not associated with a value")] in
  Scripted.run_main false true true
    (Scripted.default_args false false false false false true)
  = (Return 0,
     logged [(INFO, banner); (INFO, "Pipeline completed successfully!");
             (INFO, banner)] failed)
  /\ Scripted.phases_run
       (snd (Scripted.run_main false true true
               (Scripted.default_args false false false false false true)))
     = ["PHASE 1: Model Deployment"].
Proof.
  intros failed. split.
  - exact (deployment_failure_gating Scripted.path_join Scripted.path_exists
             Scripted.mkdir
             (Scripted.manager false true true)
             (Scripted.default_args false false false false false true)
             Scripted.default_config Scripted.start failed 1%nat 0%nat
             eq_refl eq_refl eq_refl).
  - vm_compute. reflexivity.
Defined.

(** The same failure without [--all]: [main] stops with 1. *)
Example strict_deployment_failure :
  let '(r, w) :=
    Scripted.run_main false true true
      (Scripted.default_args true true true true true false) in
  r = Return 1 /\ Scripted.phases_run w = ["PHASE 1: Model Deployment"].
Proof. vm_compute. split; reflexivity. Qed.

(** With [--all], a customization that fails does not keep the
    evaluation phase from running: [success] is not touched by phase 3. *)
Example customization_failure_still_evaluates :
  let '(r, w) :=
    Scripted.run_main true true false
      (Scripted.default_args false false false false false true) in
  r = Return 0
  /\ Scripted.phases_run w
     = ["PHASE 1: Model Deployment"; "PHASE 2: Dataset Preparation";
        "PHASE 3: Model Customization"; "PHASE 4: Model Evaluation"].
Proof. vm_compute. split; reflexivity. Qed.

(** With [--all] and no failure, all five phases run; the comparison
    runs the evaluation twice more. *)
Example all_phases_run :
  let '(r, w) :=
    Scripted.run_main true true true
      (Scripted.default_args false false false false false true) in
  r = Return 0
  /\ Scripted.phases_run w
     = ["PHASE 1: Model Deployment"; "PHASE 2: Dataset Preparation";
        "PHASE 3: Model Customization"; "PHASE 4: Model Evaluation";
        "PHASE 5: Model Comparison"; "PHASE 4: Model Evaluation";
        "PHASE 4: Model Evaluation"].
Proof. vm_compute. split; reflexivity. Qed.

End PipelineProps.

(* ===================================================================== *)
(** * More of the manager *)
(* ===================================================================== *)

Module ManagerExtras.
Import Py Observe PyFacts Manager ManagerFacts.

Lemma bind_return_inv {R A B} (m : M R A) (k : A -> M R B) (w w' : World R) b :
  (m ≫= k) w = (Return b, w') ->
  exists a w1, m w = (Return a, w1) /\ k a w1 = (Return b, w').
Proof.
  rewrite bind_run. destruct (m w) as [[a|e|] w1]; intros H;
    [eauto | discriminate H | discriminate H].
Qed.

Lemma sleep_return_inv {R} tps (oversleep : R -> R * nat) seconds (w w' : World R) u :
  sleep tps oversleep seconds w = (Return u, w') ->
  w' = after_sleep tps oversleep seconds w.
Proof.
  unfold sleep. destruct (bool_decide (seconds < 0)); [discriminate|].
  unfold after_sleep. destruct (oversleep (env w)). now intros [= _ <-].
Qed.

(** ** What the waits hand back *)

Section Returned.
Context {R : Type}.
Variable tps : Z.
Variable oversleep : R -> R * nat.

Lemma wait_for_customization_loop_returned
    (retrieve : string -> op R CustomizationJob) fuel job_id interval timeout
    start (w w' : World R) job :
  wait_for_customization_loop tps oversleep retrieve fuel job_id interval
    timeout start w = (Return job, w') ->
  customization_status job = "completed".
Proof.
  revert w. induction fuel as [|fuel IH]; intros w H; [discriminate H|].
  destruct (Z_lt_le_dec (now w - start) (timeout * tps)) as [Hbudget|Hover].
  - destruct (retrieve job_id (env w)) as [[r e'] dt] eqn:Hfetch.
    rewrite (wait_for_customization_loop_round _ _ _ _ _ _ _ _ _ _ _ _
               Hbudget Hfetch) in H.
    destruct r as [j|e]; [|discriminate H].
    destruct (String.eqb_spec (customization_status j) "completed") as [Hc|_].
    + now injection H as <- _.
    + destruct (String.eqb (customization_status j) "failed"); [discriminate H|].
      apply bind_return_inv in H as (u & w1 & _ & H). now apply IH in H.
  - rewrite wait_for_customization_loop_expired in H by assumption.
    discriminate H.
Qed.

Lemma wait_for_evaluation_loop_returned
    (retrieve : string -> op R EvaluationJob) fuel job_id interval timeout
    start (w w' : World R) job :
  wait_for_evaluation_loop tps oversleep retrieve fuel job_id interval
    timeout start w = (Return job, w') ->
  evaluation_status job = "completed".
Proof.
  revert w. induction fuel as [|fuel IH]; intros w H; [discriminate H|].
  destruct (Z_lt_le_dec (now w - start) (timeout * tps)) as [Hbudget|Hover].
  - destruct (retrieve job_id (env w)) as [[r e'] dt] eqn:Hfetch.
    rewrite (wait_for_evaluation_loop_round _ _ _ _ _ _ _ _ _ _ _ _
               Hbudget Hfetch) in H.
    destruct r as [j|e]; [|discriminate H].
    destruct (String.eqb_spec (evaluation_status j) "completed") as [Hc|_].
    + now injection H as <- _.
    + destruct (String.eqb (evaluation_status j) "failed"); [discriminate H|].
      apply bind_return_inv in H as (u & w1 & _ & H). now apply IH in H.
  - rewrite wait_for_evaluation_loop_expired in H by assumption.
    discriminate H.
Qed.

End Returned.

(** X1. Whatever the services answer and however long it takes, a job
    that [wait_for_customization] or [wait_for_evaluation] returns has
    the status ["completed"]: neither wait hands back a job that is
    pending, running, failed or of unknown status. *)
Theorem waits_return_completed_jobs {R : Type} (tps : Z) (oversleep : R -> R * nat)
    (customization_retrieve : string -> op R CustomizationJob)
    (evaluation_retrieve : string -> op R EvaluationJob)
    (fuel : nat) (job_id : string) (interval timeout : Z) (w : World R) :
  (forall job w',
     wait_for_customization tps oversleep customization_retrieve fuel job_id
       interval timeout w = (Return job, w') ->
     customization_status job = "completed")
  /\ (forall job w',
        wait_for_evaluation tps oversleep evaluation_retrieve fuel job_id
          interval timeout w = (Return job, w') ->
        evaluation_status job = "completed").
Proof.
  split; intros job w' H.
  - eapply wait_for_customization_loop_returned. exact H.
  - eapply wait_for_evaluation_loop_returned. exact H.
Qed.

(** A job that is pending, then of a status the code does not know,
    then completed. *)
Lemma waits_return_completed_jobs_witness :
  customization_status (Scripted.customization_job "completed") = "completed".
Proof.
  refine (proj1 (waits_return_completed_jobs 1000 Scripted.punctual
                   (fun _ => Scripted.scripted
                      [(Reply (Scripted.customization_job "pending"), 2%nat);
                       (Reply (Scripted.customization_job "indexing"), 2%nat)]
                      (Reply (Scripted.customization_job "completed"), 2%nat))
                   (fun _ => Scripted.scripted []
                      (Reply (Scripted.evaluation_job "running"), 0%nat))
                   10 "cust-1" 10 600 Scripted.start)
            (Scripted.customization_job "completed")
            (MkWorld 3%nat 20006 3 []) _).
  vm_compute. reflexivity.
Defined.

(** ** The deployment wait ends *)

Section DeploymentWait.
Context {R : Type}.
Variable tps : Z.
Variable oversleep : R -> R * nat.
Variable retrieve : string -> string -> op R Deployment.
Variables model_name namespace : string.
Variables timeout start : Z.
Hypothesis tps_pos : 0 < tps.

Lemma polled_now (w : World R) : polled tps 10 timeout start w w.
Proof. unfold polled. split; [lia|]. left. lia. Qed.

Lemma polled_one (w : World R) e' dt :
  now w - start < timeout * tps ->
  polled tps 10 timeout start w (after_call w e' dt).
Proof.
  intros Hbudget. unfold polled. cbn [remote_calls after_call].
  split; [lia|]. right.
  replace (Z.of_nat (S (remote_calls w) - remote_calls w) - 1) with 0 by lia.
  lia.
Qed.

Lemma polled_next (w w' : World R) e' dt :
  now w - start < timeout * tps ->
  polled tps 10 timeout start
    (after_sleep tps oversleep 10 (after_call w e' dt)) w' ->
  polled tps 10 timeout start w w'.
Proof.
  intros Hbudget (Hcalls & Hn).
  cbn [remote_calls now after_sleep after_call] in Hcalls, Hn.
  unfold polled. split; [lia|]. cbv zeta in *. right.
  destruct Hn as [Hn|Hn]; [|nia].
  replace (Z.of_nat (remote_calls w' - remote_calls w) - 1) with 0 by lia.
  lia.
Qed.

(** With a loop budget that covers the timeout, the loop ends in one of
    two ways. *)
Lemma wait_for_deployment_loop_ends (f : nat) (w : World R) :
  timeout * tps - (now w - start) <= Z.of_nat f * (10 * tps) ->
  exists w',
    ((exists deployment,
        wait_for_deployment_loop tps oversleep retrieve (S f) model_name
          namespace timeout start w = (Return deployment, w')
        /\ deployed deployment = true)
     \/ (wait_for_deployment_loop tps oversleep retrieve (S f) model_name
           namespace timeout start w
         = (Raise (Exn TimeoutError (deployment_timeout_text model_name timeout)),
            w')
         /\ timeout * tps <= now w' - start))
    /\ polled tps 10 timeout start w w'.
Proof.
  revert w. induction f as [|f IH]; intros w Hfuel.
  - exists w. split; [|apply polled_now]. right. split; [|lia].
    apply wait_for_deployment_loop_expired. lia.
  - destruct (Z_lt_le_dec (now w - start) (timeout * tps)) as [Hbudget|Hover].
    + destruct (retrieve model_name namespace (env w)) as [[r e'] dt] eqn:Hfetch.
      rewrite (wait_for_deployment_loop_round _ _ _ _ _ _ _ _ _ _ _ _
                 Hbudget Hfetch).
      assert (exists w',
                ((exists deployment,
                    wait_for_deployment_loop tps oversleep retrieve (S f)
                      model_name namespace timeout start
                      (after_sleep tps oversleep 10 (after_call w e' dt))
                    = (Return deployment, w')
                    /\ deployed deployment = true)
                 \/ (wait_for_deployment_loop tps oversleep retrieve (S f)
                       model_name namespace timeout start
                       (after_sleep tps oversleep 10 (after_call w e' dt))
                     = (Raise (Exn TimeoutError
                                 (deployment_timeout_text model_name timeout)), w')
                     /\ timeout * tps <= now w' - start))
                /\ polled tps 10 timeout start w w') as Hrest.
      { destruct (IH (after_sleep tps oversleep 10 (after_call w e' dt)))
          as (w' & Hend & Hpolled); [cbn; nia|].
        exists w'. split; [exact Hend|].
        now apply polled_next with (e' := e') (dt := dt). }
      destruct r as [deployment|e]; [|exact Hrest].
      destruct (deployed deployment) eqn:Hready; [|exact Hrest].
      exists (after_call w e' dt). split; [|now apply polled_one].
      left. exists deployment. now split.
    + exists w. split; [|apply polled_now]. right. split; [|assumption].
      now apply wait_for_deployment_loop_expired.
Qed.

End DeploymentWait.

Lemma polled_bound {R} (tps interval timeout : Z) (w w' : World R) :
  0 < tps -> 0 < interval -> 0 <= timeout ->
  polled tps interval timeout (now w) w w' ->
  Z.of_nat (remote_calls w' - remote_calls w) <= ceil_div timeout interval + 1.
Proof.
  intros Htps Hinterval Htimeout (Hcalls & Hn).
  pose proof (PollingProps.ceil_div_upper timeout interval Hinterval) as Hceil.
  cbv zeta in Hn. destruct Hn as [Hn|Hn]; nia.
Qed.

(** X2. [wait_for_deployment] ends whatever the deployment service
    answers, errors included (a loop budget above [ceil(timeout / 10)]
    is enough for the embedding to see it): it either returns a
    deployment that reports itself deployed, or raises [TimeoutError] no
    sooner than [timeout] seconds after it began. No error of a fetch
    leaves the wait, and it fetches at most [ceil(timeout / 10) + 1]
    times. *)
Theorem wait_for_deployment_ends {R : Type} (tps : Z) (oversleep : R -> R * nat)
    (retrieve : string -> string -> op R Deployment)
    (fuel : nat) (model_name namespace : string) (timeout : Z) (w : World R) :
  0 < tps ->
  0 <= timeout ->
  (Z.to_nat (ceil_div timeout 10) < fuel)%nat ->
  exists w',
    ((exists deployment,
        wait_for_deployment tps oversleep retrieve fuel model_name namespace
          timeout w = (Return deployment, w')
        /\ deployed deployment = true)
     \/ (wait_for_deployment tps oversleep retrieve fuel model_name namespace
           timeout w
         = (Raise (Exn TimeoutError (deployment_timeout_text model_name timeout)),
            w')
         /\ timeout * tps <= now w' - now w))
    /\ Z.of_nat (remote_calls w' - remote_calls w) <= ceil_div timeout 10 + 1.
Proof.
  intros Htps Htimeout Hfuel.
  pose proof (PollingProps.ceil_div_upper timeout 10 ltac:(lia)) as Hceil.
  destruct fuel as [|f]; [lia|].
  assert (timeout * tps - (now w - now w) <= Z.of_nat f * (10 * tps))
    as Henough by nia.
  destruct (wait_for_deployment_loop_ends tps oversleep retrieve model_name
              namespace timeout (now w) Htps f w Henough)
    as (w' & Hend & Hpolled).
  exists w'. split; [exact Hend|].
  apply (polled_bound tps 10 timeout w w'); auto; lia.
Qed.

(** A service that fails, then reports a deployment that is not ready,
    then a ready one. *)
Lemma wait_for_deployment_ends_witness :
  exists w',
    ((exists deployment,
        wait_for_deployment 1000 Scripted.punctual
          (fun _ _ => Scripted.scripted
             [(Fail Scripted.connection_error, 5%nat);
              (Reply (Scripted.deployment false), 5%nat)]
             (Reply (Scripted.deployment true), 5%nat))
          61 "llama-3.2-1b-instruct-deployment" "meta" 600 Scripted.start
        = (Return deployment, w')
        /\ deployed deployment = true)
     \/ (wait_for_deployment 1000 Scripted.punctual
           (fun _ _ => Scripted.scripted
              [(Fail Scripted.connection_error, 5%nat);
               (Reply (Scripted.deployment false), 5%nat)]
              (Reply (Scripted.deployment true), 5%nat))
           61 "llama-3.2-1b-instruct-deployment" "meta" 600 Scripted.start
         = (Raise (Exn TimeoutError
                     (deployment_timeout_text "llama-3.2-1b-instruct-deployment" 600)),
            w')
         /\ 600 * 1000 <= now w' - now Scripted.start))
    /\ Z.of_nat (remote_calls w' - remote_calls Scripted.start)
       <= ceil_div 600 10 + 1.
Proof.
  apply wait_for_deployment_ends.
  - lia.
  - lia.
  - vm_compute. lia.
Defined.

(** ** [deploy_nim] once the creation has returned *)

Lemma retrieve_then_read {R} (retrieve : op R Deployment) (w : World R) :
  ((call retrieve ≫= (fun d => mret (Some d))) ≫= read_local "deployment") w
  = call retrieve w.
Proof.
  rewrite !bind_run.
  destruct (call retrieve w) as [[d|e|] w']; reflexivity.
Qed.

(** X3. Once the creation call has returned a record, [deploy_nim] does
    not raise a timeout. Without [wait] it returns the record after that
    one request. With [wait] it returns a deployment that reports itself
    deployed, or, when the wait times out, the handler takes the
    [TimeoutError]: the record of the creation call is returned as it
    was, not ready; only if the text of the timeout contains [500] (in
    the model name or in the timeout) is the deployment retrieved once
    more, and that request decides. *)
Theorem deploy_nim_after_creation {R : Type} (tps : Z)
    (oversleep : R -> R * nat)
    (create : string -> string -> DeploymentConfig -> op R Deployment)
    (retrieve : string -> string -> op R Deployment)
    (fuel : nat) (model_name namespace base_model image_name image_tag : string)
    (gpu : Z) (pvc_size : string) (additional_envs : option (dict string))
    (timeout : Z) (w : World R) (created : Deployment) (r1 : R) (dt1 : nat) :
  create model_name namespace
    (deployment_config base_model image_name image_tag gpu pvc_size additional_envs)
    (env w) = (Reply created, r1, dt1) ->
  0 < tps ->
  (Z.to_nat (ceil_div timeout 10) < fuel)%nat ->
  let run wait :=
    deploy_nim tps oversleep create retrieve fuel model_name namespace
      base_model image_name image_tag gpu pvc_size additional_envs wait timeout w in
  run false = (Return created, after_call w r1 dt1)
  /\ exists w2,
       (exists deployment,
          run true = (Return deployment, w2) /\ deployed deployment = true)
       \/ (timeout * tps <= now w2 - now (after_call w r1 dt1)
           /\ run true
              = if str_contains "500" (deployment_timeout_text model_name timeout)
                then call (retrieve model_name namespace) w2
                else (Return created, w2)).
Proof.
  intros Hcreate Htps Hfuel run. subst run. unfold deploy_nim.
  rewrite (call_run _ _ _ _ _ Hcreate). cbn [result_of_reply].
  split; [reflexivity|].
  destruct fuel as [|f]; [lia|].
  assert (timeout * tps
          - (now (after_call w r1 dt1) - now (after_call w r1 dt1))
          <= Z.of_nat f * (10 * tps)) as Henough.
  { destruct (Z_lt_le_dec timeout 0) as [Hneg|Hpos]; [nia|].
    pose proof (PollingProps.ceil_div_upper timeout 10 ltac:(lia)). nia. }
  destruct (wait_for_deployment_loop_ends tps oversleep retrieve model_name
              namespace timeout (now (after_call w r1 dt1)) Htps f
              (after_call w r1 dt1) Henough)
    as (w2 & [(deployment & Hrun & Hready)|(Hrun & Hclock)] & _);
    exists w2; unfold try_except, wait_for_deployment;
    rewrite bind_run; cbn [time]; rewrite Hrun.
  - left. exists deployment. now split.
  - right. split; [exact Hclock|].
    unfold deploy_nim_except. cbn [str_exn exn_msg].
    destruct (str_contains "500" (deployment_timeout_text model_name timeout)).
    + apply retrieve_then_read.
    + reflexivity.
Qed.

(** A deployment that never becomes ready, waited for 30 seconds: the
    record of the creation comes back, not ready. *)
Lemma deploy_nim_after_creation_witness :
  let create : string -> string -> DeploymentConfig -> op nat Deployment :=
    fun _ _ _ => Scripted.scripted [] (Reply (Scripted.deployment false), 0%nat) in
  let retrieve : string -> string -> op nat Deployment :=
    fun _ _ => Scripted.scripted [] (Reply (Scripted.deployment false), 0%nat) in
  let run wait :=
    deploy_nim 1000 Scripted.punctual create retrieve 100
      "llama-3.2-1b-instruct-deployment" "meta" "meta/llama-3.2-1b-instruct"
      "nvcr.io/nim/meta/llama-3.2-1b-instruct" "1.8" 1 "25Gi" None wait 30
      Scripted.start in
  run false = (Return (Scripted.deployment false), after_call Scripted.start 1%nat 0%nat)
  /\ exists w2,
       (exists deployment,
          run true = (Return deployment, w2) /\ deployed deployment = true)
       \/ (30 * 1000 <= now w2 - now (after_call Scripted.start 1%nat 0%nat)
           /\ run true
              = if str_contains "500"
                     (deployment_timeout_text "llama-3.2-1b-instruct-deployment" 30)
                then call (retrieve "llama-3.2-1b-instruct-deployment" "meta") w2
                else (Return (Scripted.deployment false), w2)).
Proof.
  intros create retrieve.
  apply (deploy_nim_after_creation 1000 Scripted.punctual create retrieve 100
           "llama-3.2-1b-instruct-deployment" "meta" "meta/llama-3.2-1b-instruct"
           "nvcr.io/nim/meta/llama-3.2-1b-instruct" "1.8" 1 "25Gi" None 30
           Scripted.start (Scripted.deployment false) 1%nat 0%nat).
  - reflexivity.
  - lia.
  - vm_compute. lia.
Defined.

(** A timeout of 500 seconds puts [500] in the text of the timeout: the
    handler takes it for "already exists" and retrieves once more. *)
Example deploy_nim_timeout_of_500 :
  str_contains "500"
    (deployment_timeout_text "llama-3.2-1b-instruct-deployment" 500) = true
  /\ str_contains "500"
       (deployment_timeout_text "llama-3.2-1b-instruct-deployment" 600) = false.
Proof. vm_compute. split; reflexivity. Qed.

(** ** Availability of a customized model *)

Section VerifyModelDeployed.
Context {R : Type}.
Variable tps : Z.
Variable oversleep : R -> R * nat.
Variable listing : op R (list InferenceModel).
Variable model_name : string.
Variable interval : Z.
Hypothesis interval_nonneg : 0 <= interval.

(** One round: a request, then either [True] or a sleep. *)
Lemma verify_model_deployed_body_round (w : World R) :
  verify_model_deployed_body tps oversleep listing model_name interval w
  = if lists_model listing model_name w
    then (Return (Break true), after_request listing w)
    else (Return Continue,
          after_sleep tps oversleep interval (after_request listing w)).
Proof.
  unfold verify_model_deployed_body, try_except, lists_model, after_request.
  rewrite bind_run.
  destruct (listing (env w)) as [[a r'] dt] eqn:Hlist.
  rewrite (call_run _ _ _ _ _ Hlist).
  destruct a as [models|e]; cbn [result_of_reply fst snd].
  - cbv zeta. destruct (bool_decide (model_name ∈ map inference_model_id models)).
    + reflexivity.
    + now rewrite bind_run, sleep_run by assumption.
  - now rewrite bind_run, sleep_run by assumption.
Qed.

(** The loop stops at the first round [k] whose listing holds the
    model, or after all its rounds. *)
Lemma verify_model_deployed_loop_spec (retries : nat) (w : World R) :
  exists (k : nat) found w',
    verify_model_deployed_loop tps oversleep listing retries model_name interval w
    = (Return found, w')
    /\ (forall j, (j < k)%nat ->
        lists_model listing model_name
          (after_retries tps oversleep listing interval j w) = false)
    /\ if (found : bool)
       then (k < retries)%nat
            /\ lists_model listing model_name
                 (after_retries tps oversleep listing interval k w) = true
            /\ w' = after_request listing
                      (after_retries tps oversleep listing interval k w)
       else k = retries
            /\ w' = after_retries tps oversleep listing interval k w.
Proof.
  revert w. induction retries as [|retries IH]; intros w.
  - exists 0%nat, false, w. split; [reflexivity|]. split; [lia|]. now split.
  - cbn [verify_model_deployed_loop]. rewrite bind_run.
    rewrite verify_model_deployed_body_round.
    destruct (lists_model listing model_name w) eqn:Hnow.
    + exists 0%nat, true, (after_request listing w). split; [reflexivity|].
      split; [lia|]. split; [lia|]. now split.
    + destruct (IH (after_sleep tps oversleep interval (after_request listing w)))
        as (k & found & w' & Hrun & Hbefore & Hend).
      exists (S k), found, w'. split; [exact Hrun|]. split.
      * intros [|j] Hj; [exact Hnow|]. cbn [after_retries]. apply Hbefore. lia.
      * cbn [after_retries]. destruct found.
        -- destruct Hend as (Hk & Hlists & Hw'). split; [lia|]. now split.
        -- destruct Hend as (Hk & Hw'). split; [lia|exact Hw'].
Qed.

(** Each round that did not find the model cost one request and at
    least the retry interval. *)
Lemma after_retries_calls (k : nat) (w : World R) :
  remote_calls (after_retries tps oversleep listing interval k w)
  = (remote_calls w + k)%nat.
Proof.
  revert w. induction k as [|k IH]; intros w; cbn [after_retries].
  - lia.
  - rewrite IH. cbn. lia.
Qed.

Lemma after_retries_now (k : nat) (w : World R) :
  now w + Z.of_nat k * (interval * tps)
  <= now (after_retries tps oversleep listing interval k w).
Proof.
  revert w. induction k as [|k IH]; intros w; cbn [after_retries].
  - lia.
  - specialize (IH (after_sleep tps oversleep interval (after_request listing w))).
    cbn [now after_sleep after_request after_call] in IH. nia.
Qed.

End VerifyModelDeployed.

(** X4. With a retry interval that is not negative, [verify_model_deployed]
    never raises, whatever the inference service answers, and returns
    [True] exactly when one of the listings it received held the model:
    it asks once per round, up to [max_retries] rounds, sleeps the retry
    interval after each listing that fails or lacks the model, and
    stops at the first listing that holds it. [True] comes with that
    listing, the [k+1]-th of at most [max_retries]; [False] comes after
    exactly [max_retries] requests, none of which listed the model, and
    no sooner than [max_retries * retry_interval] seconds. A
    [max_retries] of zero or less gives [False] with no request. *)
Theorem verify_model_deployed_bounded {R : Type} (tps : Z)
    (oversleep : R -> R * nat) (listing : op R (list InferenceModel))
    (model_name : string) (max_retries retry_interval : Z) (w : World R) :
  0 <= retry_interval ->
  let round k := after_retries tps oversleep listing retry_interval k w in
  exists (k : nat) found w',
    verify_model_deployed tps oversleep listing model_name max_retries
      retry_interval w = (Return found, w')
    /\ (forall j, (j < k)%nat -> lists_model listing model_name (round j) = false)
    /\ remote_calls (round k) = (remote_calls w + k)%nat
    /\ now w + Z.of_nat k * (retry_interval * tps) <= now (round k)
    /\ (if (found : bool)
        then Z.of_nat k < max_retries
             /\ lists_model listing model_name (round k) = true
             /\ w' = after_request listing (round k)
        else Z.of_nat k = Z.max 0 max_retries
             /\ w' = round k)
    /\ Z.of_nat (remote_calls w' - remote_calls w) <= Z.max 0 max_retries
    /\ (found = false ->
        Z.of_nat (remote_calls w' - remote_calls w) = Z.max 0 max_retries
        /\ Z.max 0 max_retries * (retry_interval * tps) <= now w' - now w)
    /\ (max_retries <= 0 -> found = false /\ w' = w).
Proof.
  intros Hinterval round. unfold verify_model_deployed.
  destruct (verify_model_deployed_loop_spec tps oversleep listing model_name
              retry_interval Hinterval (Z.to_nat max_retries) w)
    as (k & found & w' & Hrun & Hbefore & Hend).
  pose proof (after_retries_calls tps oversleep listing retry_interval k w) as Hcalls.
  pose proof (after_retries_now tps oversleep listing retry_interval k w) as Hnow.
  fold (round k) in Hcalls, Hnow, Hend.
  exists k, found, w'. split; [exact Hrun|]. split; [exact Hbefore|].
  split; [exact Hcalls|]. split; [exact Hnow|].
  destruct found.
  - destruct Hend as (Hk & Hlists & ->).
    split; [split; [lia|now split]|].
    cbn [remote_calls after_request after_call]. rewrite Hcalls.
    split; [lia|]. split; [discriminate|]. intros Hzero. lia.
  - destruct Hend as (Hk & ->).
    split; [split; [lia|reflexivity]|].
    rewrite Hcalls. split; [lia|]. split.
    + intros _. split; [lia|].
      assert (Z.max 0 max_retries = Z.of_nat k) as -> by lia. lia.
    + intros Hzero. split; [reflexivity|].
      assert (k = 0%nat) as -> by lia. reflexivity.
Qed.

(** The model shows up in the third listing; three retries are allowed. *)
Lemma verify_model_deployed_bounded_witness :
  let listing :=
    Scripted.scripted
      [(Reply [], 1%nat); (Fail Scripted.connection_error, 1%nat)]
      (Reply [{| inference_model_id := "lora-tutorial-ns/llama-3.2-1b-custom@v1" |}],
       1%nat) in
  let model_name := "lora-tutorial-ns/llama-3.2-1b-custom@v1" in
  let round k := after_retries 1000 Scripted.punctual listing 5 k Scripted.start in
  exists (k : nat) found w',
    verify_model_deployed 1000 Scripted.punctual listing model_name 3 5
      Scripted.start = (Return found, w')
    /\ (forall j, (j < k)%nat -> lists_model listing model_name (round j) = false)
    /\ remote_calls (round k) = (remote_calls Scripted.start + k)%nat
    /\ now Scripted.start + Z.of_nat k * (5 * 1000) <= now (round k)
    /\ (if (found : bool)
        then Z.of_nat k < 3
             /\ lists_model listing model_name (round k) = true
             /\ w' = after_request listing (round k)
        else Z.of_nat k = Z.max 0 3
             /\ w' = round k)
    /\ Z.of_nat (remote_calls w' - remote_calls Scripted.start) <= Z.max 0 3
    /\ (found = false ->
        Z.of_nat (remote_calls w' - remote_calls Scripted.start) = Z.max 0 3
        /\ Z.max 0 3 * (5 * 1000) <= now w' - now Scripted.start)
    /\ (3 <= 0 -> found = false /\ w' = Scripted.start).
Proof.
  intros listing model_name.
  apply (verify_model_deployed_bounded 1000 Scripted.punctual listing model_name
           3 5 Scripted.start).
  lia.
Defined.

Example verify_model_deployed_runs :
  verify_model_deployed 1000 Scripted.punctual
    (Scripted.scripted
       [(Reply [], 1%nat); (Fail Scripted.connection_error, 1%nat)]
       (Reply [{| inference_model_id := "lora-tutorial-ns/llama-3.2-1b-custom@v1" |}],
        1%nat))
    "lora-tutorial-ns/llama-3.2-1b-custom@v1" 3 5 Scripted.start
  = (Return true, MkWorld 3%nat 10003 3 [])
  /\ verify_model_deployed 1000 Scripted.punctual
       (Scripted.scripted [] (Reply [], 1%nat))
       "lora-tutorial-ns/llama-3.2-1b-custom@v1" 24 5 Scripted.start
     = (Return false, MkWorld 24%nat 120024 24 []).
Proof. vm_compute. split; reflexivity. Qed.

(** ** Datasets *)

(** X5. [create_dataset] stops at its first failure and undoes nothing.
    A refusal to create the repository ends it before any upload, unless
    the text of the error contains [409], which counts as created. Then
    come the three uploads, training, validation, testing, in that
    order, and the registration in the Entity Store: the first of these
    that fails ends the call with its error, the earlier ones having
    been made and the later ones not. *)
Theorem create_dataset_stops_at_first_failure {R : Type}
    (create_repo : string -> string -> op R unit)
    (upload_file : string -> string -> string -> string -> op R unit)
    (datasets_create :
       string -> string -> string -> string -> option string -> op R Dataset)
    (namespace dataset_name train_file val_file test_file description : string)
    (project : option string) (w : World R)
    a1 r1 dt1 a2 r2 dt2 a3 r3 dt3 a4 r4 dt4 a5 r5 dt5 :
  let repo_id := namespace +:+ "/" +:+ dataset_name in
  let run :=
    create_dataset create_repo upload_file datasets_create namespace
      dataset_name train_file val_file test_file description project w in
  let w1 := after_call w r1 dt1 in
  let w2 := after_call w1 r2 dt2 in
  let w3 := after_call w2 r3 dt3 in
  let w4 := after_call w3 r4 dt4 in
  let w5 := after_call w4 r5 dt5 in
  create_repo repo_id "dataset" (env w) = (a1, r1, dt1) ->
  upload_file train_file "training/train.jsonl" repo_id "dataset" r1 = (a2, r2, dt2) ->
  upload_file val_file "validation/val.jsonl" repo_id "dataset" r2 = (a3, r3, dt3) ->
  upload_file test_file "testing/test.jsonl" repo_id "dataset" r3 = (a4, r4, dt4) ->
  datasets_create dataset_name namespace description
    ("hf://datasets/" +:+ namespace +:+ "/" +:+ dataset_name) project r4
  = (a5, r5, dt5) ->
  (forall e, a1 = Fail e -> str_contains "409" (str_exn e) = false ->
     run = (Raise e, w1))
  /\ (repo_accepts a1 = true ->
      run = match a2, a3, a4, a5 with
            | Fail e, _, _, _ => (Raise e, w2)
            | Reply _, Fail e, _, _ => (Raise e, w3)
            | Reply _, Reply _, Fail e, _ => (Raise e, w4)
            | Reply _, Reply _, Reply _, Fail e => (Raise e, w5)
            | Reply _, Reply _, Reply _, Reply dataset => (Return dataset, w5)
            end).
Proof.
  intros repo_id run w1 w2 w3 w4 w5 H1 H2 H3 H4 H5.
  subst run repo_id. unfold create_dataset. cbv zeta.
  rewrite bind_run. unfold try_except. rewrite (call_run _ _ _ _ _ H1).
  fold w1. split.
  - intros e -> Hother. cbn [result_of_reply]. now rewrite Hother.
  - intros Haccept.
    assert (match
              match result_of_reply a1 with
              | Raise e =>
                  (if str_contains "409" (str_exn e) then mret () else raise e) w1
              | other => (other, w1)
              end
            with
            | (Return _, w') => (Return tt, w')
            | other => other
            end = (Return tt, w1)) as Hrepo.
    { destruct a1 as [[]|e]; cbn [result_of_reply repo_accepts] in *;
        [reflexivity|]. now rewrite Haccept. }
    destruct (match result_of_reply a1 with
              | Raise e =>
                  (if str_contains "409" (str_exn e) then mret () else raise e) w1
              | _ => _
              end) as [[[]|e|] w'] eqn:Hfirst; try discriminate Hrepo.
    injection Hrepo as ->.
    rewrite bind_run, (call_run _ w1 _ _ _ H2). fold w2.
    destruct a2 as [[]|e2]; cbn [result_of_reply]; [|reflexivity].
    rewrite bind_run, (call_run _ w2 _ _ _ H3). fold w3.
    destruct a3 as [[]|e3]; cbn [result_of_reply]; [|reflexivity].
    rewrite bind_run, (call_run _ w3 _ _ _ H4). fold w4.
    destruct a4 as [[]|e4]; cbn [result_of_reply]; [|reflexivity].
    rewrite bind_run, (call_run _ w4 _ _ _ H5). fold w5.
    destruct a5 as [dataset|e5]; reflexivity.
Qed.

(** The repository is there already (409), the training file goes up,
    the validation file does not. *)
Lemma create_dataset_stops_at_first_failure_witness :
  create_dataset
    (fun _ _ => Scripted.scripted
       [(Fail (Exn RemoteError "409 Client Error: Conflict"), 1%nat)]
       (Reply tt, 1%nat))
    (fun _ _ _ _ => Scripted.scripted
       [(Reply tt, 1%nat); (Reply tt, 1%nat)]
       (Fail Scripted.connection_error, 1%nat))
    (fun namespace dataset_name _ _ _ =>
       Scripted.scripted []
         (Reply {| dataset_namespace := namespace; dataset_name := dataset_name |},
          1%nat))
    "lora-tutorial-ns" "news-lora-dataset" "data/training.jsonl"
    "data/validation.jsonl" "data/test.jsonl" "Dataset for model customization"
    None Scripted.start
  = (Raise Scripted.connection_error, MkWorld 3%nat 3 3 []).
Proof.
  refine (proj2 (create_dataset_stops_at_first_failure
                   (fun _ _ => Scripted.scripted
                      [(Fail (Exn RemoteError "409 Client Error: Conflict"), 1%nat)]
                      (Reply tt, 1%nat))
                   (fun _ _ _ _ => Scripted.scripted
                      [(Reply tt, 1%nat); (Reply tt, 1%nat)]
                      (Fail Scripted.connection_error, 1%nat))
                   (fun namespace dataset_name _ _ _ =>
                      Scripted.scripted []
                        (Reply {| dataset_namespace := namespace;
                                  dataset_name := dataset_name |}, 1%nat))
                   "lora-tutorial-ns" "news-lora-dataset" "data/training.jsonl"
                   "data/validation.jsonl" "data/test.jsonl"
                   "Dataset for model customization" None Scripted.start
                   _ _ _ _ _ _ _ _ _ _ _ _ _ _ _
                   eq_refl eq_refl eq_refl eq_refl eq_refl) eq_refl).
Defined.

(** ** Saving the results of an evaluation *)

(** X6. [save_evaluation_results] makes its three requests in order and
    stops at the first that fails: when the results cannot be fetched
    the archive is not asked for, when the archive cannot be downloaded
    nothing is written, and when the archive cannot be written the
    metrics that were fetched are not returned. *)
Theorem save_evaluation_results_stops_at_first_failure {R Zip : Type}
    (fetch : string -> op R EvaluationResult) (download : string -> op R Zip)
    (write : Zip -> string -> op R unit) (job_id output_path : string)
    (w : World R) a1 r1 dt1 a2 r2 dt2 :
  let run := save_evaluation_results Zip fetch download write job_id output_path w in
  let w1 := after_call w r1 dt1 in
  let w2 := after_call w1 r2 dt2 in
  fetch job_id (env w) = (a1, r1, dt1) ->
  download job_id r1 = (a2, r2, dt2) ->
  match a1, a2 with
  | Fail e, _ => run = (Raise e, w1)
  | Reply _, Fail e => run = (Raise e, w2)
  | Reply results, Reply zip =>
      forall a3 r3 dt3,
        write zip output_path r2 = (a3, r3, dt3) ->
        run = (match a3 with
               | Reply _ => Return (save_evaluation_results_metrics results)
               | Fail e => Raise e
               end, after_call w2 r3 dt3)
  end.
Proof.
  intros run w1 w2 H1 H2. subst run.
  unfold save_evaluation_results, get_evaluation_results.
  rewrite !bind_run, (call_run _ _ _ _ _ H1). fold w1.
  destruct a1 as [results|e1]; cbn [result_of_reply].
  - rewrite bind_run, (call_run _ w1 _ _ _ H2). fold w2.
    destruct a2 as [zip|e2]; cbn [result_of_reply mret M_ret ret].
    + intros a3 r3 dt3 H3.
      rewrite bind_run, (call_run _ w2 _ _ _ H3).
      destruct a3 as [[]|e3]; reflexivity.
    + reflexivity.
  - destruct a2; reflexivity.
Qed.

(** The results are there, the archive is not ready. *)
Lemma save_evaluation_results_stops_at_first_failure_witness :
  save_evaluation_results unit
    (fun _ => Scripted.scripted [] (Reply (Scripted.evaluation_result 0.5 0.0), 1%nat))
    (fun _ => Scripted.scripted [] (Fail (Exn RemoteError "Error code: 404"), 1%nat))
    (fun _ _ => Scripted.scripted [] (Reply tt, 1%nat))
    "eval-1" "output/eval_results.zip" Scripted.start
  = (Raise (Exn RemoteError "Error code: 404"), MkWorld 2%nat 2 2 []).
Proof.
  exact (save_evaluation_results_stops_at_first_failure
           (fun _ => Scripted.scripted []
                       (Reply (Scripted.evaluation_result 0.5 0.0), 1%nat))
           (fun _ => Scripted.scripted []
                       (Fail (Exn RemoteError "Error code: 404"), 1%nat))
           (fun _ _ => Scripted.scripted [] (Reply tt, 1%nat))
           "eval-1" "output/eval_results.zip" Scripted.start
           _ _ _ _ _ _ eq_refl eq_refl).
Defined.

(** ** Cleaning up *)

Lemma delete_models_run {R} (models_delete : string -> string -> op R unit)
    (namespace : string) (models : list ModelInfo) (w : World R) :
  for_each models (delete_model models_delete namespace) w
  = (Return tt,
     after_deletions models_delete namespace (map info_name models) w).
Proof.
  revert w. induction models as [|m models IH]; intros w.
  - reflexivity.
  - cbn [for_each map after_deletions]. unfold bind, delete_model, try_except.
    unfold after_request.
    destruct (models_delete namespace (info_name m) (env w)) as [[a r'] dt] eqn:Hdelete.
    rewrite (call_run _ _ _ _ _ Hdelete). cbn [fst snd].
    destruct a as [[]|e]; cbn [result_of_reply mret M_ret ret]; apply IH.
Qed.

Lemma after_deletions_calls {R} (models_delete : string -> string -> op R unit)
    (namespace : string) (names : list string) (w : World R) :
  remote_calls (after_deletions models_delete namespace names w)
  = (remote_calls w + length names)%nat.
Proof.
  revert w. induction names as [|name names IH]; intros w; cbn [after_deletions length].
  - lia.
  - rewrite IH. cbn. lia.
Qed.

(** X7. [cleanup_resources] asks for the deletion of every model that
    [list_models] lists for the namespace: one request for each listed
    model, by its name and in the namespace given, in the order of the
    listing, and it goes on when a deletion fails. Once the listing is
    there it returns normally whatever the deletions answer. An empty
    namespace string lists without a filter. A listing that fails ends
    the call with its error; without [delete_models] no request is
    made. *)
Theorem cleanup_resources_tries_every_model {R : Type}
    (models_list : option string -> string -> op R (list Model))
    (models_delete : string -> string -> op R unit)
    (namespace : string) (delete_datasets : bool) (w : World R) a r1 dt1 :
  let run delete_models :=
    cleanup_resources models_list models_delete namespace delete_models
      delete_datasets w in
  models_list (if String.eqb namespace "" then None else Some namespace)
    "-created_at" (env w) = (a, r1, dt1) ->
  run false = (Return tt, w)
  /\ match a with
     | Fail e => run true = (Raise e, after_call w r1 dt1)
     | Reply models =>
         run true
         = (Return tt,
            after_deletions models_delete namespace (map model_name models)
              (after_call w r1 dt1))
         /\ remote_calls
              (after_deletions models_delete namespace (map model_name models)
                 (after_call w r1 dt1))
            = (remote_calls w + 1 + length models)%nat
     end.
Proof.
  intros run Hlist. subst run. split; [reflexivity|].
  unfold cleanup_resources, list_models. rewrite !bind_run.
  assert ((if truthy_str (Some namespace)
           then call (models_list (Some namespace) "-created_at")
           else call (models_list None "-created_at")) w
          = (result_of_reply a, after_call w r1 dt1)) as ->.
  { destruct namespace as [|c rest]; cbn [truthy_str String.eqb] in *;
      now apply call_run. }
  destruct a as [models|e]; cbn [result_of_reply mret M_ret ret]; [|reflexivity].
  rewrite delete_models_run, map_map. cbn [model_info info_name].
  split; [reflexivity|].
  rewrite after_deletions_calls, length_map. cbn. lia.
Qed.

(** Two models, [a] and [b], in a registry that keeps a journal of the
    deletions asked of it and refuses to delete [a]: both deletions are
    asked for, by name and in the namespace. *)
Lemma cleanup_resources_tries_every_model_witness :
  let model name :=
    {| model_name := name; model_namespace := "lora-tutorial-ns";
       model_base_model := "meta/llama-3.2-1b-instruct";
       model_created_at := "2025-01-01T00:00:00";
       model_peft := Some {| finetuning_type := "lora" |} |} in
  cleanup_resources (Scripted.journal_list [model "a"; model "b"])
    (Scripted.journal_delete "a") "lora-tutorial-ns" true false
    (MkWorld [] 0 0 [])
  = (Return tt,
     MkWorld ["lora-tutorial-ns/a"; "lora-tutorial-ns/b"] 3 3 []).
Proof.
  intros model.
  exact (proj1 (proj2 (cleanup_resources_tries_every_model
                         (Scripted.journal_list [model "a"; model "b"])
                         (Scripted.journal_delete "a")
                         "lora-tutorial-ns" false (MkWorld [] 0 0 [])
                         (Reply [model "a"; model "b"]) [] 1%nat eq_refl))).
Defined.

(** ** The evaluation request *)

(** X8. [--eval-samples] has no effect. The [limit] argument of
    [create_evaluation_job] does not reach the request (the entry is
    commented out in the source), so with the manager's own
    [create_evaluation_job] the evaluation phase runs the same whatever
    the number of samples asked for. The request has one task, [qa],
    the task whose metrics [save_evaluation_results] reads, with the two
    metrics [f1] and [string-check] over the test file of the dataset. *)
Theorem eval_samples_never_reaches_the_request {R : Type}
    (path_join : string -> string -> string)
    (manager : Pipeline.NeMoMicroservicesManager R)
    (evaluation_jobs_create : EvaluationConfig -> EvaluationTarget -> op R EvaluationJob)
    (config : Pipeline.Config) (args : Pipeline.Args)
    (model_name : option string) (samples : Z) :
  Pipeline.create_evaluation_job manager
  = create_evaluation_job evaluation_jobs_create ->
  Pipeline.run_evaluation_phase path_join manager config
    (with_eval_samples args samples) model_name
  = Pipeline.run_evaluation_phase path_join manager config args model_name
  /\ forall dataset_namespace dataset_name test_file_path limit parallelism
            max_tokens temperature top_p,
       exists qa,
         config_tasks
           (evaluation_config dataset_namespace dataset_name test_file_path limit
              parallelism max_tokens temperature top_p)
         = [("qa", qa)]
         /\ dict_keys (task_metrics qa) = ["f1"; "string-check"]
         /\ task_dataset_files_url qa
            = "hf://datasets/" +:+ dataset_namespace +:+ "/" +:+ dataset_name
              +:+ "/" +:+ test_file_path.
Proof.
  intros Hown. split.
  - unfold Pipeline.run_evaluation_phase.
    cbn [with_eval_samples Pipeline.evaluate Pipeline.eval_model
         Pipeline.eval_samples Pipeline.eval_parallelism Pipeline.eval_max_tokens
         Pipeline.eval_temperature Pipeline.eval_top_p Pipeline.poll_interval
         Pipeline.evaluation_timeout Pipeline.output_dir].
    rewrite Hown. reflexivity.
  - intros. eexists. split; [reflexivity|]. split; reflexivity.
Qed.

(** The default evaluation, and the same with ten samples. *)
Lemma eval_samples_never_reaches_the_request_witness :
  Pipeline.run_evaluation_phase Scripted.path_join (Scripted.prompt_manager true)
    Scripted.default_config
    (with_eval_samples (Scripted.default_args false false false true false false) 10)
    None
  = Pipeline.run_evaluation_phase Scripted.path_join (Scripted.prompt_manager true)
      Scripted.default_config
      (Scripted.default_args false false false true false false) None.
Proof.
  exact (proj1 (eval_samples_never_reaches_the_request Scripted.path_join
                  (Scripted.prompt_manager true)
                  (fun _ _ => Scripted.answer true (Scripted.evaluation_job "created")
                                Scripted.connection_error)
                  Scripted.default_config
                  (Scripted.default_args false false false true false false)
                  None 10 eq_refl)).
Defined.

End ManagerExtras.

(* ===================================================================== *)
(** * More of the pipeline *)
(* ===================================================================== *)

Module PipelineExtras.
Import Py Observe PyFacts Pipeline PipelineProps.

(** ** Computations that complete, computations that return *)

Section Completes.
Context {R : Type}.

Lemma completes_ret {A} (a : A) : completes (mret a : M R A).
Proof. intros w. discriminate. Qed.

Lemma completes_raise {A} (e : exn) : completes (raise e : M R A).
Proof. intros w. discriminate. Qed.

Lemma completes_log (l : level) (msg : string) : completes (log_at (R := R) l msg).
Proof. intros w. discriminate. Qed.

Lemma completes_call {A} (o : op R A) : completes (call o).
Proof.
  intros w. unfold call. destruct (o (env w)) as [[[a|e] r] dt]; discriminate.
Qed.

Lemma completes_bind {A B} (m : M R A) (k : A -> M R B) :
  completes m -> (forall a, completes (k a)) -> completes (m ≫= k).
Proof.
  intros Hm Hk w. rewrite bind_run. specialize (Hm w).
  destruct (m w) as [[a|e|] w']; [apply Hk | discriminate | now cbn in Hm].
Qed.

Lemma completes_try_except {A} (body : M R A) (handler : exn -> M R A) :
  completes body -> (forall e, completes (handler e)) ->
  completes (try_except body handler).
Proof.
  intros Hbody Hhandler w. unfold try_except. specialize (Hbody w).
  destruct (body w) as [[a|e|] w']; [discriminate | apply Hhandler | now cbn in Hbody].
Qed.

Lemma completes_for_each {A} (l : list A) (body : A -> M R unit) :
  (forall x, completes (body x)) -> completes (for_each l body).
Proof.
  intros Hbody. induction l as [|x l IH]; [apply completes_ret|].
  cbn [for_each]. apply (completes_bind (body x) (fun _ => for_each l body)); auto.
Qed.

Lemma returns_with_completes {A} (P : A -> Prop) (m : M R A) :
  returns_with P m -> completes m.
Proof. intros Hm w. destruct (Hm w) as (a & w' & -> & _). discriminate. Qed.

Lemma returns_with_ret {A} (P : A -> Prop) (a : A) :
  P a -> returns_with P (mret a : M R A).
Proof. intros Ha w. now exists a, w. Qed.

Lemma returns_with_log (l : level) (msg : string) :
  returns_with (fun _ => True) (log_at (R := R) l msg).
Proof. intros w. eexists _, _. split; [apply log_at_run|exact I]. Qed.

Lemma returns_with_bind {A B} (Q : A -> Prop) (P : B -> Prop)
    (m : M R A) (k : A -> M R B) :
  returns_with Q m -> (forall a, Q a -> returns_with P (k a)) ->
  returns_with P (m ≫= k).
Proof.
  intros Hm Hk w. rewrite bind_run.
  destruct (Hm w) as (a & w1 & -> & Ha). apply (Hk a Ha).
Qed.

Lemma returns_with_weaken {A} (P Q : A -> Prop) (m : M R A) :
  (forall a, P a -> Q a) -> returns_with P m -> returns_with Q m.
Proof.
  intros HPQ Hm w. destruct (Hm w) as (a & w' & Hrun & Ha). eauto.
Qed.

(** A [try] whose body completes and whose handler returns does
    return. *)
Lemma returns_with_try_except {A} (body : M R A) (handler : exn -> M R A) :
  completes body -> (forall e, returns_with (fun _ => True) (handler e)) ->
  returns_with (fun _ => True) (try_except body handler).
Proof.
  intros Hbody Hhandler w. unfold try_except. specialize (Hbody w).
  destruct (body w) as [[a|e|] w'].
  - now exists a, w'.
  - apply Hhandler.
  - now cbn in Hbody.
Qed.

End Completes.

(** ** The phases return *)

Ltac returns_step :=
  repeat (apply (returns_with_bind (fun _ => True));
          [apply returns_with_log | intros ? _]);
  try first [ apply returns_with_log | apply returns_with_ret; exact I ].

Ltac completes_step :=
  first
    [ apply completes_ret
    | apply completes_raise
    | apply completes_log
    | apply completes_call
    | assumption
    | apply completes_bind; [|intros ?]
    | apply completes_try_except; [|intros ?]
    | apply completes_for_each; intros ?
    | match goal with
      | |- completes (if ?b then _ else _) => destruct b
      | |- completes (match ?x with _ => _ end) => destruct x
      | |- completes (let '(_, _) := ?x in _) => destruct x
      end ].

Section PhasesReturn.
Context {R : Type}.
Variable path_join : string -> string -> string.
Variable path_exists : string -> op R bool.
Variable manager : NeMoMicroservicesManager R.
Hypothesis manager_ok : manager_completes manager.

Ltac manager_step :=
  let H := fresh in
  pose proof manager_ok as H;
  destruct H as (? & ? & ? & ? & ? & ? & ? & ? & ? & ?);
  solve [ auto ].

Ltac completes_all := repeat first [ completes_step | manager_step ].

Lemma run_deployment_phase_returns (config : Config) (args : Args) :
  returns_with (fun _ => True) (run_deployment_phase manager config args).
Proof.
  unfold run_deployment_phase. destruct (deploy args); cbn [negb].
  - returns_step. apply returns_with_try_except.
    + completes_all.
    + intros e. returns_step.
  - returns_step.
Qed.

Lemma run_dataset_preparation_phase_returns (config : Config) (args : Args) :
  returns_with (fun _ => True)
    (run_dataset_preparation_phase path_join path_exists manager config args).
Proof.
  unfold run_dataset_preparation_phase. destruct (prepare_dataset args); cbn [negb].
  - returns_step. apply returns_with_try_except.
    + unfold require_file. completes_all.
    + intros e. returns_step.
  - returns_step.
Qed.

Lemma run_customization_phase_returns (config : Config) (args : Args) :
  returns_with (fun _ => True) (run_customization_phase manager config args).
Proof.
  unfold run_customization_phase. destruct (customize args); cbn [negb].
  - returns_step. apply returns_with_try_except.
    + completes_all.
    + intros e. returns_step.
  - returns_step.
Qed.

Lemma run_evaluation_phase_returns (config : Config) (args : Args)
    (model_name : option string) :
  returns_with (fun _ => True)
    (run_evaluation_phase path_join manager config args model_name).
Proof.
  unfold run_evaluation_phase. destruct (evaluate args); cbn [negb].
  - returns_step. apply returns_with_try_except.
    + unfold report_metrics. completes_all.
    + intros e. returns_step.
  - returns_step.
Qed.

Lemma run_comparison_phase_returns (config : Config) (args : Args)
    (custom_model : option string) :
  returns_with (fun _ => True)
    (run_comparison_phase path_join manager config args custom_model).
Proof.
  unfold run_comparison_phase.
  destruct (negb (compare args) || negb (truthy_str custom_model)).
  - returns_step.
  - returns_step. apply returns_with_try_except.
    + pose proof (fun m => returns_with_completes _ _
                    (run_evaluation_phase_returns config args m)) as Heval.
      unfold report_metrics, report_improvement. completes_all.
    + intros e. returns_step.
Qed.

End PhasesReturn.


Lemma unreachable_manager_completes : manager_completes Scripted.unreachable_manager.
Proof. repeat split; intros; apply completes_call. Qed.


Example phases_against_unreachable_services :
  let args := Scripted.default_args true true true true true false in
  let manager := Scripted.unreachable_manager in
  (run_deployment_phase manager Scripted.default_config args Scripted.start).1
  = Return false
  /\ (run_dataset_preparation_phase Scripted.path_join Scripted.path_exists
        manager Scripted.default_config args Scripted.start).1
     = Return false
  /\ (run_customization_phase manager Scripted.default_config args Scripted.start).1
     = Return None
  /\ (run_evaluation_phase Scripted.path_join manager Scripted.default_config
        args None Scripted.start).1
     = Return [].
Proof. vm_compute. repeat split. Qed.

(** ** [main] under [--all] *)

Section MainAll.
Context {R : Type}.
Variable path_join : string -> string -> string.
Variable path_exists : string -> op R bool.
Variable mkdir : string -> op R unit.
Variable manager : NeMoMicroservicesManager R.
Hypothesis manager_ok : manager_completes manager.
Variable config : Config.
Variable args : Args.
Hypothesis all_set : all args = true.

Lemma main_comparison_returns_zero (custom_model : option string) :
  returns_with (eq 0)
    (main_comparison path_join manager config args custom_model).
Proof.
  unfold main_comparison.
  apply (returns_with_bind (fun _ => True)).
  - destruct (compare args && truthy_str custom_model).
    + apply run_comparison_phase_returns, manager_ok.
    + now apply returns_with_ret.
  - intros _ _.
    repeat (apply (returns_with_bind (fun _ => True));
            [apply returns_with_log | intros ? _]).
    now apply returns_with_ret.
Qed.

Lemma main_evaluation_returns_zero (success : bool) (custom_model : option string) :
  returns_with (eq 0)
    (main_evaluation path_join manager config args success custom_model).
Proof.
  unfold main_evaluation.
  apply (returns_with_bind (fun _ => True)).
  - destruct (evaluate args && success).
    + apply (returns_with_bind (fun _ => True)).
      * apply run_evaluation_phase_returns, manager_ok.
      * intros _ _. now apply returns_with_ret.
    + now apply returns_with_ret.
  - intros _ _. apply main_comparison_returns_zero.
Qed.

Lemma main_customization_returns_zero (success : bool) :
  returns_with (eq 0)
    (main_customization path_join manager config args success).
Proof.
  unfold main_customization. rewrite all_set. cbn [negb].
  destruct (customize args && success).
  - apply (returns_with_bind (fun _ => True)).
    + apply run_customization_phase_returns, manager_ok.
    + intros custom_model _. rewrite andb_false_r.
      apply main_evaluation_returns_zero.
  - apply main_evaluation_returns_zero.
Qed.

Lemma main_dataset_preparation_returns_zero (success : bool) :
  returns_with (eq 0)
    (main_dataset_preparation path_join path_exists manager config args success).
Proof.
  unfold main_dataset_preparation. rewrite all_set. cbn [negb].
  destruct (prepare_dataset args && success).
  - apply (returns_with_bind (fun _ => True)).
    + apply run_dataset_preparation_phase_returns, manager_ok.
    + intros success' _. rewrite andb_false_r.
      apply main_customization_returns_zero.
  - apply main_customization_returns_zero.
Qed.

Lemma main_deployment_returns_zero :
  returns_with (eq 0)
    (main_deployment path_join path_exists manager config args).
Proof.
  unfold main_deployment. rewrite all_set. cbn [negb].
  destruct (deploy args).
  - apply (returns_with_bind (fun _ => True)).
    + apply run_deployment_phase_returns, manager_ok.
    + intros success _. rewrite andb_false_r.
      apply main_dataset_preparation_returns_zero.
  - apply main_dataset_preparation_returns_zero.
Qed.

End MainAll.

(** X10. With [--all], [main] returns 0 whatever fails afterwards: once
    the output directory is made, and against a manager whose methods
    are not cut off by the loop budget, no failure of any phase makes
    [main] return 1 or raise. *)
Theorem main_all_returns_zero {R : Type}
    (path_join : string -> string -> string) (path_exists : string -> op R bool)
    (mkdir : string -> op R unit) (manager : NeMoMicroservicesManager R)
    (args : Args) (loaded : Config) (w : World R) (r0 : R) (dt0 : nat) :
  all args = true ->
  manager_completes manager ->
  mkdir (output_dir args) (env w) = (Reply tt, r0, dt0) ->
  exists w', main path_join path_exists mkdir manager args loaded w = (Return 0, w').
Proof.
  intros Hall Hmanager Hmkdir. unfold main. rewrite Hall.
  rewrite bind_run.
  assert (mkdir (output_dir (enable_all_phases args)) (env w) = (Reply tt, r0, dt0))
    as Hmkdir' by exact Hmkdir.
  rewrite (call_run _ _ _ _ _ Hmkdir'). cbn [result_of_reply].
  rewrite bind_log_at.
  destruct (main_deployment_returns_zero path_join path_exists manager Hmanager
              (override_config loaded (enable_all_phases args))
              (enable_all_phases args) Hall
              (logged [(INFO, "Initializing NeMo Microservices Manager...")]
                 (after_call w r0 dt0))) as (z & w' & Hrun & <-).
  now exists w'.
Qed.

(** [--all] against services none of which can be reached. *)
Lemma main_all_returns_zero_witness :
  exists w',
    Pipeline.main Scripted.path_join Scripted.path_exists Scripted.mkdir
      Scripted.unreachable_manager
      (Scripted.default_args false false false false false true)
      Scripted.default_config Scripted.start
    = (Return 0, w').
Proof.
  apply (main_all_returns_zero Scripted.path_join Scripted.path_exists
           Scripted.mkdir Scripted.unreachable_manager
           (Scripted.default_args false false false false false true)
           Scripted.default_config Scripted.start 1%nat 0%nat eq_refl
           unreachable_manager_completes eq_refl).
Defined.

(** ** Preconditions of the dataset phase *)

Lemma bind_eq {R A B} (m : M R A) (k : A -> M R B) (w : World R) :
  bind m k w =
    match m w with
    | (Return a, w') => k a w'
    | (Raise e, w') => (Raise e, w')
    | (OutOfFuel, w') => (OutOfFuel, w')
    end.
Proof. reflexivity. Qed.

Lemma require_file_run {R} (path_exists : string -> op R bool) (file : string)
    (w : World R) a r dt :
  path_exists file (env w) = (a, r, dt) ->
  require_file path_exists file w
  = (match a with
     | Reply true => Return tt
     | Reply false =>
         Raise (Exn FileNotFoundError ("Required data file not found: " +:+ file))
     | Fail e => Raise e
     end, after_call w r dt).
Proof.
  intros H. unfold require_file. rewrite bind_run, (call_run _ _ _ _ _ H).
  destruct a as [[|]|e]; reflexivity.
Qed.

(** X11. The dataset phase checks its three files, training, validation,
    test, before it asks anything of the manager: at the first file that
    is not there it logs the error and returns [False], the only
    requests made being the checks up to that file. *)
Theorem dataset_phase_requires_files {R : Type}
    (path_join : string -> string -> string) (path_exists : string -> op R bool)
    (manager : NeMoMicroservicesManager R) (config : Config) (args : Args)
    (w : World R) a1 r1 dt1 a2 r2 dt2 a3 r3 dt3 :
  let train_file := path_join (data_dir args) "training.jsonl" in
  let val_file := path_join (data_dir args) "validation.jsonl" in
  let test_file := path_join (data_dir args) "test.jsonl" in
  let run :=
    run_dataset_preparation_phase path_join path_exists manager config args w in
  let w0 := logged (phase_records "PHASE 2: Dataset Preparation") w in
  let w1 := after_call w0 r1 dt1 in
  let w2 := after_call w1 r2 dt2 in
  let w3 := after_call w2 r3 dt3 in
  let failed (file : string) :=
    [(ERROR, "Dataset preparation failed: Required data file not found: " +:+ file)] in
  prepare_dataset args = true ->
  path_exists train_file (env w) = (a1, r1, dt1) ->
  path_exists val_file r1 = (a2, r2, dt2) ->
  path_exists test_file r2 = (a3, r3, dt3) ->
  (a1 = Reply false -> run = (Return false, logged (failed train_file) w1))
  /\ (a1 = Reply true -> a2 = Reply false ->
      run = (Return false, logged (failed val_file) w2))
  /\ (a1 = Reply true -> a2 = Reply true -> a3 = Reply false ->
      run = (Return false, logged (failed test_file) w3)).
Proof.
  intros train_file val_file test_file run w0 w1 w2 w3 failed Hflag H1 H2 H3.
  subst run. unfold run_dataset_preparation_phase. rewrite Hflag. cbn [negb].
  rewrite !bind_log_at, !logged_logged. cbn [app].
  fold (phase_records "PHASE 2: Dataset Preparation"). fold w0.
  fold train_file val_file test_file.
  assert (path_exists train_file (env w0) = (a1, r1, dt1)) as H1' by exact H1.
  unfold try_except. rewrite bind_run. cbn [for_each].
  rewrite bind_eq, (require_file_run _ _ _ _ _ _ H1'). fold w1.
  split; [|split].
  - intros ->. reflexivity.
  - intros -> ->.
    rewrite bind_eq, (require_file_run _ _ w1 _ _ _ H2). reflexivity.
  - intros -> -> ->.
    rewrite bind_eq, (require_file_run _ _ w1 _ _ _ H2). fold w2.
    rewrite bind_eq, (require_file_run _ _ w2 _ _ _ H3). reflexivity.
Qed.

(** The validation file is missing: two checks, no request to the
    manager. *)
Lemma dataset_phase_requires_files_witness :
  run_dataset_preparation_phase Scripted.path_join (Scripted.path_exists_but 1)
    (Scripted.manager true true true) Scripted.default_config
    (Scripted.default_args false true false false false false) Scripted.start
  = (Return false,
     MkWorld 2%nat 0 2
       (phase_records "PHASE 2: Dataset Preparation"
        ++ [(ERROR, "Dataset preparation failed: Required data file not found: data/validation.jsonl")])).
Proof.
  exact (proj1 (proj2 (dataset_phase_requires_files Scripted.path_join
                         (Scripted.path_exists_but 1)
                         (Scripted.manager true true true) Scripted.default_config
                         (Scripted.default_args false true false false false false)
                         Scripted.start _ _ _ _ _ _ _ _ _
                         eq_refl eq_refl eq_refl eq_refl))
           eq_refl eq_refl).
Defined.

(** ** The other gates of [main] *)





(** ** The comparison without its inputs *)

(** X14. The comparison phase evaluates through [run_evaluation_phase],
    which does nothing unless [--evaluate] is set. With [--compare] and
    a custom model but without [--evaluate], the phase asks nothing of
    the manager, both metric sets are empty, and the report has its
    headings and no line under "Improvements:". *)
Theorem comparison_without_evaluation {R : Type}
    (path_join : string -> string -> string)
    (manager : NeMoMicroservicesManager R) (config : Config) (args : Args)
    (custom_model : option string) (w : World R) :
  compare args = true ->
  evaluate args = false ->
  truthy_str custom_model = true ->
  run_comparison_phase path_join manager config args custom_model w
  = (Return tt,
     logged
       (phase_records "PHASE 5: Model Comparison"
        ++ [(INFO, "Evaluating base model...");
            (INFO, "Skipping evaluation phase");
            (INFO, "Evaluating custom model...");
            (INFO, "Skipping evaluation phase");
            (INFO, banner);
            (INFO, "Model Comparison Results:");
            (INFO, rule);
            (INFO, "Base Model: " +:+ config_base_model config);
            (INFO, rule);
            (INFO, "Custom Model: " +:+ default "" custom_model);
            (INFO, rule);
            (INFO, "Improvements:");
            (INFO, banner)]) w).
Proof.
  intros Hcompare Hevaluate Hcustom.
  assert (Hskip : forall model_name (w' : World R),
            run_evaluation_phase path_join manager config args model_name w'
            = (Return [], logged [(INFO, "Skipping evaluation phase")] w')).
  { intros model_name w'. unfold run_evaluation_phase.
    rewrite Hevaluate. reflexivity. }
  unfold run_comparison_phase, try_except.
  rewrite Hcompare, Hcustom. cbn [negb orb].
  rewrite !bind_log_at.
  rewrite bind_run, Hskip, bind_log_at.
  rewrite bind_run, Hskip.
  rewrite !bind_log_at.
  assert (Hnone : forall w' : World R,
            report_metrics (R := R) [] w' = (Return tt, w')) by reflexivity.
  rewrite bind_run, Hnone, !bind_log_at.
  rewrite bind_run, Hnone, !bind_log_at.
  assert (Hfor : forall w' : World R,
            for_each (dict_keys (V := float) []) (report_improvement (R := R) [] []) w'
            = (Return tt, w')) by reflexivity.
  rewrite bind_run, Hfor. cbv beta iota.
  rewrite log_at_run, !logged_logged. reflexivity.
Qed.

(** [--customize --compare] without [--evaluate], in the phase. *)
Lemma comparison_without_evaluation_witness :
  (run_comparison_phase Scripted.path_join Scripted.unreachable_manager
     Scripted.default_config
     (Scripted.default_args false false true false true false)
     (Some "lora-tutorial-ns/llama-3.2-1b-custom@v1") Scripted.start).1
  = Return tt
  /\ remote_calls
       (run_comparison_phase Scripted.path_join Scripted.unreachable_manager
          Scripted.default_config
          (Scripted.default_args false false true false true false)
          (Some "lora-tutorial-ns/llama-3.2-1b-custom@v1") Scripted.start).2
     = 0%nat.
Proof.
  rewrite (comparison_without_evaluation Scripted.path_join
             Scripted.unreachable_manager Scripted.default_config
             (Scripted.default_args false false true false true false)
             (Some "lora-tutorial-ns/llama-3.2-1b-custom@v1") Scripted.start
             eq_refl eq_refl eq_refl).
  split; reflexivity.
Defined.

(** X15. Without [--customize] (and without [--all]) [main] never has a
    custom model, so [--compare] has no effect: with no other phase
    enabled, [main] makes the output directory, runs no phase, asks
    nothing of the manager and returns 0, whether [--compare] is set or
    not. *)
Theorem compare_alone_does_nothing {R : Type}
    (path_join : string -> string -> string) (path_exists : string -> op R bool)
    (mkdir : string -> op R unit) (manager : NeMoMicroservicesManager R)
    (args : Args) (loaded : Config) (w : World R) (r0 : R) (dt0 : nat) :
  all args = false ->
  deploy args = false ->
  prepare_dataset args = false ->
  customize args = false ->
  evaluate args = false ->
  mkdir (output_dir args) (env w) = (Reply tt, r0, dt0) ->
  main path_join path_exists mkdir manager args loaded w
  = (Return 0,
     logged ((INFO, "Initializing NeMo Microservices Manager...") :: closing_records)
       (after_call w r0 dt0)).
Proof.
  intros Hall Hdeploy Hprepare Hcustomize Hevaluate Hmkdir.
  unfold main. rewrite Hall.
  rewrite bind_run, (call_run _ _ _ _ _ Hmkdir). cbn [result_of_reply].
  rewrite bind_log_at.
  unfold main_deployment, main_dataset_preparation, main_customization,
    main_evaluation, main_comparison.
  rewrite Hdeploy, Hprepare, Hcustomize, Hevaluate. cbn [andb truthy_str].
  rewrite andb_false_r.
  rewrite !bind_mret, !bind_log_at, !logged_logged. reflexivity.
Qed.

(** [--compare] alone. *)
Lemma compare_alone_does_nothing_witness :
  Pipeline.main Scripted.path_join Scripted.path_exists Scripted.mkdir
    Scripted.unreachable_manager
    (Scripted.default_args false false false false true false)
    Scripted.default_config Scripted.start
  = (Return 0,
     logged ((INFO, "Initializing NeMo Microservices Manager...") :: closing_records)
       (after_call Scripted.start 1%nat 0%nat)).
Proof.
  exact (compare_alone_does_nothing Scripted.path_join Scripted.path_exists
           Scripted.mkdir Scripted.unreachable_manager
           (Scripted.default_args false false false false true false)
           Scripted.default_config Scripted.start 1%nat 0%nat
           eq_refl eq_refl eq_refl eq_refl eq_refl eq_refl).
Defined.

(** ** The configuration file *)

Lemma dict_get_absent {V} (d : dict V) (k : string) :
  ~ In k (dict_keys d) -> dict_get d k = None.
Proof.
  induction d as [|[k' v] d IH]; intros Hk; [reflexivity|].
  cbn [dict_get]. destruct (String.eqb_spec k' k) as [->|Hne].
  - exfalso. apply Hk. now left.
  - apply IH. intros Hin. apply Hk. now right.
Qed.

Lemma dict_get_after_set {V} (d : dict V) (k k' : string) (v : V) :
  dict_get (dict_set d k v) k'
  = if String.eqb k k' then Some v else dict_get d k'.
Proof.
  induction d as [|[k0 v0] d IH]; cbn [dict_set dict_get].
  - reflexivity.
  - destruct (String.eqb_spec k0 k) as [->|Hne]; cbn [dict_get].
    + destruct (String.eqb_spec k k'); reflexivity.
    + rewrite IH. destruct (String.eqb_spec k0 k') as [->|Hne'].
      * destruct (String.eqb_spec k k'); [congruence | reflexivity].
      * reflexivity.
Qed.

Lemma dict_get_update {V} (other d : dict V) (k : string) :
  List.NoDup (dict_keys other) ->
  dict_get (dict_update d other) k
  = match dict_get other k with
    | Some v => Some v
    | None => dict_get d k
    end.
Proof.
  revert d. induction other as [|[k0 v0] other IH]; intros d Hnodup.
  - reflexivity.
  - apply List.NoDup_cons_iff in Hnodup as [Hfresh Hnodup].
    change (dict_update d ((k0, v0) :: other))
      with (dict_update (dict_set d k0 v0) other).
    rewrite (IH _ Hnodup), dict_get_after_set. cbn [dict_get].
    destruct (String.eqb_spec k0 k) as [->|Hne].
    + now rewrite (dict_get_absent other k Hfresh).
    + reflexivity.
Qed.

(** X16. [load_config] with a configuration file that exists and
    parses: the loaded configuration gives every key of the file the
    file's value and every other key its default, so each of the ten
    default keys is present whatever the file holds. The file is asked
    for twice, once for its existence and once for its content. *)
Theorem load_config_file_overrides_defaults {R Json : Type}
    (json_str : string -> Json) (json_null : Json)
    (path_exists : string -> op R bool)
    (read_json : string -> op R (dict Json))
    (config_file : string) (file_config : dict Json)
    (w : World R) (r1 r2 : R) (dt1 dt2 : nat) :
  config_file <> "" ->
  path_exists config_file (env w) = (Reply true, r1, dt1) ->
  read_json config_file r1 = (Reply file_config, r2, dt2) ->
  List.NoDup (dict_keys file_config) ->
  exists config,
    Pipeline.load_config Json json_str json_null path_exists read_json (Some config_file) w
    = (Return config, after_call (after_call w r1 dt1) r2 dt2)
    /\ (forall k,
          dict_get config k
          = match dict_get file_config k with
            | Some v => Some v
            | None => dict_get (Pipeline.default_config Json json_str json_null) k
            end)
    /\ (forall k,
          In k (dict_keys (Pipeline.default_config Json json_str json_null)) ->
          dict_mem config k = true).
Proof.
  intros Hname Hexists Hread Hnodup.
  exists (dict_update (Pipeline.default_config Json json_str json_null) file_config).
  assert (Hget : forall k,
            dict_get (dict_update (Pipeline.default_config Json json_str json_null) file_config) k
            = match dict_get file_config k with
              | Some v => Some v
              | None => dict_get (Pipeline.default_config Json json_str json_null) k
              end)
    by (intros k; now apply dict_get_update).
  split; [|split].
  - unfold Pipeline.load_config.
    assert (Htruthy : truthy_str (Some config_file) = true)
      by (destruct config_file; [congruence | reflexivity]).
    rewrite Htruthy. cbn [from_option id].
    rewrite bind_run, (call_run _ _ _ _ _ Hexists). cbn [result_of_reply].
    rewrite bind_run,
      (call_run (read_json config_file) (after_call w r1 dt1) _ r2 dt2 Hread).
    reflexivity.
  - exact Hget.
  - intros k Hk. unfold dict_mem. rewrite Hget.
    destruct (dict_get file_config k); [reflexivity|].
    cbn [Pipeline.default_config dict_keys map fst] in Hk.
    repeat (destruct Hk as [<-|Hk]; [reflexivity|]). destruct Hk.
Qed.

(** A file that renames the namespace and adds a project. *)
Lemma load_config_file_overrides_defaults_witness :
  exists config,
    Pipeline.load_config (option string) Some None Scripted.path_exists
      (fun _ k => (Reply [("namespace", Some "news-ns"); ("project", Some "news")],
                   S k, 0%nat))
      (Some "config.json") Scripted.start
    = (Return config,
       after_call (after_call Scripted.start 1%nat 0%nat) 2%nat 0%nat)
    /\ (forall k,
          dict_get config k
          = match dict_get [("namespace", Some "news-ns"); ("project", Some "news")] k with
            | Some v => Some v
            | None => dict_get (Pipeline.default_config (option string) Some None) k
            end)
    /\ (forall k,
          In k (dict_keys (Pipeline.default_config (option string) Some None)) ->
          dict_mem config k = true).
Proof.
  apply (load_config_file_overrides_defaults (Json := option string) Some None Scripted.path_exists
           (fun _ k => (Reply [("namespace", Some "news-ns"); ("project", Some "news")],
                        S k, 0%nat))
           "config.json" [("namespace", Some "news-ns"); ("project", Some "news")]
           Scripted.start 1%nat 2%nat 0%nat 0%nat).
  - discriminate.
  - reflexivity.
  - reflexivity.
  - repeat constructor; cbn; intros H;
      repeat (destruct H as [H|H]; [discriminate H|]); exact H.
Defined.

(** ** A customized model that is not yet served *)

(** A request that is answered returns the answer. *)
Lemma returns_with_call {R A} (P : A -> Prop) (o : op R A) :
  (forall r, exists a r' dt, o r = (Reply a, r', dt) /\ P a) ->
  returns_with P (call o).
Proof.
  intros Ho w. destruct (Ho (env w)) as (a & r' & dt & Hrun & Ha).
  exists a, (after_call w r' dt). split; [|exact Ha].
  now rewrite (call_run _ _ _ _ _ Hrun).
Qed.

Lemma returns_with_for_each_log {R A} (l : list A) (body : A -> M R unit) :
  (forall x, returns_with (fun _ => True) (body x)) ->
  returns_with (fun _ => True) (for_each l body).
Proof.
  intros Hbody. induction l as [|x l IH].
  - intros w. now exists tt, w.
  - cbn [for_each].
    apply (returns_with_bind (fun _ => True)); [apply Hbody | intros _ _; exact IH].
Qed.

(** X17. The customization phase does not depend on the model being
    served. When the listing gives at least one configuration and the
    creation of the job, the wait and the availability check all
    return, the phase returns the name
    [namespace/custom_model_name@vversion] of the customized model,
    whether the availability check (24 tries, 5 seconds apart) answered
    True or False. *)
Theorem customization_returns_unverified_model {R : Type}
    (manager : NeMoMicroservicesManager R) (config : Config) (args : Args) :
  customize args = true ->
  returns_with (fun configs => configs <> []) (list_customization_configs manager) ->
  (forall job_name output_model cfg dataset ns hp key,
     returns_with (fun _ => True)
       (create_customization_job manager job_name output_model cfg dataset ns hp key)) ->
  (forall job_id,
     returns_with (fun _ => True)
       (wait_for_customization manager job_id (poll_interval args)
          (customization_timeout args))) ->
  (forall output_model,
     returns_with (fun _ => True) (verify_model_deployed manager output_model 24 5)) ->
  returns_with
    (fun custom_model =>
       custom_model
       = Some (config_namespace config +:+ "/" +:+ config_custom_model_name config
               +:+ "@v" +:+ model_version args))
    (run_customization_phase manager config args).
Proof.
  intros Hcustomize Hlist Hcreate Hwait Hverify.
  unfold run_customization_phase. rewrite Hcustomize. cbn [negb].
  do 3 (apply (returns_with_bind (fun _ => True)); [apply returns_with_log | intros _ _]).
  intros w. unfold try_except.
  match goal with
  | |- context [let (_, _) := ?body w in _] =>
      assert (Hbody :
        returns_with
          (fun custom_model =>
             custom_model
             = Some (config_namespace config +:+ "/"
                     +:+ config_custom_model_name config
                     +:+ "@v" +:+ model_version args)) body)
  end.
  { apply (returns_with_bind (fun configs => configs <> [])); [exact Hlist|].
    intros configs Hconfigs.
    apply (returns_with_bind (fun _ => True)).
    { destruct configs; [congruence | now apply returns_with_ret]. }
    intros _ _.
    apply (returns_with_bind (fun _ => True)); [apply returns_with_log | intros _ _].
    apply (returns_with_bind (fun _ => True)).
    { apply returns_with_for_each_log. intros cfg. apply returns_with_log. }
    intros _ _. cbv zeta.
    apply (returns_with_bind (fun _ => True)); [apply returns_with_log | intros _ _].
    apply (returns_with_bind (fun _ => True)); [apply Hcreate | intros job _].
    apply (returns_with_bind (fun _ => True)); [apply returns_with_log | intros _ _].
    apply (returns_with_bind (fun _ => True)); [apply Hwait | intros done _].
    apply (returns_with_bind (fun _ => True)); [apply returns_with_log | intros _ _].
    apply (returns_with_bind (fun _ => True)); [apply Hverify | intros available _].
    destruct available;
      (apply (returns_with_bind (fun _ => True));
       [apply returns_with_log | intros _ _; now apply returns_with_ret]). }
  destruct (Hbody w) as (a & w' & -> & Ha). now exists a, w'.
Qed.

(** The default run of [--customize] against services that answer at
    once, the model not being served at the end. *)
Lemma customization_returns_unverified_model_witness :
  returns_with
    (fun custom_model =>
       custom_model = Some "lora-tutorial-ns/llama-3.2-1b-custom@v1")
    (run_customization_phase (Scripted.prompt_manager false)
       Scripted.default_config
       (Scripted.default_args false false true false false false)).
Proof.
  assert (Hanswer : forall A (a : A),
            returns_with (fun _ => True)
              (call (Scripted.answer true a Scripted.connection_error))).
  { intros A a. apply returns_with_call. intros r.
    exists a, (S r), 1%nat. split; [|exact I].
    unfold Scripted.answer, Scripted.scripted. now destruct r. }
  apply (customization_returns_unverified_model (Scripted.prompt_manager false)
           Scripted.default_config
           (Scripted.default_args false false true false false false)).
  - reflexivity.
  - apply returns_with_call. intros r. eexists _, (S r), 1%nat.
    split; [unfold Scripted.answer, Scripted.scripted; now destruct r | discriminate].
  - intros. apply Hanswer.
  - intros. apply Hanswer.
  - intros. apply Hanswer.
Defined.

End PipelineExtras.
